(** * FIR field extraction and pattern refinement: a shallow embedding

    The Python services [FIRExtractionService] (extraction_service.py) and
    [TrainingService] (training_service.py) are embedded as executable
    Rocq functions:

    - a Python [str] is a list of Unicode code points;
    - Python objects that travel through the services (OCR fragments, the
      FIR record, training samples) are values of a small dynamic type
      [value]; dictionaries keep insertion order;
    - raising is explicit: fallible code returns [exc A];
    - the calls to the [re] module go through a backtracking matcher over
      the fragment of the regular-expression syntax the source uses;
    - Python's character database (whitespace, alphanumerics, decimal
      digits, case folding) is an interface, [PyUnicode]; the general
      theorems hold for every database, the examples run on its Basic
      Latin instance. *)

From Stdlib Require Import String Ascii DecimalString.
From Stdlib Require Import List Bool Arith NArith ZArith QArith Lia.
Import ListNotations.

Set Implicit Arguments.
Local Open Scope list_scope.

(* ================================================================== *)
(** ** Python strings *)

(** A [str] is a sequence of code points. *)
Definition char := N.
Definition str := list char.

(** Source literals are written as Rocq strings, which hold their UTF-8
    bytes; [py] decodes them to code points. *)
Fixpoint utf8_decode (need : nat) (acc : N) (bs : list N) : str :=
  match bs with
  | [] => []
  | b :: bs' =>
      match need with
      | S n =>
          let acc' := (acc * 64 + b mod 64)%N in
          match n with
          | O => acc' :: utf8_decode 0 0%N bs'
          | S _ => utf8_decode n acc' bs'
          end
      | O =>
          if (b <? 128)%N then b :: utf8_decode 0 0%N bs'
          else if (b <? 224)%N then utf8_decode 1 (b mod 32)%N bs'
          else if (b <? 240)%N then utf8_decode 2 (b mod 16)%N bs'
          else utf8_decode 3 (b mod 8)%N bs'
      end
  end.

Definition py (s : string) : str :=
  utf8_decode 0 0%N (map N_of_ascii (list_ascii_of_string s)).

Definition str_eqb (a b : str) : bool :=
  if list_eq_dec N.eq_dec a b then true else false.

(** [s.startswith(p)] *)
Fixpoint starts_with (p s : str) : bool :=
  match p, s with
  | [], _ => true
  | _ :: _, [] => false
  | a :: p', b :: s' => (a =? b)%N && starts_with p' s'
  end.

(** [sub in s] *)
Fixpoint contains (sub s : str) : bool :=
  starts_with sub s ||
  match s with
  | [] => false
  | _ :: s' => contains sub s'
  end.

(** [s.replace(old, new)]: every non-overlapping occurrence, left to
    right.  [skip] counts the characters of the occurrence just replaced
    that are still to be passed over. *)
Fixpoint replace_from (old new : str) (skip : nat) (s : str) : str :=
  match s with
  | [] => []
  | c :: s' =>
      match skip with
      | S k => replace_from old new k s'
      | O =>
          if starts_with old s
          then new ++ replace_from old new (length old - 1) s'
          else c :: replace_from old new 0 s'
      end
  end.

Definition replace (old new s : str) : str :=
  match old with
  | [] => new ++ flat_map (fun c => c :: new) s
  | _ :: _ => replace_from old new 0 s
  end.

(** [sep.join(parts)] *)
Fixpoint join (sep : str) (parts : list str) : str :=
  match parts with
  | [] => []
  | [p] => p
  | p :: rest => p ++ sep ++ join sep rest
  end.

(** [str(n)] for a non-negative integer. *)
Definition str_of_N (n : N) : str :=
  py (NilEmpty.string_of_uint (N.to_uint n)).

(* ================================================================== *)
(** ** The character database *)

Definition ascii_digit (c : char) : bool := ((48 <=? c) && (c <=? 57))%N.
Definition ascii_upper (c : char) : bool := ((65 <=? c) && (c <=? 90))%N.
Definition ascii_lower (c : char) : bool := ((97 <=? c) && (c <=? 122))%N.
Definition ascii_alnum (c : char) : bool :=
  ascii_digit c || ascii_upper c || ascii_lower c.
Definition ascii_space (c : char) : bool :=
  ((9 <=? c) && (c <=? 13))%N || ((28 <=? c) && (c <=? 32))%N.
Definition ascii_fold (c : char) : char :=
  if ascii_upper c then (c + 32)%N else c.

(** What the services use of CPython's Unicode tables.  The two laws
    are facts of every Unicode version: U+0020 is whitespace, the ASCII
    letters and digits are alphanumeric. *)
Class PyUnicode := {
  is_space : char -> bool;           (* str.isspace, \s, str.strip *)
  is_alnum : char -> bool;           (* str.isalnum; \w adds '_' *)
  decimal : char -> option N;        (* decimal digit value: \d, int() *)
  ci_eq : char -> char -> bool;      (* pattern literal vs text, IGNORECASE *)
  space_is_space : is_space 32%N = true;
  ascii_is_alnum : forall c, ascii_alnum c = true -> is_alnum c = true
}.

(** The database restricted to Basic Latin: code points above U+007F are
    classified as symbols. *)
#[export, refine] Instance basic_latin : PyUnicode := {
  is_space := ascii_space;
  is_alnum := ascii_alnum;
  decimal c := if ascii_digit c then Some (c - 48)%N else None;
  ci_eq p c := (ascii_fold p =? ascii_fold c)%N
}.
Proof.
  - reflexivity.
  - auto.
Defined.

Section Strings.
Context {U : PyUnicode}.

Definition is_digit (c : char) : bool :=
  match decimal c with Some _ => true | None => false end.

Definition is_word (c : char) : bool := is_alnum c || (c =? 95)%N.

(** [s.lstrip()], [s.rstrip()], [s.strip()] *)
Fixpoint lstrip (s : str) : str :=
  match s with
  | [] => []
  | c :: s' => if is_space c then lstrip s' else s
  end.

Fixpoint rstrip (s : str) : str :=
  match s with
  | [] => []
  | c :: s' =>
      match rstrip s' with
      | [] => if is_space c then [] else [c]
      | r => c :: r
      end
  end.

Definition strip (s : str) : str := rstrip (lstrip s).

(** [int(s)] on a string of decimal digits; [None] is ValueError. *)
Fixpoint int_digits (acc : N) (s : str) : option N :=
  match s with
  | [] => Some acc
  | c :: s' =>
      match decimal c with
      | Some d => int_digits (acc * 10 + d)%N s'
      | None => None
      end
  end.

Definition int_of_str (s : str) : option N :=
  match s with
  | [] => None
  | _ :: _ => int_digits 0%N s
  end.

End Strings.

(* ================================================================== *)
(** ** The [re] module

    The syntax covers what the two services write: literals, the classes
    [.], [\d], [\s], [\w] and bracket sets, repetition of a class
    ([*], [+], [{n}], [{n,m}], greedy or lazy), sequence, alternation,
    numbered capturing groups, [$] and [\b]. *)

Inductive citem : Type :=
  | IDigit                       (* \d *)
  | ISpace                       (* \s *)
  | IWord                        (* \w *)
  | IChar (c : char).            (* a character listed in a set *)

Inductive cclass : Type :=
  | CDot (dotall : bool)         (* .  ; with re.DOTALL when [dotall] *)
  | CItem (i : citem)
  | CSet (negated : bool) (items : list citem).   (* [...] and [^...] *)

Inductive regex : Type :=
  | RLit (s : str)
  | RCls (c : cclass)
  | RRep (c : cclass) (lo : nat) (hi : option nat) (greedy : bool)
  | RSeq (a b : regex)
  | RAlt (a b : regex)
  | RGrp (i : nat) (r : regex)
  | REnd                         (* $ *)
  | RWordB.                      (* \b *)

(** A position in the subject: the character before it, what is left of
    the subject, and the groups captured so far (latest first). *)
Record mstate : Type := MState {
  st_prev : option char;
  st_rest : str;
  st_caps : list (nat * str)
}.

(** A successful match. *)
Record rmatch : Type := RMatch {
  m_start : nat;                 (* index of the first matched character *)
  m_text : str;                  (* group 0 *)
  m_caps : list (nat * str);
  m_after : str                  (* the subject after the match *)
}.

Fixpoint assoc_nat (i : nat) (l : list (nat * str)) : option str :=
  match l with
  | [] => None
  | (j, s) :: l' => if Nat.eqb i j then Some s else assoc_nat i l'
  end.

(** [m.group(i)]; a group that did not take part yields [None]. *)
Definition group (m : rmatch) (i : nat) : option str :=
  match i with
  | O => Some (m_text m)
  | S _ => assoc_nat i (m_caps m)
  end.

Section Regex.
Context {U : PyUnicode}.

Definition item_match (i : citem) (c : char) : bool :=
  match i with
  | IDigit => is_digit c
  | ISpace => is_space c
  | IWord => is_word c
  | IChar x => (x =? c)%N
  end.

Definition class_match (k : cclass) (c : char) : bool :=
  match k with
  | CDot dotall => dotall || negb (c =? 10)%N
  | CItem i => item_match i c
  | CSet negated items => xorb negated (existsb (fun i => item_match i c) items)
  end.

Definition lit_eq (ignorecase : bool) (p c : char) : bool :=
  if ignorecase then ci_eq p c else (p =? c)%N.

Section Matcher.
Variable A : Type.
Variable ignorecase : bool.

(** The literal [p] at the head of [s]. *)
Fixpoint match_lit (p : str) (prev : option char) (s : str)
    (k : option char -> str -> option A) : option A :=
  match p with
  | [] => k prev s
  | x :: p' =>
      match s with
      | [] => None
      | c :: s' => if lit_eq ignorecase x c then match_lit p' (Some c) s' k else None
      end
  end.

Definition hi_allows (hi : option nat) : bool :=
  match hi with Some O => false | _ => true end.

Definition hi_pred (hi : option nat) : option nat :=
  match hi with Some n => Some (Nat.pred n) | None => None end.

(** Between [lo] and [hi] characters of class [c]: a greedy repetition
    tries one more character before the continuation, a lazy one the
    continuation first. *)
Fixpoint match_rep (c : cclass) (greedy : bool) (lo : nat) (hi : option nat)
    (prev : option char) (s : str)
    (k : option char -> str -> option A) : option A :=
  let more :=
    fun _ : unit =>
      match s with
      | x :: s' =>
          if hi_allows hi && class_match c x
          then match_rep c greedy (Nat.pred lo) (hi_pred hi) (Some x) s' k
          else None
      | [] => None
      end in
  let stop :=
    fun _ : unit => match lo with O => k prev s | S _ => None end in
  if greedy
  then match more tt with Some r => Some r | None => stop tt end
  else match stop tt with Some r => Some r | None => more tt end.

Definition at_word (o : option char) : bool :=
  match o with Some c => is_word c | None => false end.

(** [$] without re.MULTILINE: the end of the subject, or just before a
    newline that ends it. *)
Definition at_end (s : str) : bool :=
  match s with
  | [] => true
  | [c] => (c =? 10)%N
  | _ => false
  end.

Definition consumed (before after : str) : str :=
  firstn (length before - length after) before.

Fixpoint rx (r : regex) (st : mstate) (k : mstate -> option A) : option A :=
  match r with
  | RLit p =>
      match_lit p (st_prev st) (st_rest st)
        (fun prev s => k (MState prev s (st_caps st)))
  | RCls c =>
      match st_rest st with
      | x :: s' => if class_match c x then k (MState (Some x) s' (st_caps st)) else None
      | [] => None
      end
  | RRep c lo hi greedy =>
      match_rep c greedy lo hi (st_prev st) (st_rest st)
        (fun prev s => k (MState prev s (st_caps st)))
  | RSeq a b => rx a st (fun st' => rx b st' k)
  | RAlt a b =>
      match rx a st k with
      | Some res => Some res
      | None => rx b st k
      end
  | RGrp i r' =>
      rx r' st (fun st' =>
        k (MState (st_prev st') (st_rest st')
             ((i, consumed (st_rest st) (st_rest st')) :: st_caps st')))
  | REnd => if at_end (st_rest st) then k st else None
  | RWordB =>
      if xorb (at_word (st_prev st)) (at_word (hd_error (st_rest st)))
      then k st else None
  end.

End Matcher.

(** A match that starts exactly at the given position. *)
Definition match_here (ignorecase : bool) (r : regex) (prev : option char)
    (s : str) (pos : nat) : option rmatch :=
  rx ignorecase r (MState prev s [])
    (fun st => Some (RMatch pos (consumed s (st_rest st)) (st_caps st) (st_rest st))).

Fixpoint search_from (ignorecase : bool) (r : regex) (prev : option char)
    (s : str) (pos : nat) : option rmatch :=
  match match_here ignorecase r prev s pos with
  | Some m => Some m
  | None =>
      match s with
      | [] => None
      | c :: s' => search_from ignorecase r (Some c) s' (S pos)
      end
  end.

(** [re.search(r, s)] and [re.search(r, s, re.IGNORECASE)] *)
Definition re_search (ignorecase : bool) (r : regex) (s : str) : option rmatch :=
  search_from ignorecase r None s 0.

(** [re.findall(r, s)] for a pattern with one group: the group of every
    non-overlapping match, left to right.  [skip] counts the characters
    of the last match still to be passed over.  Every pattern the source
    gives to findall consumes at least one character; a match of the
    empty string is recorded and the scan moves on by one character. *)
Fixpoint findall_from (ignorecase : bool) (r : regex) (skip : nat)
    (prev : option char) (s : str) : list str :=
  match s with
  | [] =>
      match skip, match_here ignorecase r prev [] 0 with
      | O, Some m => [match group m 1 with Some g => g | None => [] end]
      | _, _ => []
      end
  | c :: s' =>
      match skip with
      | S n => findall_from ignorecase r n (Some c) s'
      | O =>
          match match_here ignorecase r prev s 0 with
          | Some m =>
              match group m 1 with Some g => g | None => [] end
                :: findall_from ignorecase r (length (m_text m) - 1) (Some c) s'
          | None => findall_from ignorecase r 0 (Some c) s'
          end
      end
  end.

Definition re_findall (ignorecase : bool) (r : regex) (s : str) : list str :=
  findall_from ignorecase r 0 None s.

(** [re.sub(r, repl, s)] for a pattern that consumes at least one
    character (both patterns given to sub are one class, once or
    repeated) and a literal replacement. *)
Fixpoint sub_from (r : regex) (repl : str) (skip : nat)
    (prev : option char) (s : str) : str :=
  match s with
  | [] => []
  | c :: s' =>
      match skip with
      | S n => sub_from r repl n (Some c) s'
      | O =>
          match match_here false r prev s 0 with
          | Some m =>
              match length (m_text m) with
              | O => c :: sub_from r repl 0 (Some c) s'
              | S n => repl ++ sub_from r repl n (Some c) s'
              end
          | None => c :: sub_from r repl 0 (Some c) s'
          end
      end
  end.

Definition re_sub (r : regex) (repl s : str) : str := sub_from r repl 0 None s.

End Regex.

(** Notation for patterns, close to the source's. *)
Declare Scope re_scope.
Delimit Scope re_scope with re.
Bind Scope re_scope with regex.
Infix ">>" := RSeq (at level 41, right associativity) : re_scope.
Infix "<|>" := RAlt (at level 42, right associativity) : re_scope.

Definition L (s : string) : regex := RLit (py s).
Definition digit : cclass := CItem IDigit.
Definition space : cclass := CItem ISpace.
Definition word : cclass := CItem IWord.
Definition dot : cclass := CDot false.
Definition star (c : cclass) : regex := RRep c 0 None true.        (* c*  *)
Definition lazy_star (c : cclass) : regex := RRep c 0 None false.  (* c*? *)
Definition plus (c : cclass) : regex := RRep c 1 None true.        (* c+  *)
Definition times (n : nat) (c : cclass) : regex := RRep c n (Some n) true.  (* c{n} *)
Definition between (n m : nat) (c : cclass) : regex := RRep c n (Some m) true.  (* c{n,m} *)

(** Every group of the source's patterns takes part in every match (none
    is optional or inside one branch of an alternative), so [m.group(i)]
    is a string. *)
Definition grp (m : rmatch) (i : nat) : str :=
  match group m i with Some g => g | None => [] end.

(* ================================================================== *)
(** ** Python objects and exceptions *)

Local Open Scope string_scope.
Local Open Scope list_scope.

(** A float: a finite binary fraction, an infinity or NaN. *)
Inductive pyfloat : Type :=
  | Finite (q : Q)
  | Inf (negative : bool)
  | NaN.

(** The objects the services handle: what [json.load] and the OCR
    service produce.  A dictionary lists its items in insertion order;
    its keys are strings (their UTF-8 bytes). *)
#[warnings="-register-all"]
Inductive value : Type :=
  | VNone
  | VBool (b : bool)
  | VInt (z : Z)
  | VFloat (f : pyfloat)
  | VStr (s : str)
  | VList (l : list value)
  | VDict (items : list (string * value)).

Definition dict := list (string * value).

Inductive exn : Type := KeyError | TypeError | AttributeError | ValueError.

Inductive exc (A : Type) : Type :=
  | Ok (a : A)
  | Raise (e : exn).
Arguments Ok {A} a.
Arguments Raise {A} e.

Definition bind {A B : Type} (m : exc A) (f : A -> exc B) : exc B :=
  match m with
  | Ok a => f a
  | Raise e => Raise e
  end.

Notation "x <- m ;; k" := (bind m (fun x => k))
  (at level 61, m at next level, right associativity).

Fixpoint mapM {A B : Type} (f : A -> exc B) (l : list A) : exc (list B) :=
  match l with
  | [] => Ok []
  | a :: l' => b <- f a ;; bs <- mapM f l' ;; Ok (b :: bs)
  end.

(** A comprehension [[x for x in l if p(x)]] whose test can raise. *)
Fixpoint filterM {A : Type} (p : A -> exc bool) (l : list A) : exc (list A) :=
  match l with
  | [] => Ok []
  | a :: l' =>
      keep <- p a ;; rest <- filterM p l' ;;
      Ok (if keep then a :: rest else rest)
  end.

(** *** Dictionaries *)

Fixpoint dict_get (d : dict) (k : string) : option value :=
  match d with
  | [] => None
  | (k', v) :: d' => if String.eqb k k' then Some v else dict_get d' k
  end.

(** [d[k] = v]: an existing key keeps its place. *)
Fixpoint dict_set (d : dict) (k : string) (v : value) : dict :=
  match d with
  | [] => [(k, v)]
  | (k', v') :: d' =>
      if String.eqb k k' then (k', v) :: d' else (k', v') :: dict_set d' k v
  end.

(** [d.update(other)] *)
Definition dict_update (d other : dict) : dict :=
  fold_left (fun acc kv => dict_set acc (fst kv) (snd kv)) other d.

Definition keys (d : dict) : list string := map fst d.

(** [v[k]] *)
Definition getitem (v : value) (k : string) : exc value :=
  match v with
  | VDict d => match dict_get d k with Some x => Ok x | None => Raise KeyError end
  | _ => Raise TypeError
  end.

(** [v.get(k, default)] *)
Definition get (v : value) (k : string) (default : value) : exc value :=
  match v with
  | VDict d => Ok (match dict_get d k with Some x => x | None => default end)
  | _ => Raise AttributeError
  end.

(** A value used where only a [str] has the method or operator. *)
Definition as_str (e : exn) (v : value) : exc str :=
  match v with
  | VStr s => Ok s
  | _ => Raise e
  end.

(** [bool(v)] *)
Definition truthy (v : value) : bool :=
  match v with
  | VNone => false
  | VBool b => b
  | VInt z => negb (z =? 0)%Z
  | VFloat (Finite q) => negb (Qeq_bool q 0)
  | VFloat _ => true
  | VStr s => match s with [] => false | _ => true end
  | VList l => match l with [] => false | _ => true end
  | VDict d => match d with [] => false | _ => true end
  end.

(** The float literal [0.3], exactly. *)
Definition threshold : Q := 5404319552844595 # 18014398509481984.

(** [v > 0.3] *)
Definition gt_threshold (v : value) : exc bool :=
  match v with
  | VBool b => Ok b
  | VInt z => Ok (0 <? z)%Z
  | VFloat (Finite q) => Ok (negb (Qle_bool q threshold))
  | VFloat (Inf negative) => Ok (negb negative)
  | VFloat NaN => Ok false
  | _ => Raise TypeError
  end.

Definition vstr (s : string) : value := VStr (py s).

(** A dictionary display [{k1: v1, k2: v2, ...}] with string keys and
    values: a repeated key keeps its first place and its last value. *)
Fixpoint table_set (d : list (str * str)) (k v : str) : list (str * str) :=
  match d with
  | [] => [(k, v)]
  | (k', v') :: d' =>
      if str_eqb k k' then (k', v) :: d' else (k', v') :: table_set d' k v
  end.

Definition table (items : list (string * string)) : list (str * str) :=
  fold_left (fun acc kv => table_set acc (py (fst kv)) (py (snd kv))) items [].

Definition ch (s : string) : char := hd 0%N (py s).

(* ================================================================== *)
(** ** extraction_service.py: class FIRExtractionService *)

(** [self.patterns], as [__init__] fills it before it loads the
    persisted overrides. *)
Definition baseline_patterns : dict := [
  ("fir_no", vstr "FIR\s*No\.\s*:\s*(\d{4})");
  ("date_time", vstr "Date\s*and\s*Time\s*of\s*FIR.*?:.*?(\d{2}/\d{2}/\d{4})\s*(\d{2}:\d{2})");
  ("district", vstr "District.*?:\s*(.*?)(?:\s*Year|\s*$)");
  ("police_station", vstr "P\.S\..*?:\s*(.*?)(?:\s*Year|\s*$)");
  ("year", vstr "Year.*?:\s*(\d{4})");
  ("mobile", vstr "(?:मोब\.?नं\.?|Mobile|Phone).*?(\d{10})");
  ("complainant_name", vstr "(?:Complainant|फिर्यादी|Informant).*?(?:Name|नाव).*?:(.*?)(?:Father|वडील|$)");
  ("father_name", vstr "(?:Father|वडील).*?(?:Name|नाव).*?:(.*?)(?:DOB|वय|$)");
  ("dob", vstr "(?:DOB|Date.*Birth|वय).*?(\d{4})");
  ("address", vstr "(?:Address|पत्ता).*?:(.*?)(?:Phone|Mobile|$)");
  ("acts_sections", vstr "(?:भारतीय न्याय संहिता|Indian Penal Code|BNS).*?(\d+)");
  ("day", vstr "Day.*?:\s*(.*?)(?:\s*Date|$)");
  ("time_period", vstr "Time\s*Period.*?:\s*(.*?)(?:\s*Time|$)");
  ("direction", vstr "Direction.*?:\s*(.*?)(?:\s*Distance|$)");
  ("distance", vstr "Distance.*?:\s*(.*?)(?:\s*Beat|$)");
  ("officer_name", vstr "(?:Officer|अधिकारी).*?(?:Name|नाव).*?:(.*?)(?:Rank|पद|$)");
  ("rank", vstr "Rank.*?:\s*(.*?)(?:\s*No|$)");
  ("officer_no", vstr "No\.\s*:\s*(.*?)(?:\s*$)")
].

(** The instance: its one attribute.  The methods are the functions
    below. *)
Record FIRExtractionService : Type := { patterns : dict }.

(** [__init__]: the baseline, then [_load_improved_patterns], which
    merges the persisted overrides when the file exists and holds a
    JSON object (what [_save_improved_patterns] writes), and changes
    nothing when the file is absent or cannot be loaded.  A file that
    holds another JSON value is outside what this function models:
    [dict.update] would merge an array of pairs; the statements about
    the loaded patterns are made for a file that is absent, unreadable
    or an object. *)
Definition _load_improved_patterns (pattern_file : option value) (p : dict) : dict :=
  match pattern_file with
  | Some (VDict improved_patterns) => dict_update p improved_patterns
  | _ => p
  end.

Definition new_service (pattern_file : option value) : FIRExtractionService :=
  {| patterns := _load_improved_patterns pattern_file baseline_patterns |}.

(** The correction table of [_clean_ocr_text], as the source lists it. *)
Definition corrections : list (str * str) := table [
  ("Fste@", "District"); ("((aRT", "Police Station"); ("Sot)", "Station");
  ("staTst", "Station"); ("AeT@oat", "Monday"); ("2X", "2 hours");
  ("STfeT", "Street"); ("3fex)", "Street"); ("TTA,", "Street");
  ("1 Tee aA.", "1 km approx"); ("{81", "House No"); ("Stel", "Street");
  ("HAN,", "Hanuman"); ("caleit", "Colony"); ("Stec,,", "Street");
  ("VoSITENs,,", "Vishnu Nagar"); ("ailurst,", "Ailur"); ("SMT", "Street");
  ("Orel", "Shri"); ("galetaR", "Gautam"); ("6971", "1997");
  ("ASAT", "Street"); ("dash)", "District"); ("Ariédt", "Address");
  ("fAreatearan)", "Father/Husband"); ("Saal", "Shri"); ("Fel", "Shri");
  ("SAeaa,", "Shri"); ("Welk", "Shri"); ("sear", "Shri"); ("ara)", "Name");
  ("feat:", "Date"); ("3itet", "Street"); ("3fex)", "Street");
  ("TTA,", "Street"); ("1 Tee aA.", "1 km approx"); ("create:", "District");
  ("3itet", "Street"); ("Rear", "Present"); ("Ze.", "No.");
  ("det", "Present"); ("Ze.", "No."); ("PATTON", "Present");
  ("feet", "Address"); ("Pwr", "Present"); ("faerard", "Address");
  ("HR", "House"); ("Aelaeael", "Address"); ("Tat", "Street");
  ("TAT", "Street"); ("caret", "Street"); ("attests", "Address");
  ("Yael", "Street"); ("3a", "No"); ("ed", "No"); ("3teTstscla", "Address");
  ("let", "No"); ("USAT", "Present"); ("WEN", "Address"); ("seer", "Shri");
  ("HAT", "Street"); ("att", "Street"); ("Hace", "House"); ("TAT", "Street");
  ("FeV", "No"); ("Als", "No"); ("cared", "Street"); ("Taweg", "Street");
  ("SN.UeT.UE.HoAA", "S.No."); ("IL", "Shri"); ("SOTA", "Shri");
  ("THA", "Street"); ("Mee", "Street"); ("SA", "Street"); ("GOR", "Street");
  ("Use", "No"); ("TAR", "Street"); ("ah", "No"); ("fate", "Street");
  ("act", "No"); ("fe,", "No"); ("Ure", "Present"); ("AT", "No");
  ("Udit", "Shri"); ("Tale", "Shri"); ("aired", "Shri"); ("ale", "Shri");
  ("Aaell", "Shri"); ("asa)", "Name"); ("He", "No"); ("AT", "No");
  ("Udit", "Shri"); ("Tale", "Shri"); ("aired", "Shri"); ("ale", "Shri");
  ("Aaell", "Shri"); ("asa)", "Name")
].

(** [[^\w\s.,:/()-]] *)
Definition noise : regex :=
  RCls (CSet true [IWord; ISpace; IChar (ch "."); IChar (ch ","); IChar (ch ":");
                   IChar (ch "/"); IChar (ch "("); IChar (ch ")"); IChar (ch "-")]).

(** [[^\w\s]] *)
Definition punctuation : regex := RCls (CSet true [IWord; ISpace]).

Section Cleaning.
Context {U : PyUnicode}.

(** [for ocr_error, correction in corrections.items():
       text = text.replace(ocr_error, correction)] *)
Definition apply_corrections (text : str) : str :=
  fold_left (fun t kv => replace (fst kv) (snd kv) t) corrections text.

(** The body of the loop of [_clean_ocr_text] on the text of one item:
    [None] when the item is skipped. *)
Definition clean_text (raw : str) : option str :=
  let text := strip raw in
  if (length text <? 2)%nat then None
  else
    let text := re_sub noise [] text in
    let text := apply_corrections text in
    let text := strip (re_sub (plus space) (py " ") text) in
    match text with
    | [] => None
    | _ :: _ => Some text
    end.

(** [_clean_ocr_text]: the items are visited in order and the cleaned
    ones appended in that order. *)
Fixpoint _clean_ocr_text (ocr_data : list value) : exc (list value) :=
  match ocr_data with
  | [] => Ok []
  | item :: rest =>
      t <- getitem item "text" ;;
      raw <- as_str AttributeError t ;;
      match clean_text raw with
      | None => _clean_ocr_text rest
      | Some text =>
          confidence <- get item "confidence" (VInt 0) ;;
          bbox <- get item "bbox" (VList []) ;;
          cleaned_data <- _clean_ocr_text rest ;;
          Ok (VDict [("text", VStr text); ("confidence", confidence); ("bbox", bbox)]
                :: cleaned_data)
      end
  end.

(** [' '.join([item['text'] for item in ocr_data])] *)
Definition join_texts (ocr_data : list value) : exc str :=
  texts <- mapM (fun item => getitem item "text") ocr_data ;;
  strs <- mapM (as_str TypeError) texts ;;
  Ok (join (py " ") strs).

End Cleaning.

(** *** The patterns of the extraction routines *)

(** [(?:\s*b1|\s*b2|...|\s*$)]: the boundary that ends a labelled span. *)
Definition upto (bounds : list string) : regex :=
  fold_right (fun b rest => (star space >> L b) <|> rest)%re
             (star space >> REnd)%re bounds.

(** [label.*?:(.*?)] followed by a boundary. *)
Definition labelled (label boundary : regex) : regex :=
  (label >> lazy_star dot >> L ":" >> RGrp 1 (lazy_star dot) >> boundary)%re.

Definition date : regex :=                 (* \d{2}/\d{2}/\d{4} *)
  (times 2 digit >> L "/" >> times 2 digit >> L "/" >> times 4 digit)%re.
Definition time : regex :=                 (* \d{2}:\d{2} *)
  (times 2 digit >> L ":" >> times 2 digit)%re.

(** _extract_fir_info *)
Definition re_fir_no : regex :=            (* FIR.*?(\d{4}) *)
  (L "FIR" >> lazy_star dot >> RGrp 1 (times 4 digit))%re.
Definition re_date_time : regex :=         (* (\d{2}/\d{2}/\d{4})\s*(\d{2}:\d{2}) *)
  (RGrp 1 date >> star space >> RGrp 2 time)%re.
Definition re_district : regex :=          (* District.*?:(.*?)(?:\s*Police|\s*Station|\s*Year|\s*$) *)
  labelled (L "District") (upto ["Police"; "Station"; "Year"]).
Definition re_police_station : regex :=    (* (?:P\.S\.|Police Station).*?:(.*?)(?:\s*Year|\s*$) *)
  labelled (L "P.S." <|> L "Police Station") (upto ["Year"]).
Definition re_year : regex :=              (* (\d{4}) *)
  RGrp 1 (times 4 digit).

(** _extract_complainant *)
Definition re_name : regex :=              (* Name.*?:(.*?)(?:\s*Father|\s*DOB|\s*Date|\s*$) *)
  labelled (L "Name") (upto ["Father"; "DOB"; "Date"]).
Definition re_father : regex :=            (* (?:Father|Husband).*?(?:Name).*?:(.*?)(?:\s*DOB|\s*Date|\s*$) *)
  labelled ((L "Father" <|> L "Husband") >> lazy_star dot >> L "Name")
           (upto ["DOB"; "Date"]).
Definition re_dob : regex :=               (* (?:DOB|Birth).*?(\d{4}) *)
  ((L "DOB" <|> L "Birth") >> lazy_star dot >> RGrp 1 (times 4 digit))%re.
Definition re_mobile : regex := RGrp 1 (times 10 digit).   (* (\d{10}) *)
Definition re_uid : regex := RGrp 1 (times 12 digit).      (* (\d{12}) *)
Definition re_address : regex :=           (* Address.*?:(.*?)(?:\s*Phone|\s*Mobile|\s*$) *)
  labelled (L "Address") (upto ["Phone"; "Mobile"]).

(** _extract_accused *)
Definition re_accused : regex :=           (* (?:Accused|आरोपी).*?(?:Name|नाव).*?:(.*?)(?:Alias|उपनाव|$) *)
  labelled ((L "Accused" <|> L "आरोपी") >> lazy_star dot >> (L "Name" <|> L "नाव"))
           (L "Alias" <|> L "उपनाव" <|> REnd).

(** _extract_occurrence *)
Definition re_day : regex :=               (* Day.*?:(.*?)(?:\s*Date|\s*$) *)
  labelled (L "Day") (upto ["Date"]).
Definition re_dates : regex := RGrp 1 date.                (* (\d{2}/\d{2}/\d{4}) *)
Definition re_time_period : regex :=       (* Time.*?Period.*?:(.*?)(?:\s*Time|\s*$) *)
  labelled (L "Time" >> lazy_star dot >> L "Period") (upto ["Time"]).
Definition re_times : regex := RGrp 1 time.                (* (\d{2}:\d{2}) *)

(** _extract_acts_sections *)
Definition re_sections : regex :=          (* (?:Section|BNS).*?(\d+) *)
  ((L "Section" <|> L "BNS") >> lazy_star dot >> RGrp 1 (plus digit))%re.
Definition re_numbers : regex :=           (* \b(\d{2,3})\b *)
  (RWordB >> RGrp 1 (between 2 3 digit) >> RWordB)%re.

(** _extract_place *)
Definition re_direction : regex :=         (* Direction.*?:(.*?)(?:\s*Distance|\s*Beat|\s*$) *)
  labelled (L "Direction") (upto ["Distance"; "Beat"]).
Definition re_distance : regex :=          (* Distance.*?:(.*?)(?:\s*Beat|\s*Address|\s*$) *)
  labelled (L "Distance") (upto ["Beat"; "Address"]).
Definition re_beat : regex :=              (* Beat.*?:(.*?)(?:\s*Address|\s*$) *)
  labelled (L "Beat") (upto ["Address"]).
Definition re_place_address : regex :=     (* Address.*?:(.*?)(?:\s*District|\s*State|\s*$) *)
  labelled (L "Address") (upto ["District"; "State"]).

(** _extract_action_taken *)
Definition re_officer : regex :=           (* (?:Officer|Name).*?:(.*?)(?:\s*Rank|\s*$) *)
  labelled (L "Officer" <|> L "Name") (upto ["Rank"]).
Definition re_rank : regex :=              (* Rank.*?:(.*?)(?:\s*No|\s*$) *)
  labelled (L "Rank") (upto ["No"]).
Definition re_no : regex :=                (* No.*?:(.*?)(?:\s*$) *)
  labelled (L "No") (upto []).

(** _extract_first_information, under re.IGNORECASE | re.DOTALL:
    (?:First\s*Information\s*Contents|प्रथम\s*खबर\s*अंतर्गत).*?:(.*?)(?:Action\s*Taken|$) *)
Definition re_contents : regex :=
  (((L "First" >> star space >> L "Information" >> star space >> L "Contents")
    <|> (L "प्रथम" >> star space >> L "खबर" >> star space >> L "अंतर्गत"))
   >> lazy_star (CDot true) >> L ":" >> RGrp 1 (lazy_star (CDot true))
   >> ((L "Action" >> star space >> L "Taken") <|> REnd))%re.

(** The Act every section entry names. *)
Definition bns_act : value := vstr "भारतीय न्याय संहिता (बी एन एस), 2023".

(** [lo < len(s) < hi] *)
Definition len_within (lo hi : nat) (s : str) : bool :=
  (lo <? length s)%nat && (length s <? hi)%nat.

Section Routines.
Context {U : PyUnicode}.

(** [int(s)] *)
Definition int (s : str) : exc N :=
  match int_of_str s with
  | Some n => Ok n
  | None => Raise ValueError
  end.

(** [if m: v = m.group(1).strip(); if lo < len(v) < hi: d[k] = v] *)
Definition set_span (m : option rmatch) (lo hi : nat) (k : string) (d : dict) : dict :=
  match m with
  | Some m =>
      let v := strip (grp m 1) in
      if len_within lo hi v then dict_set d k (VStr v) else d
  | None => d
  end.

Definition _extract_fir_info (ocr_data : list value) (full_text : str) : exc dict :=
  let fir_info : dict := [] in
  let fir_info :=
    match re_search true re_fir_no full_text with
    | Some fir_match => dict_set fir_info "FIRNo" (VStr (grp fir_match 1))
    | None => fir_info
    end in
  let fir_info :=
    match re_search false re_date_time full_text with
    | Some date_match =>
        dict_set fir_info "DateTimeOfFIR"
          (VStr (grp date_match 1 ++ py " " ++ grp date_match 2))
    | None => fir_info
    end in
  let fir_info :=
    match re_search true re_district full_text with
    | Some district_match =>
        let district := strip (grp district_match 1) in
        let district := strip (re_sub punctuation [] district) in
        if len_within 2 50 district
        then dict_set fir_info "District" (VStr district) else fir_info
    | None => fir_info
    end in
  let fir_info :=
    match re_search true re_police_station full_text with
    | Some ps_match =>
        let ps := strip (grp ps_match 1) in
        let ps := strip (re_sub punctuation [] ps) in
        if len_within 2 50 ps
        then dict_set fir_info "PoliceStation" (VStr ps) else fir_info
    | None => fir_info
    end in
  fir_info <-
    match re_search false re_year full_text with
    | Some year_match =>
        year <- int (grp year_match 1) ;;
        Ok (if (2000 <=? year)%N && (year <=? 2030)%N
            then dict_set fir_info "Year" (VInt (Z.of_N year)) else fir_info)
    | None => Ok fir_info
    end ;;
  let fir_info :=
    if contains (py "लिखित") full_text || contains (py "Written") full_text
    then dict_set fir_info "TypeOfInformation" (vstr "लिखित")
    else if contains (py "मौखिक") full_text || contains (py "Oral") full_text
    then dict_set fir_info "TypeOfInformation" (vstr "मौखिक")
    else fir_info in
  Ok fir_info.

Definition complainant_default : dict := [
  ("Name", vstr ""); ("FatherOrHusbandName", vstr ""); ("DOB_YearOfBirth", vstr "");
  ("Nationality", vstr "भारत"); ("UIDNo", vstr ""); ("PassportNo", vstr "");
  ("IDDetails", VList []); ("Occupation", vstr ""); ("Addresses", VList []);
  ("PhoneNumber", vstr "")
].

Definition _extract_complainant (ocr_data : list value) (full_text : str) : exc dict :=
  let complainant := complainant_default in
  let complainant := set_span (re_search true re_name full_text) 2 100 "Name" complainant in
  let complainant :=
    set_span (re_search true re_father full_text) 2 100 "FatherOrHusbandName" complainant in
  complainant <-
    match re_search true re_dob full_text with
    | Some dob_match =>
        year <- int (grp dob_match 1) ;;
        Ok (if (1900 <=? year)%N && (year <=? 2010)%N
            then dict_set complainant "DOB_YearOfBirth" (VStr (str_of_N year))
            else complainant)
    | None => Ok complainant
    end ;;
  let complainant :=
    match re_search false re_mobile full_text with
    | Some mobile_match => dict_set complainant "PhoneNumber" (VStr (grp mobile_match 1))
    | None => complainant
    end in
  let complainant :=
    match re_search false re_uid full_text with
    | Some uid_match => dict_set complainant "UIDNo" (VStr (grp uid_match 1))
    | None => complainant
    end in
  let complainant :=
    match re_search true re_address full_text with
    | Some address_match =>
        let address := strip (grp address_match 1) in
        if len_within 5 200 address
        then dict_set complainant "Addresses"
               (VList [VDict [("Type", vstr "Present Address"); ("Address", VStr address)]])
        else complainant
    | None => complainant
    end in
  Ok complainant.

Definition accused_entry (name : str) : value :=
  VDict [("Name", VStr name); ("Alias", vstr ""); ("RelativeName", vstr "");
         ("PresentAddress", vstr "")].

(** [_extract_accused] as the class ends up defining it: the definition
    at the end of the class body (line 590) rebinds the name. *)
Definition _extract_accused (ocr_data : list value) : exc (list value) :=
  full_text <- join_texts ocr_data ;;
  let accused_matches := re_findall true re_accused full_text in
  Ok (map (fun name => accused_entry (strip name))
        (filter (fun name => match strip name with [] => false | _ => true end)
                accused_matches)).

(** The earlier definition of [_extract_accused] (line 381), which the
    later one replaces: the block scan over the fragments.  The loop
    state is the list built so far, [accused_started] and
    [current_accused] (its name; [None] before the first block). *)
Fixpoint accused_scan (ocr_data : list value) (accused_list : list value)
    (accused_started : bool) (current_accused : option str) : exc (list value) :=
  match ocr_data with
  | [] =>
      Ok (match current_accused with
          | Some ((_ :: _) as name) => accused_list ++ [accused_entry name]
          | _ => accused_list
          end)
  | item :: rest =>
      t <- getitem item "text" ;;
      text <- as_str TypeError t ;;
      if contains (py "Accused") text || contains (py "आरोपी") text
      then
        let accused_list :=
          match current_accused with
          | Some name => accused_list ++ [accused_entry name]
          | None => accused_list
          end in
        accused_scan rest accused_list true (Some [])
      else
        match accused_started, current_accused with
        | true, Some name =>
            if contains (py "Name") text || contains (py "नाव") text
            then accused_scan rest accused_list accused_started current_accused
            else
              match text, name with
              | _ :: _, [] =>
                  if (3 <? length text)%nat
                  then accused_scan rest accused_list accused_started (Some text)
                  else accused_scan rest accused_list accused_started current_accused
              | _, _ => accused_scan rest accused_list accused_started current_accused
              end
        | _, _ => accused_scan rest accused_list accused_started current_accused
        end
  end.

Definition _extract_accused_shadowed (ocr_data : list value) : exc (list value) :=
  accused_scan ocr_data [] false None.

(** [d[k1][k2] = v] and [d[k].update(other)] *)
Definition setitem_in (d : dict) (k1 k2 : string) (v : value) : exc dict :=
  inner <- getitem (VDict d) k1 ;;
  match inner with
  | VDict i => Ok (dict_set d k1 (VDict (dict_set i k2 v)))
  | _ => Raise TypeError
  end.

Definition update_in (d : dict) (k : string) (other : dict) : exc dict :=
  inner <- getitem (VDict d) k ;;
  match inner with
  | VDict i => Ok (dict_set d k (VDict (dict_update i other)))
  | _ => Raise AttributeError
  end.

Definition occurrence_default : dict := [
  ("Day", vstr ""); ("DateFrom", vstr ""); ("DateTo", vstr "");
  ("TimePeriod", vstr ""); ("TimeFrom", vstr ""); ("TimeTo", vstr "")
].

(** [if len(l) >= 1: d[k1] = l[0]] and [if len(l) >= 2: d[k2] = l[1]] *)
Definition set_first_two (l : list str) (k1 k2 : string) (d : dict) : dict :=
  match l with
  | [] => d
  | [a] => dict_set d k1 (VStr a)
  | a :: b :: _ => dict_set (dict_set d k1 (VStr a)) k2 (VStr b)
  end.

Definition _extract_occurrence (ocr_data : list value) (full_text : str) : exc dict :=
  let occurrence := occurrence_default in
  let occurrence := set_span (re_search true re_day full_text) 2 20 "Day" occurrence in
  let dates := re_findall false re_dates full_text in
  let occurrence := set_first_two dates "DateFrom" "DateTo" occurrence in
  let occurrence :=
    set_span (re_search true re_time_period full_text) 1 50 "TimePeriod" occurrence in
  let times := re_findall false re_times full_text in
  let occurrence := set_first_two times "TimeFrom" "TimeTo" occurrence in
  Ok occurrence.

Definition section_entry (section : str) : value :=
  VDict [("Act", bns_act); ("Section", VStr section)].

(** The fallback loop: the first number within [100, 511], then [break]. *)
Fixpoint first_plausible (potential_sections : list str) : exc (list value) :=
  match potential_sections with
  | [] => Ok []
  | num :: rest =>
      num_int <- int num ;;
      if (100 <=? num_int)%N && (num_int <=? 511)%N
      then Ok [section_entry num]
      else first_plausible rest
  end.

Definition _extract_acts_sections (ocr_data : list value) (full_text : str)
    : exc (list value) :=
  let section_matches := re_findall true re_sections full_text in
  let acts_sections := map (fun section => section_entry (strip section)) section_matches in
  match acts_sections with
  | [] => first_plausible (re_findall false re_numbers full_text)
  | _ :: _ => Ok acts_sections
  end.

Definition place_default : dict := [
  ("DirectionDistanceFromPS", VDict [("Direction", vstr ""); ("Distance", vstr "")]);
  ("BeatNo", vstr ""); ("Address", vstr ""); ("DistrictState", vstr "")
].

(** [if m: v = m.group(1).strip(); if lo < len(v) < hi: d[k1][k2] = v] *)
Definition set_span_in (m : option rmatch) (lo hi : nat) (k1 k2 : string) (d : dict)
    : exc dict :=
  match m with
  | Some m =>
      let v := strip (grp m 1) in
      if len_within lo hi v then setitem_in d k1 k2 (VStr v) else Ok d
  | None => Ok d
  end.

Definition _extract_place (ocr_data : list value) (full_text : str) : exc dict :=
  let place := place_default in
  place <- set_span_in (re_search true re_direction full_text) 2 100
             "DirectionDistanceFromPS" "Direction" place ;;
  place <- set_span_in (re_search true re_distance full_text) 1 50
             "DirectionDistanceFromPS" "Distance" place ;;
  let place := set_span (re_search true re_beat full_text) 0 20 "BeatNo" place in
  let place := set_span (re_search true re_place_address full_text) 5 200 "Address" place in
  Ok place.

Definition action_taken_default : dict := [
  ("RegisteredCaseInvestigation",
     VDict [("OfficerName", vstr ""); ("Rank", vstr ""); ("No", vstr "")]);
  ("DirectedNameOfIO", vstr ""); ("DirectedRank", vstr ""); ("DirectedNo", vstr "");
  ("RefusedInvestigationDueTo", vstr ""); ("TransferredPS", vstr "");
  ("TransferredDistrict", vstr ""); ("ROAC", vstr "")
].

Definition _extract_action_taken (ocr_data : list value) (full_text : str) : exc dict :=
  let action_taken := action_taken_default in
  action_taken <- set_span_in (re_search true re_officer full_text) 2 100
                    "RegisteredCaseInvestigation" "OfficerName" action_taken ;;
  action_taken <- set_span_in (re_search true re_rank full_text) 2 50
                    "RegisteredCaseInvestigation" "Rank" action_taken ;;
  action_taken <- set_span_in (re_search true re_no full_text) 0 20
                    "RegisteredCaseInvestigation" "No" action_taken ;;
  Ok action_taken.

Definition _extract_first_information (ocr_data : list value) (full_text : str) : exc str :=
  match re_search true re_contents full_text with
  | Some content_match => Ok (strip (grp content_match 1))
  | None => Ok []
  end.

End Routines.

(** *** extract_fields *)

(** The record [extract_fields] starts from. *)
Definition skeleton : dict := [
  ("FIR", VDict [
     ("District", vstr ""); ("PoliceStation", vstr ""); ("Year", VInt 0);
     ("FIRNo", vstr ""); ("DateTimeOfFIR", vstr ""); ("ActsSections", VList []);
     ("OccurrenceOfOffence", VDict [
        ("Day", vstr ""); ("DateFrom", vstr ""); ("DateTo", vstr "");
        ("TimePeriod", vstr ""); ("TimeFrom", vstr ""); ("TimeTo", vstr "")]);
     ("InfoReceivedAtPS", VDict [("Date", vstr ""); ("Time", vstr "")]);
     ("GeneralDiaryReference", VDict [("EntryNo", vstr ""); ("DateTime", vstr "")]);
     ("TypeOfInformation", vstr "");
     ("PlaceOfOccurrence", VDict [
        ("DirectionDistanceFromPS", VDict [("Direction", vstr ""); ("Distance", vstr "")]);
        ("BeatNo", vstr ""); ("Address", vstr ""); ("DistrictState", vstr "")])]);
  ("ComplainantInformant", VDict [
     ("Name", vstr ""); ("FatherOrHusbandName", vstr ""); ("DOB_YearOfBirth", vstr "");
     ("Nationality", vstr "भारत"); ("UIDNo", vstr ""); ("PassportNo", vstr "");
     ("IDDetails", VList []); ("Occupation", vstr ""); ("Addresses", VList []);
     ("PhoneNumber", vstr "")]);
  ("AccusedDetails", VList []);
  ("PropertyOfInterest", VList []);
  ("TotalValueOfPropertyInRs", vstr "");
  ("Inquest_UDB_CaseNo", VList []);
  ("FirstInformationContents", vstr "");
  ("ActionTaken", VDict [
     ("RegisteredCaseInvestigation",
        VDict [("OfficerName", vstr ""); ("Rank", vstr ""); ("No", vstr "")]);
     ("DirectedNameOfIO", vstr ""); ("DirectedRank", vstr ""); ("DirectedNo", vstr "");
     ("RefusedInvestigationDueTo", vstr ""); ("TransferredPS", vstr "");
     ("TransferredDistrict", vstr ""); ("ROAC", vstr "")]);
  ("ComplainantSignature", VDict [("Name", vstr ""); ("Rank", vstr ""); ("No", vstr "")]);
  ("DateTimeOfDispatchToCourt", vstr "");
  ("AccusedPhysicalDetails", VList [])
].

(** The [try] block works on the record in place: a computation of the
    block carries the record, and an exception leaves the record as it
    is at that point. *)
Definition block (A : Type) : Type := dict -> dict * exc A.

(** The value of an expression that may raise. *)
Definition call {A : Type} (e : exc A) : block A := fun ef => (ef, e).

(** A statement that writes to the record. *)
Definition store (f : dict -> exc dict) : block unit :=
  fun ef =>
    match f ef with
    | Ok ef' => (ef', Ok tt)
    | Raise e => (ef, Raise e)
    end.

Definition and_then {A B : Type} (m : block A) (k : A -> block B) : block B :=
  fun ef =>
    match m ef with
    | (ef', Ok a) => k a ef'
    | (ef', Raise e) => (ef', Raise e)
    end.

Notation "x <~ m ;; k" := (and_then m (fun x => k))
  (at level 61, m at next level, right associativity).

(** [try: body except Exception as e: logger.error(...)] *)
Definition try_except (body : block unit) (ef : dict) : dict := fst (body ef).

(** The methods [extract_fields] calls on [self]. *)
Record Methods : Type := {
  extract_fir_info : list value -> str -> exc dict;
  extract_complainant : list value -> str -> exc dict;
  extract_accused : list value -> exc (list value);
  extract_occurrence : list value -> str -> exc dict;
  extract_acts_sections : list value -> str -> exc (list value);
  extract_place : list value -> str -> exc dict;
  extract_action_taken : list value -> str -> exc dict;
  extract_first_information : list value -> str -> exc str
}.

Section ExtractFields.
Context {U : PyUnicode}.

(** [[item for item in ocr_data if item.get('confidence', 0) > 0.3]] *)
Definition keep_confident (ocr_data : list value) : exc (list value) :=
  filterM (fun item => c <- get item "confidence" (VInt 0) ;; gt_threshold c) ocr_data.

Section Body.
Variable self : Methods.

(** The body of the [try] statement. *)
Definition extraction (cleaned_ocr : list value) (full_text : str) : block unit :=
  fir_info <~ call (extract_fir_info self cleaned_ocr full_text) ;;
  _ <~ store (fun ef => update_in ef "FIR" fir_info) ;;
  complainant <~ call (extract_complainant self cleaned_ocr full_text) ;;
  _ <~ store (fun ef => update_in ef "ComplainantInformant" complainant) ;;
  accused <~ call (extract_accused self cleaned_ocr) ;;
  _ <~ store (fun ef => Ok (dict_set ef "AccusedDetails" (VList accused))) ;;
  occurrence <~ call (extract_occurrence self cleaned_ocr full_text) ;;
  _ <~ store (fun ef => setitem_in ef "FIR" "OccurrenceOfOffence" (VDict occurrence)) ;;
  acts_sections <~ call (extract_acts_sections self cleaned_ocr full_text) ;;
  _ <~ store (fun ef => setitem_in ef "FIR" "ActsSections" (VList acts_sections)) ;;
  place <~ call (extract_place self cleaned_ocr full_text) ;;
  _ <~ store (fun ef => setitem_in ef "FIR" "PlaceOfOccurrence" (VDict place)) ;;
  action_taken <~ call (extract_action_taken self cleaned_ocr full_text) ;;
  _ <~ store (fun ef => Ok (dict_set ef "ActionTaken" (VDict action_taken))) ;;
  contents <~ call (extract_first_information self cleaned_ocr full_text) ;;
  store (fun ef => Ok (dict_set ef "FirstInformationContents" (VStr contents))).

Definition extract_fields_with (ocr_data : list value) : exc dict :=
  filtered_ocr <- keep_confident ocr_data ;;
  cleaned_ocr <- _clean_ocr_text filtered_ocr ;;
  full_text <- join_texts cleaned_ocr ;;
  let extracted_fields := skeleton in
  Ok (try_except (extraction cleaned_ocr full_text) extracted_fields).

End Body.

(** The methods of the class. *)
Definition methods : Methods := {|
  extract_fir_info := _extract_fir_info;
  extract_complainant := _extract_complainant;
  extract_accused := _extract_accused;
  extract_occurrence := _extract_occurrence;
  extract_acts_sections := _extract_acts_sections;
  extract_place := _extract_place;
  extract_action_taken := _extract_action_taken;
  extract_first_information := _extract_first_information
|}.

(** [self.extract_fields(ocr_data)] *)
Definition extract_fields (self : FIRExtractionService) (ocr_data : list value)
    : exc dict :=
  extract_fields_with methods ocr_data.

End ExtractFields.

(** The value at a path of keys, as a consumer of the record addresses
    it. *)
Fixpoint lookup (path : list string) (v : value) : option value :=
  match path with
  | [] => Some v
  | k :: path' =>
      match v with
      | VDict d =>
          match dict_get d k with
          | Some x => lookup path' x
          | None => None
          end
      | _ => None
      end
  end.

(* ================================================================== *)
(** ** training_service.py: class TrainingService *)

(** What the file system does with a write to the pattern file. *)
Inductive write_fault : Type :=
  | NoFault        (* it takes the write *)
  | OpenFails      (* [open(..., 'w')] raises: the file is as it was *)
  | WriteFails.    (* a write raises after [open] truncated the file *)

(** What the services keep outside the call: the directory
    [training_data] and the extraction service that routes/upload.py
    builds when it is imported.  A file is the object [json.load] reads
    from it, or [None] when it is absent or cannot be read; [glob] lists
    the sample files in the order of the list. *)
Record World : Type := {
  sample_files : list (option value);      (* training_data/sample_*.json *)
  pattern_file : option value;             (* training_data/improved_patterns.json *)
  upload_service : FIRExtractionService;   (* routes/upload.py: extraction_service *)
  pattern_io : write_fault                 (* the file system, for the pattern file *)
}.

(** [get_training_samples]: a file that fails to load is logged and
    left out. *)
Definition get_training_samples (w : World) : list value :=
  flat_map (fun f => match f with Some v => [v] | None => [] end) (sample_files w).

(** [re.escape]: a backslash before each of the special characters;
    anything but a string raises. *)
Definition special_chars : str :=
  py "()[]{}?*+-|^$\.&~# " ++ [9; 10; 13; 11; 12]%N.

Definition escape_str (s : str) : str :=
  flat_map (fun c => if existsb (N.eqb c) special_chars then [92%N; c] else [c]) s.

Definition re_escape (v : value) : exc value :=
  match v with
  | VStr s => Ok (VStr (escape_str s))
  | _ => Raise TypeError
  end.

(** [sample.get('ground_truth', {}).get(group, {}).get(field, '')] *)
Definition ground_truth_field (group field : string) (sample : value) : exc value :=
  gt <- get sample "ground_truth" (VDict []) ;;
  g <- get gt group (VDict []) ;;
  get g field (VStr []).

(** One of the four loops of [_analyze_training_samples]:
    [for sample in samples: v = ...; if v and v != '': acc.append(f(v))] *)
Fixpoint collect (f : value -> exc value) (group field : string)
    (samples : list value) (acc : list value) : exc (list value) :=
  match samples with
  | [] => Ok acc
  | sample :: rest =>
      v <- ground_truth_field group field sample ;;
      if truthy v
      then x <- f v ;; collect f group field rest (acc ++ [x])
      else collect f group field rest acc
  end.

(** ['|'.join(l[:n])]; the list holds the strings [re.escape] returned. *)
Definition alternation (n : nat) (l : list value) : str :=
  join (py "|") (map (fun v => match v with VStr s => s | _ => [] end) (firstn n l)).

Definition improved_fir_no : str := py "FIR\s*No\.?\s*:?\s*(\d{4})".

Definition _analyze_training_samples (samples : list value) : exc dict :=
  let improved_patterns : dict := [] in
  fir_numbers <- collect (fun v => Ok v) "FIR" "FIRNo" samples [] ;;
  let improved_patterns :=
    match fir_numbers with
    | [] => improved_patterns
    | _ :: _ => dict_set improved_patterns "fir_no" (VStr improved_fir_no)
    end in
  districts <- collect re_escape "FIR" "District" samples [] ;;
  let improved_patterns :=
    match districts with
    | [] => improved_patterns
    | _ :: _ =>
        let district_pattern := alternation 5 districts in
        dict_set improved_patterns "district"
          (VStr (py "(?:District|जिला).*?:\s*(" ++ district_pattern ++ py ")"))
    end in
  ps_stations <- collect re_escape "FIR" "PoliceStation" samples [] ;;
  let improved_patterns :=
    match ps_stations with
    | [] => improved_patterns
    | _ :: _ =>
        let ps_pattern := alternation 5 ps_stations in
        dict_set improved_patterns "police_station"
          (VStr (py "(?:P\.S\.|Police Station|थाने).*?:\s*(" ++ ps_pattern ++ py ")"))
    end in
  names <- collect re_escape "ComplainantInformant" "Name" samples [] ;;
  let improved_patterns :=
    match names with
    | [] => improved_patterns
    | _ :: _ =>
        let name_pattern := alternation 3 names in
        dict_set improved_patterns "complainant_name"
          (VStr (py "(?:Name|नाव).*?:\s*(" ++ name_pattern ++ py "|\w+(?:\s+\w+)*)"))
    end in
  Ok improved_patterns.

(** A code point UTF-8 does not encode: a surrogate, which [json.load]
    yields for an escape such as "\ud800". *)
Definition surrogate (c : char) : bool := (55296 <=? c)%N && (c <=? 57343)%N.

(** [json.dump(v, f, ensure_ascii=False)] on a file opened with
    [encoding='utf-8'] goes through when no string of [v] holds a
    surrogate, and raises UnicodeEncodeError otherwise. *)
Fixpoint encodable (v : value) : bool :=
  match v with
  | VStr s => forallb (fun c => negb (surrogate c)) s
  | VList l =>
      (fix all (l : list value) : bool :=
         match l with
         | [] => true
         | x :: l' => encodable x && all l'
         end) l
  | VDict d =>
      (fix all (d : dict) : bool :=
         match d with
         | [] => true
         | (_, x) :: d' => encodable x && all d'
         end) d
  | _ => true
  end.

(** [_save_improved_patterns]: the file is opened for writing, which
    truncates it, and the patterns are dumped; an exception is logged
    and swallowed.  When [open] raises the file is as it was; when the
    dump raises, for a string that cannot be encoded or for a fault of
    the file system, the file is left cut short and cannot be read. *)
Definition _save_improved_patterns (patterns : dict) (w : World) : World :=
  {| sample_files := sample_files w;
     pattern_file :=
       match pattern_io w with
       | OpenFails => pattern_file w
       | WriteFails => None
       | NoFault => if encodable (VDict patterns) then Some (VDict patterns) else None
       end;
     upload_service := upload_service w;
     pattern_io := pattern_io w |}.

(** What a call of [retrain_model] leaves: the dictionary it returns,
    the world, and the extraction service it built and updated (an
    object local to the call, [None] when the call built none). *)
Record Retrained : Type := {
  response : dict;
  world : World;
  local_service : option FIRExtractionService
}.

Definition len_str {A : Type} (l : list A) : str := str_of_N (N.of_nat (length l)).

(** [retrain_model].  In the error response the text of the exception,
    which the interpreter supplies, is left out of the message. *)
Definition retrain_model (w : World) : Retrained :=
  let samples := get_training_samples w in
  if (length samples <? 5)%nat
  then
    {| response := [("status", vstr "insufficient_data");
                    ("message", VStr (py "Need at least 5 samples, have " ++ len_str samples))];
       world := w;
       local_service := None |}
  else
    match _analyze_training_samples samples with
    | Ok improved_patterns =>
        let extraction_service := new_service (pattern_file w) in
        let extraction_service :=
          {| patterns := dict_update (patterns extraction_service) improved_patterns |} in
        let w' := _save_improved_patterns improved_patterns w in
        {| response := [("status", vstr "success");
                        ("samples_used", VInt (Z.of_nat (length samples)));
                        ("message", VStr (py "Model retrained successfully with "
                                          ++ len_str samples
                                          ++ py " samples! Extraction patterns updated."))];
           world := w';
           local_service := Some extraction_service |}
    | Raise e =>
        {| response := [("status", vstr "error");
                        ("message", vstr "Retraining failed: ")];
           world := w;
           local_service := None |}
    end.

(** routes/upload.py, after OCR: the first page goes to the service the
    module holds. *)
Definition upload_extract {U : PyUnicode} (w : World) (page_1 : list value) : exc dict :=
  extract_fields (upload_service w) page_1.

(* ================================================================== *)
(** ** Vocabulary of the properties *)

(** An OCR fragment as the OCR service builds it. *)
Definition fragment (text : string) (confidence : Q) : value :=
  VDict [("bbox", VList []); ("text", vstr text); ("confidence", VFloat (Finite confidence))].

(** A well-formed fragment: a record with a string text, a numeric
    confidence and a bbox. *)
Definition well_formed (item : value) : bool :=
  match item with
  | VDict d =>
      match dict_get d "text", dict_get d "confidence", dict_get d "bbox" with
      | Some (VStr _), Some (VInt _ | VFloat _), Some _ => true
      | _, _, _ => false
      end
  | _ => false
  end.

(** The field groups, in the order [extract_fields] fills them. *)
Inductive field_group : Type :=
  | GFir | GComplainant | GAccused | GOccurrence | GActs | GPlace | GAction | GContents.

Definition groups : list field_group :=
  [GFir; GComplainant; GAccused; GOccurrence; GActs; GPlace; GAction; GContents].

(** The call of the routine of a group, and the statement that stores
    its result in the record. *)
Definition routine (self : Methods) (c : list value) (t : str) (g : field_group) : exc value :=
  match g with
  | GFir => d <- extract_fir_info self c t ;; Ok (VDict d)
  | GComplainant => d <- extract_complainant self c t ;; Ok (VDict d)
  | GAccused => l <- extract_accused self c ;; Ok (VList l)
  | GOccurrence => d <- extract_occurrence self c t ;; Ok (VDict d)
  | GActs => l <- extract_acts_sections self c t ;; Ok (VList l)
  | GPlace => d <- extract_place self c t ;; Ok (VDict d)
  | GAction => d <- extract_action_taken self c t ;; Ok (VDict d)
  | GContents => s <- extract_first_information self c t ;; Ok (VStr s)
  end.

Definition write (g : field_group) (v : value) (ef : dict) : exc dict :=
  match g with
  | GFir => match v with VDict d => update_in ef "FIR" d | _ => Raise TypeError end
  | GComplainant =>
      match v with VDict d => update_in ef "ComplainantInformant" d | _ => Raise TypeError end
  | GAccused => Ok (dict_set ef "AccusedDetails" v)
  | GOccurrence => setitem_in ef "FIR" "OccurrenceOfOffence" v
  | GActs => setitem_in ef "FIR" "ActsSections" v
  | GPlace => setitem_in ef "FIR" "PlaceOfOccurrence" v
  | GAction => Ok (dict_set ef "ActionTaken" v)
  | GContents => Ok (dict_set ef "FirstInformationContents" v)
  end.

(** The groups of a list, one after the other, until one raises. *)
Fixpoint run_groups (self : Methods) (c : list value) (t : str)
    (gs : list field_group) (ef : dict) : dict :=
  match gs with
  | [] => ef
  | g :: rest =>
      match routine self c t g with
      | Raise _ => ef
      | Ok v =>
          match write g v ef with
          | Raise _ => ef
          | Ok ef' => run_groups self c t rest ef'
          end
      end
  end.

(** One group on its own: the record it leaves when its routine
    returns, the record unchanged when it raises. *)
Definition run_group (self : Methods) (c : list value) (t : str)
    (ef : dict) (g : field_group) : dict :=
  run_groups self c t [g] ef.

(** What precedes the try block: the cleaned fragments and the full
    text. *)
Definition prepare {U : PyUnicode} (ocr_data : list value) : exc (list value * str) :=
  filtered_ocr <- keep_confident ocr_data ;;
  cleaned_ocr <- _clean_ocr_text filtered_ocr ;;
  full_text <- join_texts cleaned_ocr ;;
  Ok (cleaned_ocr, full_text).

(** The keys of a record at every nesting level. *)
#[warnings="-register-all"]
Inductive shape : Type :=
  | Leaf
  | Node (fields : list (string * shape)).

Fixpoint shape_of (v : value) : shape :=
  match v with
  | VDict d =>
      Node ((fix fields (d : dict) : list (string * shape) :=
               match d with
               | [] => []
               | (k, x) :: d' => (k, shape_of x) :: fields d'
               end) d)
  | _ => Leaf
  end.

(** Every value below the keys is an empty string, an empty list or
    zero. *)
Fixpoint all_blank (v : value) : bool :=
  match v with
  | VStr [] => true
  | VList [] => true
  | VInt 0 => true
  | VDict d =>
      (fix blank (d : dict) : bool :=
         match d with
         | [] => true
         | (_, x) :: d' => all_blank x && blank d'
         end) d
  | _ => false
  end.

(** The fields no routine is meant to fill. *)
Definition untouched_paths : list (list string) := [
  ["PropertyOfInterest"]; ["TotalValueOfPropertyInRs"]; ["Inquest_UDB_CaseNo"];
  ["FIR"; "InfoReceivedAtPS"]; ["FIR"; "GeneralDiaryReference"];
  ["ComplainantSignature"]; ["DateTimeOfDispatchToCourt"]; ["AccusedPhysicalDetails"]
].

(** The keys [_extract_fir_info] may set. *)
Definition fir_core_keys : list string :=
  ["FIRNo"; "DateTimeOfFIR"; "District"; "PoliceStation"; "Year"; "TypeOfInformation"].

(** The FIR group of the skeleton. *)
Definition fir_default : dict :=
  match dict_get skeleton "FIR" with
  | Some (VDict d) => d
  | _ => []
  end.

(** Per-group isolation, as the specification words it: when the
    routine of one group raises, the record returned holds the result of
    every other group whose routine returns (storing that result again
    would leave the record as it is). *)
Definition per_group_isolation {U : PyUnicode} (self : Methods)
    (ocr_data : list value) : Prop :=
  forall c t r g e,
    prepare ocr_data = Ok (c, t) ->
    extract_fields_with self ocr_data = Ok r ->
    routine self c t g = Raise e ->
    forall h v, h <> g -> routine self c t h = Ok v -> write h v r = Ok r.

(** The class with [_extract_accused] replaced by a method that raises. *)
Definition accused_raises {U : PyUnicode} : Methods := {|
  extract_fir_info := _extract_fir_info;
  extract_complainant := _extract_complainant;
  extract_accused := fun _ => Raise ValueError;
  extract_occurrence := _extract_occurrence;
  extract_acts_sections := _extract_acts_sections;
  extract_place := _extract_place;
  extract_action_taken := _extract_action_taken;
  extract_first_information := _extract_first_information
|}.

(** *** Vocabulary of the refinement properties *)

(** A tracked field of a sample when it is a string. *)
Definition text_field (group field : string) (sample : value) : option str :=
  match ground_truth_field group field sample with
  | Ok (VStr s) => Some s
  | _ => None
  end.

(** A sample whose tracked fields can be read, the three that are
    escaped being strings. *)
Definition well_typed (sample : value) : bool :=
  match ground_truth_field "FIR" "FIRNo" sample,
        text_field "FIR" "District" sample,
        text_field "FIR" "PoliceStation" sample,
        text_field "ComplainantInformant" "Name" sample with
  | Ok _, Some _, Some _, Some _ => true
  | _, _, _, _ => false
  end.

Definition nonempty (s : str) : bool :=
  match s with [] => false | _ :: _ => true end.

(** The non-empty values of a field, in the order of the samples, with
    their repetitions. *)
Definition seen (group field : string) (samples : list value) : list str :=
  filter nonempty
    (map (fun sample => match text_field group field sample with
                        | Some s => s
                        | None => []
                        end) samples).

(** The first [n] values, each escaped, joined by [|]. *)
Definition literal_alternation (n : nat) (values : list str) : str :=
  join (py "|") (map escape_str (firstn n values)).

(** A synthesized rule: absent when no value was seen. *)
Definition synthesized (prefix suffix : string) (n : nat) (values : list str)
    : option value :=
  match values with
  | [] => None
  | _ :: _ => Some (VStr (py prefix ++ literal_alternation n values ++ py suffix))
  end.

(** Some sample carries a FIR number. *)
Definition has_fir_no (samples : list value) : bool :=
  existsb (fun sample => match ground_truth_field "FIR" "FIRNo" sample with
                         | Ok v => truthy v
                         | Raise _ => false
                         end) samples.

(** The rule the specification describes: the same, over the distinct
    values. *)
Fixpoint distinct (before values : list str) : list str :=
  match values with
  | [] => []
  | x :: rest =>
      if existsb (str_eqb x) before then distinct before rest
      else x :: distinct (x :: before) rest
  end.

Definition synthesized_distinct (prefix suffix : string) (n : nat) (values : list str)
    : option value :=
  synthesized prefix suffix n (distinct [] values).

(** A training sample with the given ground truth. *)
Definition sample (file_id : string) (ground_truth : dict) : value :=
  VDict [("file_id", vstr file_id); ("ocr_data", VDict []);
         ("ground_truth", VDict ground_truth)].

Definition status (out : Retrained) : option value := dict_get (response out) "status".

(** Worlds of the examples: five samples that differ in their district,
    five samples with an empty ground truth, four samples. *)
Definition district_samples : list value :=
  map (fun d => sample "a" [("FIR", VDict [("FIRNo", vstr "2021"); ("District", vstr d)])])
      ["Pune"; "Pune"; "Nashik"; "Pune"; "Thane"].

Definition world_of (samples : list value) : World :=
  {| sample_files := map Some samples;
     pattern_file := None;
     upload_service := new_service None;
     pattern_io := NoFault |}.


(** The write of the derived rules goes through: the file system takes
    it and every rule can be encoded. *)
Definition write_goes_through (improved : dict) (w : World) : bool :=
  match pattern_io w with
  | NoFault => encodable (VDict improved)
  | _ => false
  end.

(** A pattern file as this program leaves it: absent or unreadable, or
    a JSON object. *)
Definition object_or_nothing (file : option value) : Prop :=
  file = None \/ exists p, file = Some (VDict p).

(** Five samples whose district is a lone surrogate, as [json.load]
    reads the escape \ud800. *)
Definition surrogate_samples : list value :=
  repeat (sample "a" [("FIR", VDict [("FIRNo", vstr "2021");
                                     ("District", VStr [55296%N])])]) 5.



(** The fragments of the accused-block example, each above the
    confidence threshold. *)
Definition ramesh_fragments : list value :=
  [fragment "Accused" (9 # 10); fragment "Name" (9 # 10); fragment "Ramesh Kumar" (9 # 10)].

(** Five samples with one district, and a page that shows it. *)
Definition station_road_samples : list value :=
  repeat (sample "a" [("FIR", VDict [("District", vstr "Station Road")])]) 5.

Definition station_road_page : list value :=
  [fragment "District : Station Road" (9 # 10)].

(** *** Vocabulary of the year property *)

Section Runs.
Context {U : PyUnicode}.

(** The [n] digits that start the text, when it starts with [n] digits. *)
Fixpoint digits_at (n : nat) (s : str) : option str :=
  match n with
  | O => Some []
  | S n' =>
      match s with
      | c :: s' =>
          if is_digit c
          then match digits_at n' s' with Some r => Some (c :: r) | None => None end
          else None
      | [] => None
      end
  end.

(** The first run of [n] digits of the text. *)
Fixpoint first_run (n : nat) (s : str) : option str :=
  match digits_at n s with
  | Some r => Some r
  | None =>
      match s with
      | [] => None
      | _ :: s' => first_run n s'
      end
  end.

Definition year_value (r : str) : option N :=
  match int_of_str r with
  | Some y => if (2000 <=? y)%N && (y <=? 2030)%N then Some y else None
  | None => None
  end.

(** The year the code extracts: the first 4-digit run, when its value
    is within [2000, 2030]. *)
Definition year_of_first_run (t : str) : Z :=
  match first_run 4 t with
  | Some r => match year_value r with Some y => Z.of_N y | None => 0%Z end
  | None => 0%Z
  end.

(** The year the specification describes: the first 4-digit run whose
    value is within [2000, 2030]. *)
Fixpoint first_run_in_range (t : str) : Z :=
  match match digits_at 4 t with Some r => year_value r | None => None end with
  | Some y => Z.of_N y
  | None =>
      match t with
      | [] => 0%Z
      | _ :: t' => first_run_in_range t'
      end
  end.

Definition year_is_first_in_range (ocr_data : list value) : Prop :=
  forall self c t r,
    prepare ocr_data = Ok (c, t) ->
    extract_fields self ocr_data = Ok r ->
    lookup ["FIR"; "Year"] (VDict r) = Some (VInt (first_run_in_range t)).

End Runs.

(** *** Vocabulary of the normalization property *)

(** No key of the correction table occurs in the text. *)
Definition no_correction_key (t : str) : bool :=
  forallb (fun kv => negb (contains (fst kv) t)) corrections.

(** Idempotence, as the specification words it: cleaning the cleaned
    text gives the same text. *)
Definition cleaning_idempotent_on {U : PyUnicode} (raw : str) : Prop :=
  forall t, clean_text raw = Some t -> clean_text t = Some t.

Section Whitespace.
Context {U : PyUnicode}.

(** The length of the run of whitespace at the head of the text. *)
Fixpoint spaces (s : str) : nat :=
  match s with
  | c :: s' => if is_space c then S (spaces s') else 0
  | [] => 0
  end.

(** Every run of whitespace replaced by one space; [in_run] when the
    previous character was whitespace. *)
Fixpoint collapse (in_run : bool) (s : str) : str :=
  match s with
  | [] => []
  | c :: s' =>
      if is_space c
      then if in_run then collapse true s' else 32%N :: collapse true s'
      else c :: collapse false s'
  end.

(** The whitespace of the text is single spaces. *)
Fixpoint single_spaced (after_space : bool) (s : str) : Prop :=
  match s with
  | [] => True
  | c :: s' =>
      if is_space c
      then c = 32%N /\ after_space = false /\ single_spaced true s'
      else single_spaced false s'
  end.

(** The characters the noise pattern keeps. *)
Definition allowed (c : char) : bool :=
  negb (class_match (CSet true [IWord; ISpace; IChar (ch "."); IChar (ch ","); IChar (ch ":");
                                IChar (ch "/"); IChar (ch "("); IChar (ch ")"); IChar (ch "-")]) c).

End Whitespace.

(** The characters of the corrections: ASCII letters and digits, space,
    full stop and slash. *)
Definition correction_char (c : char) : bool :=
  ascii_alnum c || (c =? 32)%N || (c =? 46)%N || (c =? 47)%N.

(** The skeleton invariant, as the specification words it for the empty
    input: every value of the record is an empty string, an empty list
    or zero. *)
Definition empty_input_all_blank {U : PyUnicode} (self : FIRExtractionService) : Prop :=
  forall r, extract_fields self [] = Ok r -> all_blank (VDict r) = true.

(** *** Vocabulary of the proofs *)

(** The keys of a dictionary with the shapes of their values. *)
Definition fields (d : dict) : list (string * shape) :=
  map (fun kv => (fst kv, shape_of (snd kv))) d.

(** An entry that overwrites a key of [d] with a value of the same
    shape. *)
Definition fits (d : dict) (kv : string * value) : Prop :=
  exists old, dict_get d (fst kv) = Some old /\ shape_of old = shape_of (snd kv).

(** An entry [_extract_fir_info] may return: a core key with a plain
    value. *)
Definition core_leaf (kv : string * value) : Prop :=
  In (fst kv) fir_core_keys /\ shape_of (snd kv) = Leaf.

(** The fields no routine fills hold their defaults. *)
Definition kept (ef : dict) : Prop :=
  Forall (fun p => lookup p (VDict ef) = lookup p (VDict skeleton)) untouched_paths.

(** The record has the keys of the skeleton. *)
Definition shaped (ef : dict) : Prop := fields ef = fields skeleton.

(** The items [_clean_ocr_text] builds. *)
Definition cleaned_item (v : value) : Prop :=
  exists text confidence bbox,
    v = VDict [("text", VStr text); ("confidence", confidence); ("bbox", bbox)].

(** The two groups that are updated in place stay dictionaries. *)
Definition updatable (ef : dict) : Prop :=
  (exists i, dict_get ef "FIR" = Some (VDict i)) /\
  (exists i, dict_get ef "ComplainantInformant" = Some (VDict i)).

(** Inputs of the examples. *)
Definition monday_fragments : list value :=
  [fragment "Day : Monday Date 12/03/2021 10:30" (9 # 10)].

Definition two_runs : list value := [fragment "1850 2021" (9 # 10)].

(** The record [extract_fields] returns for [two_runs]. *)
Definition two_runs_record : dict :=
  Eval vm_compute in
    match extract_fields (U := basic_latin) (new_service None) two_runs with
    | Ok r => r
    | Raise _ => []
    end.

(* ================================================================== *)
(** ** Vocabulary of the further properties *)

Section MatcherVocabulary.
Context {U : PyUnicode}.

(** The continuation that ends a match. *)
Definition final (pos : nat) (s : str) (st : mstate) : option rmatch :=
  Some (RMatch pos (consumed s (st_rest st)) (st_caps st) (st_rest st)).

Definition within (hi : option nat) (n : nat) : Prop :=
  match hi with Some h => (n <= h)%nat | None => True end.

(** What is left after a step is a suffix of what was left before. *)
Definition advances (st st' : mstate) : Prop :=
  exists n, (n <= length (st_rest st))%nat /\ st_rest st' = skipn n (st_rest st).

(** A group that is a repetition of a class, when group 1 is the last
    group to close: the text of the group is characters of the class,
    as many as the bounds allow. *)
Definition run_of (c : cclass) (lo : nat) (hi : option nat) (g : str) : Prop :=
  (lo <= length g)%nat /\ within hi (length g)
  /\ Forall (fun x => class_match c x = true) g.

End MatcherVocabulary.

(** A string of decimal digits. *)
Definition digits {U : PyUnicode} (g : str) : Prop :=
  Forall (fun x => is_digit x = true) g.

(** The record holds the results of the eight routines: the entries of
    the FIR core over the defaults, the other results as they are. *)
Definition filled_with (r fi co : dict) (ac : list value) (oc : dict)
    (acts : list value) (pl act : dict) (fc : str) : Prop :=
  (forall k, In k fir_core_keys ->
     lookup ["FIR"; k] (VDict r)
     = match dict_get fi k with Some v => Some v | None => dict_get fir_default k end)
  /\ lookup ["ComplainantInformant"] (VDict r) = Some (VDict co)
  /\ lookup ["AccusedDetails"] (VDict r) = Some (VList ac)
  /\ lookup ["FIR"; "OccurrenceOfOffence"] (VDict r) = Some (VDict oc)
  /\ lookup ["FIR"; "ActsSections"] (VDict r) = Some (VList acts)
  /\ lookup ["FIR"; "PlaceOfOccurrence"] (VDict r) = Some (VDict pl)
  /\ lookup ["ActionTaken"] (VDict r) = Some (VDict act)
  /\ lookup ["FirstInformationContents"] (VDict r) = Some (VStr fc).

(** The results of the eight routines on the cleaned fragments and their
    text. *)
Definition routine_results {U : PyUnicode} (c : list value) (t : str)
    (fi co : dict) (ac : list value) (oc : dict)
    (acts : list value) (pl act : dict) (fc : str) : Prop :=
  _extract_fir_info c t = Ok fi
  /\ _extract_complainant c t = Ok co
  /\ _extract_accused c = Ok ac
  /\ _extract_occurrence c t = Ok oc
  /\ _extract_acts_sections c t = Ok acts
  /\ _extract_place c t = Ok pl
  /\ _extract_action_taken c t = Ok act
  /\ _extract_first_information c t = Ok fc.

Section FieldVocabulary.
Context {U : PyUnicode}.

(** A labelled span as the routines store it: the default, or a
    stripped text whose length is strictly between the bounds. *)
Definition span (lo hi : nat) (v : value) : Prop :=
  exists s, v = VStr s /\ strip s = s /\ (s = [] \/ (lo < length s < hi)%nat).

(** The year of birth: the default, or a year from 1900 to 2010 in
    decimal. *)
Definition birth_year (v : value) : Prop :=
  v = VStr [] \/ exists y, v = VStr (str_of_N y) /\ (1900 <= y <= 2010)%N.

(** The addresses: none, or one present address. *)
Definition present_address (v : value) : Prop :=
  v = VList [] \/
  exists a, v = VList [VDict [("Type", vstr "Present Address"); ("Address", VStr a)]]
            /\ strip a = a /\ (5 < length a < 200)%nat.

(** Every entry of a dictionary meets what is required of its key. *)
Definition meets (spec : string -> value -> Prop) (d : dict) : Prop :=
  Forall (fun kv => spec (fst kv) (snd kv)) d.

(** What holds of the entries of the complainant while
    [_extract_complainant] fills them. *)
Definition complainant_entry (k : string) (v : value) : Prop :=
  (k = "Name" -> span 2 100 v)
  /\ (k = "FatherOrHusbandName" -> span 2 100 v)
  /\ (k = "DOB_YearOfBirth" -> birth_year v)
  /\ (k = "Addresses" -> present_address v)
  /\ (k = "Nationality" -> v = vstr "भारत")
  /\ (k = "PassportNo" -> v = vstr "")
  /\ (k = "IDDetails" -> v = VList [])
  /\ (k = "Occupation" -> v = vstr "").

End FieldVocabulary.

(** A page of the examples and the record [extract_fields] returns for
    it. *)
Definition complaint_page : list value :=
  [fragment "FIR No 0123 Year 2021" (9 # 10);
   fragment "Name : Ramesh Kumar Father Name : Suresh Kumar DOB : 1985" (9 # 10);
   fragment "Address : 12 Main Road Pune Phone 9876543210" (9 # 10);
   fragment "Section 302 on 12/03/2021 10:30 and 13/03/2021 11:45" (9 # 10);
   fragment "x" (9 # 10);
   fragment "UID 123456789012" (1 # 10)].

Definition complaint_record : dict :=
  Eval vm_compute in
    match extract_fields (U := basic_latin) (new_service None) complaint_page with
    | Ok r => r
    | Raise _ => []
    end.

(** The text of a field that holds a run of digits of the full text,
    when there is one, and its default otherwise. *)
Definition or_empty (o : option str) : str :=
  match o with Some s => s | None => [] end.

(** A page that shows an identity number and no phone number. *)
Definition uid_page : list value := [fragment "UID 123456789012" (9 # 10)].

Definition uid_record : dict :=
  Eval vm_compute in
    match extract_fields (U := basic_latin) (new_service None) uid_page with
    | Ok r => r
    | Raise _ => []
    end.

(** The place of occurrence and the action taken, with the fields that
    [_extract_place] and [_extract_action_taken] can set. *)
Definition place_of (direction distance beat address : value) : dict := [
  ("DirectionDistanceFromPS", VDict [("Direction", direction); ("Distance", distance)]);
  ("BeatNo", beat); ("Address", address); ("DistrictState", vstr "")
].

Definition action_of (officer rank no : value) : dict := [
  ("RegisteredCaseInvestigation",
     VDict [("OfficerName", officer); ("Rank", rank); ("No", no)]);
  ("DirectedNameOfIO", vstr ""); ("DirectedRank", vstr ""); ("DirectedNo", vstr "");
  ("RefusedInvestigationDueTo", vstr ""); ("TransferredPS", vstr "");
  ("TransferredDistrict", vstr ""); ("ROAC", vstr "")
].

Section CoreVocabulary.
Context {U : PyUnicode}.

(** The district and the police station: the default, or a stripped
    text of letters, digits, underscores and whitespace whose length is
    strictly between 2 and 50. *)
Definition place_name (s : str) : Prop :=
  s = [] \/
  (strip s = s /\ (2 < length s < 50)%nat
   /\ Forall (fun c => is_word c || is_space c = true) s).

(** The type of information the keywords of the text select; the
    keywords of a written complaint are looked for first. *)
Definition type_of_information (t : str) : value :=
  if contains (py "लिखित") t || contains (py "Written") t then vstr "लिखित"
  else if contains (py "मौखिक") t || contains (py "Oral") t then vstr "मौखिक"
  else vstr "".

(** What holds of the entries [_extract_fir_info] sets before it looks
    for the type of information. *)
Definition fir_entry (k : string) (v : value) : Prop :=
  (k = "FIRNo" -> exists s, v = VStr s /\ length s = 4%nat /\ digits s)
  /\ (k = "District" -> exists s, v = VStr s /\ place_name s)
  /\ (k = "PoliceStation" -> exists s, v = VStr s /\ place_name s)
  /\ k <> "TypeOfInformation".

End CoreVocabulary.

(** A page that shows the core of the FIR group. *)
Definition station_page : list value :=
  [fragment "FIR No 0123" (9 # 10);
   fragment "District : Pune (City) Police" (9 # 10);
   fragment "P.S. : Kothrud Year 2021" (9 # 10);
   fragment "Oral and Written" (9 # 10)].

Definition station_record : dict :=
  Eval vm_compute in
    match extract_fields (U := basic_latin) (new_service None) station_page with
    | Ok r => r
    | Raise _ => []
    end.

(** A number the fallback of [_extract_acts_sections] takes for a
    section: its value is from 100 to 511. *)
Definition plausible {U : PyUnicode} (s : str) : bool :=
  match int_of_str s with
  | Some n => (100 <=? n)%N && (n <=? 511)%N
  | None => false
  end.

(** A page without a labelled section. *)
Definition fallback_page : list value :=
  [fragment "House 12 and 600 then 302 and 420" (9 # 10)].

Definition fallback_record : dict :=
  Eval vm_compute in
    match extract_fields (U := basic_latin) (new_service None) fallback_page with
    | Ok r => r
    | Raise _ => []
    end.

Section DateVocabulary.
Context {U : PyUnicode}.

(** A date as the patterns take it: two digits, a slash, two digits, a
    slash, four digits; a time: two digits, a colon, two digits. *)
Definition is_date (d : str) : Prop :=
  exists a b c,
    d = a ++ py "/" ++ b ++ py "/" ++ c
    /\ length a = 2%nat /\ length b = 2%nat /\ length c = 4%nat
    /\ digits a /\ digits b /\ digits c.

Definition is_time (tm : str) : Prop :=
  exists a b,
    tm = a ++ py ":" ++ b
    /\ length a = 2%nat /\ length b = 2%nat /\ digits a /\ digits b.

(** The date, or the time, at the head of a text, with what follows
    it. *)
Definition date_at (s : str) : option (str * str) :=
  match digits_at 2 s with
  | Some a =>
      match skipn 2 s with
      | x :: s1 =>
          if (47 =? x)%N then
            match digits_at 2 s1 with
            | Some b =>
                match skipn 2 s1 with
                | y :: s2 =>
                    if (47 =? y)%N then
                      match digits_at 4 s2 with
                      | Some c => Some (a ++ py "/" ++ b ++ py "/" ++ c, skipn 4 s2)
                      | None => None
                      end
                    else None
                | [] => None
                end
            | None => None
            end
          else None
      | [] => None
      end
  | None => None
  end.

Definition time_at (s : str) : option (str * str) :=
  match digits_at 2 s with
  | Some a =>
      match skipn 2 s with
      | x :: s1 =>
          if (58 =? x)%N then
            match digits_at 2 s1 with
            | Some b => Some (a ++ py ":" ++ b, skipn 2 s1)
            | None => None
            end
          else None
      | [] => None
      end
  | None => None
  end.

End DateVocabulary.

(** The occurrence of the offence, with the fields
    [_extract_occurrence] can set. *)
Definition occurrence_of (day date_from date_to period time_from time_to : value) : dict := [
  ("Day", day); ("DateFrom", date_from); ("DateTo", date_to);
  ("TimePeriod", period); ("TimeFrom", time_from); ("TimeTo", time_to)
].

(** A page that names an accused on one line. *)
Definition accused_page : list value :=
  [fragment "ACCUSED Name : Ramesh Kumar Alias Ramu" (9 # 10)].

Definition accused_record : dict :=
  Eval vm_compute in
    match extract_fields (U := basic_latin) (new_service None) accused_page with
    | Ok r => r
    | Raise _ => []
    end.

(** A fragment [extract_fields] passes over: its confidence is not
    above the threshold, or the cleaning pass drops its text (fewer than
    two characters once stripped, or nothing left of it). *)
Definition ignored {U : PyUnicode} (item : value) : Prop :=
  (exists confidence,
     get item "confidence" (VInt 0) = Ok confidence
     /\ gt_threshold confidence = Ok false)
  \/ (exists confidence raw,
        get item "confidence" (VInt 0) = Ok confidence
        /\ gt_threshold confidence = Ok true
        /\ getitem item "text" = Ok (VStr raw)
        /\ clean_text raw = None).

(** A cleaned fragment: the text the cleaning pass left, under a
    confidence above the threshold. *)
Definition cleaned_as {U : PyUnicode} (item : value) (text : str) : Prop :=
  exists confidence bbox,
    item = VDict [("text", VStr text); ("confidence", confidence); ("bbox", bbox)]
    /\ gt_threshold confidence = Ok true.

(** A text as the cleaning pass leaves it: not empty, stripped, its
    whitespace single spaces, its characters those the noise pattern
    keeps. *)
Definition normal {U : PyUnicode} (text : str) : Prop :=
  text <> [] /\ strip text = text /\ single_spaced false text
  /\ Forall (fun c => allowed c = true) text.

(** A field of a sample that the analysis can use: it can be read, and
    it is a string unless it is a value the analysis skips (empty or
    zero). *)
Definition usable (group field : string) (sample : value) : bool :=
  match ground_truth_field group field sample with
  | Ok v => negb (truthy v) || match v with VStr _ => true | _ => false end
  | Raise _ => false
  end.

(** A sample the analysis does not raise on. *)
Definition analysable (sample : value) : bool :=
  match ground_truth_field "FIR" "FIRNo" sample with Ok _ => true | Raise _ => false end
  && usable "FIR" "District" sample
  && usable "FIR" "PoliceStation" sample
  && usable "ComplainantInformant" "Name" sample.

(** Five samples, the district of the last one a number. *)
Definition numeric_district_samples : list value :=
  firstn 4 district_samples
  ++ [sample "a" [("FIR", VDict [("FIRNo", vstr "2021"); ("District", VInt 7)])]].

(* ================================================================== *)
(** ** Dictionaries *)

Lemma dict_get_set_same (d : dict) k v : dict_get (dict_set d k v) k = Some v.
Proof.
  induction d as [|[k' v'] d IH]; simpl.
  - now rewrite String.eqb_refl.
  - destruct (String.eqb k k') eqn:E; simpl; rewrite E; auto.
Qed.

Lemma dict_get_set_other (d : dict) k k' v :
  k <> k' -> dict_get (dict_set d k v) k' = dict_get d k'.
Proof.
  intros Hne. induction d as [|[k0 v0] d IH]; simpl.
  - destruct (String.eqb k' k) eqn:E; auto.
    apply String.eqb_eq in E. congruence.
  - destruct (String.eqb k k0) eqn:E; simpl.
    + apply String.eqb_eq in E. subst k0.
      destruct (String.eqb k' k) eqn:E'; auto.
      apply String.eqb_eq in E'. congruence.
    + now rewrite IH.
Qed.

Lemma dict_get_set (d : dict) k k' v :
  dict_get (dict_set d k v) k' = if String.eqb k k' then Some v else dict_get d k'.
Proof.
  destruct (String.eqb k k') eqn:E.
  - apply String.eqb_eq in E. subst. apply dict_get_set_same.
  - apply String.eqb_neq in E. now apply dict_get_set_other.
Qed.

Lemma dict_get_update_notin (o d : dict) k :
  ~ In k (keys o) -> dict_get (dict_update d o) k = dict_get d k.
Proof.
  unfold dict_update. revert d.
  induction o as [|[k0 v0] o IH]; intros d Hn; simpl; auto.
  rewrite IH.
  - apply dict_get_set_other. intros ->. apply Hn. now left.
  - intros Hin. apply Hn. now right.
Qed.

Lemma keys_dict_set (d : dict) k v :
  In k (keys d) -> keys (dict_set d k v) = keys d.
Proof.
  induction d as [|[k0 v0] d IH]; simpl; intros Hin; [tauto|].
  destruct (String.eqb k k0) eqn:E; simpl; auto.
  f_equal. apply IH. destruct Hin as [->|]; auto.
  now rewrite String.eqb_refl in E.
Qed.

(** [lookup] through the three kinds of store of [extract_fields]. *)
Lemma lookup_dict_set (ef : dict) k v k1 rest :
  lookup (k1 :: rest) (VDict (dict_set ef k v)) =
  if String.eqb k k1 then lookup rest v else lookup (k1 :: rest) (VDict ef).
Proof.
  simpl. rewrite dict_get_set. now destruct (String.eqb k k1).
Qed.

Lemma update_in_inv (ef : dict) k o ef' :
  update_in ef k o = Ok ef' ->
  exists i, dict_get ef k = Some (VDict i) /\ ef' = dict_set ef k (VDict (dict_update i o)).
Proof.
  unfold update_in, getitem, bind.
  destruct (dict_get ef k) as [[| | | | | |i]|]; try discriminate.
  intros [= <-]. eauto.
Qed.

Lemma setitem_in_inv (ef : dict) k1 k2 v ef' :
  setitem_in ef k1 k2 v = Ok ef' ->
  exists i, dict_get ef k1 = Some (VDict i) /\ ef' = dict_set ef k1 (VDict (dict_set i k2 v)).
Proof.
  unfold setitem_in, getitem, bind.
  destruct (dict_get ef k1) as [[| | | | | |i]|]; try discriminate.
  intros [= <-]. eauto.
Qed.

(* ================================================================== *)
(** ** The try block, group by group *)

Lemma extraction_run {U : PyUnicode} (self : Methods) c t ef :
  try_except (extraction self c t) ef = run_groups self c t groups ef.
Proof.
  unfold try_except, extraction, and_then, call, store, groups.
  cbn [run_groups routine write bind].
  destruct (extract_fir_info self c t) as [fi|]; cbn [bind fst]; [|reflexivity].
  destruct (update_in ef "FIR" fi) as [ef1|]; cbn [fst]; [|reflexivity].
  destruct (extract_complainant self c t) as [co|]; cbn [bind fst]; [|reflexivity].
  destruct (update_in ef1 "ComplainantInformant" co) as [ef2|]; cbn [fst]; [|reflexivity].
  destruct (extract_accused self c) as [ac|]; cbn [bind fst]; [|reflexivity].
  destruct (extract_occurrence self c t) as [oc|]; cbn [bind fst]; [|reflexivity].
  destruct (setitem_in _ "FIR" "OccurrenceOfOffence" _) as [ef4|]; cbn [fst]; [|reflexivity].
  destruct (extract_acts_sections self c t) as [acts|]; cbn [bind fst]; [|reflexivity].
  destruct (setitem_in _ "FIR" "ActsSections" _) as [ef5|]; cbn [fst]; [|reflexivity].
  destruct (extract_place self c t) as [pl|]; cbn [bind fst]; [|reflexivity].
  destruct (setitem_in _ "FIR" "PlaceOfOccurrence" _) as [ef6|]; cbn [fst]; [|reflexivity].
  destruct (extract_action_taken self c t) as [at_|]; cbn [bind fst]; [|reflexivity].
  destruct (extract_first_information self c t) as [fic|]; cbn [bind fst]; reflexivity.
Qed.

Lemma extract_fields_prepare {U : PyUnicode} (self : Methods) ocr_data :
  extract_fields_with self ocr_data =
  (ct <- prepare ocr_data ;; Ok (run_groups self (fst ct) (snd ct) groups skeleton)).
Proof.
  unfold extract_fields_with, prepare, bind.
  destruct (keep_confident ocr_data) as [f|]; auto.
  destruct (_clean_ocr_text f) as [c|]; auto.
  destruct (join_texts c) as [t|]; auto.
  simpl. now rewrite extraction_run.
Qed.

(** A property of the record that every store keeps holds when the
    block is left, wherever it is left. *)
Lemma run_groups_inv (P : dict -> Prop) (self : Methods) c t gs :
  (forall g v ef ef', In g gs -> P ef -> routine self c t g = Ok v ->
                      write g v ef = Ok ef' -> P ef') ->
  forall ef, P ef -> P (run_groups self c t gs ef).
Proof.
  induction gs as [|g gs IH]; intros step ef H; simpl; auto.
  destruct (routine self c t g) as [v|] eqn:Hr; auto.
  destruct (write g v ef) as [ef'|] eqn:Hw; auto.
  apply IH.
  - intros g' v' e e' Hin. apply step. now right.
  - eapply step; eauto. now left.
Qed.

(* ================================================================== *)
(** ** What the routines return *)

Lemma shape_of_dict (d : dict) : shape_of (VDict d) = Node (fields d).
Proof.
  simpl. f_equal. induction d as [|[k v] d IH]; simpl; [reflexivity|now rewrite IH].
Qed.

Lemma fields_dict_set (d : dict) k v old :
  dict_get d k = Some old -> shape_of old = shape_of v ->
  fields (dict_set d k v) = fields d.
Proof.
  induction d as [|[k0 v0] d IH]; simpl; [discriminate|].
  destruct (String.eqb k k0) eqn:E; simpl.
  - intros [= ->] ->. reflexivity.
  - intros H1 H2. now rewrite IH.
Qed.

Lemma fits_dict_set (d : dict) k v kv :
  fits d (k, v) -> fits d kv -> fits (dict_set d k v) kv.
Proof.
  intros [old [Hg Hs]] [old' [Hg' Hs']]. unfold fits in *. simpl in *.
  rewrite dict_get_set. destruct (String.eqb k (fst kv)) eqn:E.
  - apply String.eqb_eq in E. subst k. exists v. split; auto. congruence.
  - eauto.
Qed.

Lemma fields_dict_update (o d : dict) :
  Forall (fits d) o -> fields (dict_update d o) = fields d.
Proof.
  unfold dict_update. revert d.
  induction o as [|[k v] o IH]; intros d Hf; simpl; [reflexivity|].
  inversion Hf as [|? ? Hkv Ho]; subst.
  rewrite IH.
  - destruct Hkv as [old [Hg Hs]]. eapply fields_dict_set; eauto.
  - eapply Forall_impl; [|exact Ho]. intros kv. now apply fits_dict_set.
Qed.

Lemma fields_get (d : dict) k v :
  dict_get d k = Some v ->
  forall d', fields d' = fields d ->
  exists v', dict_get d' k = Some v' /\ shape_of v' = shape_of v.
Proof.
  induction d as [|[k0 v0] d IH]; simpl; [discriminate|].
  intros Hg [|[k1 v1] d'] Hf; [discriminate|].
  simpl in Hf. injection Hf as Hk Hs Hf. subst k1. simpl.
  destruct (String.eqb k k0).
  - injection Hg as ->. eauto.
  - eauto.
Qed.

(** A property of entries that [dict_set] keeps. *)
Lemma Forall_dict_set (P : string * value -> Prop) (d : dict) k v :
  Forall P d -> P (k, v) -> Forall P (dict_set d k v).
Proof.
  induction d as [|[k0 v0] d IH]; simpl; intros Hd Hp.
  - now constructor.
  - inversion Hd; subst.
    destruct (String.eqb k k0) eqn:E.
    + apply String.eqb_eq in E. subst. now constructor.
    + constructor; auto.
Qed.

Ltac entries :=
  repeat first
    [ assumption
    | apply Forall_nil
    | apply Forall_dict_set; [|split; [simpl; tauto|reflexivity]]
    | apply Forall_cons; [split; [simpl; tauto|reflexivity]|]
    | match goal with
      | |- Forall _ (match ?x with _ => _ end) => destruct x
      end ].

Lemma keep_fields (F d : dict) k v old :
  dict_get F k = Some old -> shape_of old = shape_of v ->
  fields d = fields F -> fields (dict_set d k v) = fields F.
Proof.
  intros Hg Hs Hf. rewrite <- Hf.
  destruct (@fields_get F k old Hg d Hf) as [v' [Hg' Hs']].
  eapply fields_dict_set; eauto. congruence.
Qed.

Ltac same_fields :=
  repeat first
    [ assumption
    | reflexivity
    | eapply keep_fields; [reflexivity|reflexivity|]
    | match goal with
      | |- fields (match ?x with _ => _ end) = _ => destruct x
      end ].

Section RoutineResults.
Context {U : PyUnicode}.

Lemma set_span_fields (F d : dict) m lo hi k old :
  dict_get F k = Some old -> shape_of old = Leaf ->
  fields d = fields F -> fields (set_span m lo hi k d) = fields F.
Proof.
  intros Hg Hs Hf. unfold set_span. destruct m as [m|]; auto.
  destruct (len_within lo hi _); auto.
  eapply keep_fields; eauto.
Qed.

Lemma set_span_in_fields (F I d d' : dict) m lo hi k1 k2 old :
  set_span_in m lo hi k1 k2 d = Ok d' ->
  dict_get F k1 = Some (VDict I) -> dict_get I k2 = Some old -> shape_of old = Leaf ->
  fields d = fields F -> fields d' = fields F.
Proof.
  intros H0 Hg1 Hg2 Hs Hf. revert H0. unfold set_span_in. destruct m as [m|]; [|now intros [= <-]].
  destruct (len_within lo hi _); [|now intros [= <-]].
  intros H. apply setitem_in_inv in H. destruct H as [i [Hi ->]].
  destruct (@fields_get F k1 (VDict I) Hg1 d Hf) as [v' [Hg' Hs']].
  rewrite Hi in Hg'. injection Hg' as <-.
  eapply keep_fields; eauto.
  rewrite !shape_of_dict in *. f_equal. injection Hs' as Hs'.
  symmetry. eapply keep_fields; eauto.
Qed.

Lemma set_first_two_fields (F d : dict) l k1 k2 old1 old2 :
  dict_get F k1 = Some old1 -> shape_of old1 = Leaf ->
  dict_get F k2 = Some old2 -> shape_of old2 = Leaf ->
  fields d = fields F -> fields (set_first_two l k1 k2 d) = fields F.
Proof.
  intros. unfold set_first_two. destruct l as [|a [|b l]]; auto.
  - eapply keep_fields; eauto.
  - eapply keep_fields; eauto. eapply keep_fields; eauto.
Qed.

Lemma fir_info_entries c t fi :
  _extract_fir_info c t = Ok fi -> Forall core_leaf fi.
Proof.
  unfold _extract_fir_info. cbv zeta.
  match goal with
  | |- bind ?m _ = _ -> _ => assert (Hm : forall d, m = Ok d -> Forall core_leaf d)
  end.
  { intros d. destruct (re_search false re_year t) as [m|].
    - unfold bind. destruct (int (grp m 1)) as [year|]; [|discriminate].
      intros [= <-]. entries.
    - intros [= <-]. entries. }
  match goal with
  | |- bind ?m _ = _ -> _ => destruct m as [d|]; [|discriminate]
  end.
  specialize (Hm d eq_refl). simpl. intros [= <-]. entries.
Qed.

Lemma complainant_fields c t co :
  _extract_complainant c t = Ok co -> fields co = fields complainant_default.
Proof.
  unfold _extract_complainant. cbv zeta.
  match goal with
  | |- bind ?m _ = _ -> _ =>
      assert (Hm : forall d, m = Ok d -> fields d = fields complainant_default)
  end.
  { assert (H0 : fields (set_span (re_search true re_father t) 2 100 "FatherOrHusbandName"
                   (set_span (re_search true re_name t) 2 100 "Name" complainant_default))
                 = fields complainant_default).
    { repeat (eapply set_span_fields; [reflexivity|reflexivity|]). reflexivity. }
    intros d. destruct (re_search true re_dob t) as [m|].
    - unfold bind. destruct (int (grp m 1)) as [year|]; [|discriminate].
      intros [= <-]. same_fields.
    - now intros [= <-]. }
  match goal with
  | |- bind ?m _ = _ -> _ => destruct m as [d|]; [|discriminate]
  end.
  specialize (Hm d eq_refl). cbn [bind]. intros [= <-]. same_fields.
Qed.

Lemma occurrence_fields c t oc :
  _extract_occurrence c t = Ok oc -> fields oc = fields occurrence_default.
Proof.
  unfold _extract_occurrence. cbv zeta. intros [= <-].
  repeat first [ eapply set_span_fields; [reflexivity|reflexivity|]
               | eapply set_first_two_fields; [reflexivity|reflexivity|reflexivity|reflexivity|] ].
  reflexivity.
Qed.

Lemma place_fields c t pl :
  _extract_place c t = Ok pl -> fields pl = fields place_default.
Proof.
  unfold _extract_place, bind. cbv zeta.
  destruct (set_span_in _ 2 100 _ _ _) as [p1|] eqn:E1; [|discriminate].
  destruct (set_span_in _ 1 50 _ _ _) as [p2|] eqn:E2; [|discriminate].
  intros [= <-].
  repeat (eapply set_span_fields; [reflexivity|reflexivity|]).
  eapply set_span_in_fields; [exact E2|reflexivity|reflexivity|reflexivity|].
  eapply set_span_in_fields; [exact E1|reflexivity|reflexivity|reflexivity|].
  reflexivity.
Qed.

Lemma action_taken_fields c t a :
  _extract_action_taken c t = Ok a -> fields a = fields action_taken_default.
Proof.
  unfold _extract_action_taken, bind. cbv zeta.
  destruct (set_span_in _ 2 100 _ _ _) as [p1|] eqn:E1; [|discriminate].
  destruct (set_span_in _ 2 50 _ _ _) as [p2|] eqn:E2; [|discriminate].
  destruct (set_span_in _ 0 20 _ _ _) as [p3|] eqn:E3; [|discriminate].
  intros [= <-].
  eapply set_span_in_fields; [exact E3|reflexivity|reflexivity|reflexivity|].
  eapply set_span_in_fields; [exact E2|reflexivity|reflexivity|reflexivity|].
  eapply set_span_in_fields; [exact E1|reflexivity|reflexivity|reflexivity|].
  reflexivity.
Qed.

End RoutineResults.

(* ================================================================== *)
(** ** The record [extract_fields] returns *)

Section Record.
Context {U : PyUnicode}.

Lemma routine_fir c t v :
  routine methods c t GFir = Ok v ->
  exists fi, v = VDict fi /\ Forall core_leaf fi.
Proof.
  simpl. unfold bind. destruct (_extract_fir_info c t) as [fi|] eqn:E; [|discriminate].
  intros [= <-]. eauto using fir_info_entries.
Qed.

Lemma core_leaf_not_in (fi : dict) k :
  Forall core_leaf fi -> ~ In k fir_core_keys -> ~ In k (keys fi).
Proof.
  intros Hf Hk Hin. unfold keys in Hin. apply in_map_iff in Hin.
  destruct Hin as [kv [<- Hin]].
  rewrite Forall_forall in Hf. now destruct (Hf _ Hin).
Qed.

Ltac split_paths :=
  unfold kept, untouched_paths in *;
  repeat match goal with
         | H : Forall _ (_ :: _) |- _ => inversion H; clear H; subst
         | H : Forall _ [] |- _ => clear H
         end;
  repeat apply Forall_cons; try apply Forall_nil.

Lemma write_kept g v ef ef' c t :
  routine methods c t g = Ok v -> write g v ef = Ok ef' -> kept ef -> kept ef'.
Proof.
  intros Hr Hw Hk.
  destruct g; simpl in Hw.
  - destruct (routine_fir _ _ Hr) as [fi [-> Hfi]].
    apply update_in_inv in Hw. destruct Hw as [i [Hi ->]].
    split_paths; rewrite lookup_dict_set; cbn [String.eqb Ascii.eqb Bool.eqb]; auto;
      match goal with
      | H : lookup ["FIR"; ?k] _ = _ |- _ =>
          rewrite <- H; cbn [lookup]; rewrite Hi, dict_get_update_notin; auto;
          apply (core_leaf_not_in Hfi); cbv; intuition discriminate
      end.
  - destruct v; try discriminate.
    apply update_in_inv in Hw. destruct Hw as [i [Hi ->]].
    split_paths; rewrite lookup_dict_set; cbn [String.eqb Ascii.eqb Bool.eqb]; auto.
  - injection Hw as <-.
    split_paths; rewrite lookup_dict_set; cbn [String.eqb Ascii.eqb Bool.eqb]; auto.
  - apply setitem_in_inv in Hw. destruct Hw as [i [Hi ->]].
    split_paths; rewrite lookup_dict_set; cbn [String.eqb Ascii.eqb Bool.eqb]; auto;
      match goal with
      | H : lookup ["FIR"; ?k] _ = _ |- _ =>
          rewrite <- H; cbn [lookup]; rewrite Hi, dict_get_set_other; auto; discriminate
      end.
  - apply setitem_in_inv in Hw. destruct Hw as [i [Hi ->]].
    split_paths; rewrite lookup_dict_set; cbn [String.eqb Ascii.eqb Bool.eqb]; auto;
      match goal with
      | H : lookup ["FIR"; ?k] _ = _ |- _ =>
          rewrite <- H; cbn [lookup]; rewrite Hi, dict_get_set_other; auto; discriminate
      end.
  - apply setitem_in_inv in Hw. destruct Hw as [i [Hi ->]].
    split_paths; rewrite lookup_dict_set; cbn [String.eqb Ascii.eqb Bool.eqb]; auto;
      match goal with
      | H : lookup ["FIR"; ?k] _ = _ |- _ =>
          rewrite <- H; cbn [lookup]; rewrite Hi, dict_get_set_other; auto; discriminate
      end.
  - injection Hw as <-.
    split_paths; rewrite lookup_dict_set; cbn [String.eqb Ascii.eqb Bool.eqb]; auto.
  - injection Hw as <-.
    split_paths; rewrite lookup_dict_set; cbn [String.eqb Ascii.eqb Bool.eqb]; auto.
Qed.

Lemma fields_entries (o : dict) :
  Forall (fun kv => In (fst kv, shape_of (snd kv)) (fields o)) o.
Proof.
  induction o as [|kv o IH]; constructor.
  - now left.
  - eapply Forall_impl; [|exact IH]. intros a Ha. now right.
Qed.

Lemma leaf_entries_fit (F i o : dict) (ks : list string) :
  fields i = fields F ->
  (forall k, In k ks -> exists old, dict_get F k = Some old /\ shape_of old = Leaf) ->
  Forall (fun kv => In (fst kv) ks /\ shape_of (snd kv) = Leaf) o ->
  Forall (fits i) o.
Proof.
  intros Hf Hks Ho. eapply Forall_impl; [|exact Ho].
  intros [k v] [Hin Hs]. simpl in *.
  destruct (Hks k Hin) as [old [Hg Hl]].
  destruct (@fields_get F k old Hg i Hf) as [v' [Hg' Hs']].
  exists v'. simpl. split; auto. congruence.
Qed.

Ltac leaf_keys :=
  let k := fresh "k" in
  let H := fresh "H" in
  intros k H; simpl in H;
  repeat (destruct H as [<-|H]; [eexists; split; reflexivity|]); contradiction.

Lemma keep_slot (F D ef i i' : dict) k :
  dict_get F k = Some (VDict D) -> fields ef = fields F ->
  dict_get ef k = Some (VDict i) ->
  (fields i = fields D -> fields i' = fields D) ->
  fields (dict_set ef k (VDict i')) = fields F.
Proof.
  intros HF Hs Hi Hstep.
  destruct (@fields_get F k (VDict D) HF ef Hs) as [v' [Hg' Hs']].
  rewrite Hi in Hg'. injection Hg' as <-.
  rewrite !shape_of_dict in Hs'. injection Hs' as Hs'.
  eapply keep_fields; [exact HF| |exact Hs].
  rewrite !shape_of_dict. f_equal. symmetry. auto.
Qed.

Lemma write_shaped g v ef ef' c t :
  routine methods c t g = Ok v -> write g v ef = Ok ef' -> shaped ef -> shaped ef'.
Proof.
  unfold shaped. intros Hr Hw Hs.
  destruct g; simpl in Hw; unfold routine in Hr;
    cbn [methods extract_fir_info extract_complainant extract_accused extract_occurrence
         extract_acts_sections extract_place extract_action_taken
         extract_first_information] in Hr;
    unfold bind in Hr.
  - destruct (_extract_fir_info c t) as [fi|] eqn:E; [|discriminate].
    injection Hr as <-. apply fir_info_entries in E.
    apply update_in_inv in Hw. destruct Hw as [i [Hi ->]].
    eapply (@keep_slot skeleton fir_default); [reflexivity|exact Hs|exact Hi|intros Hs'].
    rewrite <- Hs'. apply fields_dict_update.
    eapply leaf_entries_fit; [exact Hs'| |exact E]. leaf_keys.
  - destruct (_extract_complainant c t) as [co|] eqn:E; [|discriminate].
    injection Hr as <-. apply complainant_fields in E.
    apply update_in_inv in Hw. destruct Hw as [i [Hi ->]].
    eapply (@keep_slot skeleton complainant_default); [reflexivity|exact Hs|exact Hi|intros Hs'].
    rewrite <- Hs'. apply fields_dict_update.
    eapply leaf_entries_fit with (ks := keys complainant_default); [exact Hs'|leaf_keys|].
    generalize (fields_entries co). rewrite E. apply Forall_impl.
    intros [k s] Hin. simpl in Hin. simpl.
    repeat (destruct Hin as [Hin|Hin];
            [injection Hin as <- <-; split; [tauto|reflexivity]|]).
    contradiction.
  - destruct (_extract_accused c) as [l|]; [|discriminate].
    injection Hr as <-. injection Hw as <-.
    eapply keep_fields; [reflexivity|reflexivity|exact Hs].
  - destruct (_extract_occurrence c t) as [oc|] eqn:E; [|discriminate].
    injection Hr as <-. apply occurrence_fields in E.
    apply setitem_in_inv in Hw. destruct Hw as [i [Hi ->]].
    eapply (@keep_slot skeleton fir_default); [reflexivity|exact Hs|exact Hi|intros Hs'].
    eapply keep_fields; [reflexivity| |exact Hs'].
    rewrite (shape_of_dict oc), E. reflexivity.
  - destruct (_extract_acts_sections c t) as [l|]; [|discriminate].
    injection Hr as <-.
    apply setitem_in_inv in Hw. destruct Hw as [i [Hi ->]].
    eapply (@keep_slot skeleton fir_default); [reflexivity|exact Hs|exact Hi|intros Hs'].
    eapply keep_fields; [reflexivity|reflexivity|exact Hs'].
  - destruct (_extract_place c t) as [pl|] eqn:E; [|discriminate].
    injection Hr as <-. apply place_fields in E.
    apply setitem_in_inv in Hw. destruct Hw as [i [Hi ->]].
    eapply (@keep_slot skeleton fir_default); [reflexivity|exact Hs|exact Hi|intros Hs'].
    eapply keep_fields; [reflexivity| |exact Hs'].
    rewrite (shape_of_dict pl), E. reflexivity.
  - destruct (_extract_action_taken c t) as [a|] eqn:E; [|discriminate].
    injection Hr as <-. apply action_taken_fields in E. injection Hw as <-.
    eapply keep_fields; [reflexivity| |exact Hs].
    rewrite (shape_of_dict a), E. reflexivity.
  - destruct (_extract_first_information c t) as [s|]; [|discriminate].
    injection Hr as <-. injection Hw as <-.
    eapply keep_fields; [reflexivity|reflexivity|exact Hs].
Qed.

End Record.

(* ================================================================== *)
(** ** Well-formed input *)

Section Returns.
Context {U : PyUnicode}.

Lemma well_formed_inv item :
  well_formed item = true ->
  exists d s c,
    item = VDict d /\ dict_get d "text" = Some (VStr s) /\
    dict_get d "confidence" = Some c /\ (exists b, gt_threshold c = Ok b).
Proof.
  destruct item as [| | | | | |d]; try discriminate. simpl.
  destruct (dict_get d "text") as [[| | | |s| |]|] eqn:Et; try discriminate.
  destruct (dict_get d "confidence") as [[| |z|f| | |]|] eqn:Ec; try discriminate;
    destruct (dict_get d "bbox"); try discriminate; intros _;
    exists d, s; eexists; (split; [reflexivity|split; [exact Et|split; [exact Ec|]]]).
  - simpl. eauto.
  - destruct f as [q|n|]; simpl; eauto.
Qed.

Lemma keep_confident_ok ocr_data :
  forallb well_formed ocr_data = true ->
  exists f, keep_confident ocr_data = Ok f /\ forallb well_formed f = true.
Proof.
  unfold keep_confident.
  induction ocr_data as [|item rest IH]; simpl; [eauto|].
  intros H. apply andb_prop in H. destruct H as [Hw Hr].
  destruct (IH Hr) as [f [Hf Hwf]].
  destruct (well_formed_inv _ Hw) as [d [s [c [-> [_ [Hc [b Hb]]]]]]].
  simpl. rewrite Hc. simpl. rewrite Hb. simpl. rewrite Hf. simpl.
  destruct b; eexists; (split; [reflexivity|]); auto.
  cbn [forallb]. now rewrite Hw.
Qed.

Lemma clean_ocr_text_ok ocr_data :
  forallb well_formed ocr_data = true ->
  exists c, _clean_ocr_text ocr_data = Ok c /\ Forall cleaned_item c.
Proof.
  induction ocr_data as [|item rest IH]; simpl; [eauto|].
  intros H. apply andb_prop in H. destruct H as [Hw Hr].
  destruct (IH Hr) as [c [Hc Hcl]].
  destruct (well_formed_inv _ Hw) as [d [s [conf [-> [Hs _]]]]].
  simpl. rewrite Hs. simpl.
  destruct (clean_text s) as [text|]; [|eauto].
  rewrite Hc. simpl. eexists; split; [reflexivity|].
  constructor; auto. red. eauto.
Qed.

Lemma join_texts_ok c :
  Forall cleaned_item c -> exists t, join_texts c = Ok t.
Proof.
  unfold join_texts. intros H.
  assert (Hm : exists strs,
             mapM (fun item => getitem item "text") c = Ok (map VStr strs)).
  { induction H as [|v c [text [cf [bb ->]]] _ [strs IH]].
    - exists []. reflexivity.
    - exists (text :: strs). simpl. now rewrite IH. }
  destruct Hm as [strs ->]. simpl.
  assert (Hs : mapM (as_str TypeError) (map VStr strs) = Ok strs).
  { induction strs as [|s strs IH]; simpl; [reflexivity|now rewrite IH]. }
  rewrite Hs. simpl. eauto.
Qed.

Lemma prepare_ok ocr_data :
  forallb well_formed ocr_data = true -> exists ct, prepare ocr_data = Ok ct.
Proof.
  intros H. unfold prepare.
  destruct (keep_confident_ok _ H) as [f [-> Hf]]. simpl.
  destruct (clean_ocr_text_ok _ Hf) as [c [-> Hc]]. simpl.
  destruct (join_texts_ok Hc) as [t ->]. simpl. eauto.
Qed.

(** Whatever the routines do, the call returns once the fragments are
    prepared. *)
Lemma extract_fields_with_returns (self : Methods) ocr_data :
  forallb well_formed ocr_data = true ->
  exists r, extract_fields_with self ocr_data = Ok r.
Proof.
  intros H. rewrite extract_fields_prepare.
  destruct (prepare_ok _ H) as [ct ->]. simpl. eauto.
Qed.

Lemma extract_fields_inv (self : FIRExtractionService) ocr_data r :
  extract_fields self ocr_data = Ok r ->
  exists c t, prepare ocr_data = Ok (c, t) /\ r = run_groups methods c t groups skeleton.
Proof.
  unfold extract_fields. rewrite extract_fields_prepare.
  destruct (prepare ocr_data) as [[c t]|]; [|discriminate].
  simpl. intros [= <-]. eauto.
Qed.

(** C10.  For every input on which [extract_fields] returns, the fields
    PropertyOfInterest, TotalValueOfPropertyInRs, Inquest_UDB_CaseNo,
    FIR.InfoReceivedAtPS, FIR.GeneralDiaryReference,
    ComplainantSignature, DateTimeOfDispatchToCourt and
    AccusedPhysicalDetails hold their skeleton defaults. *)
Theorem untouched_fields_keep_defaults (self : FIRExtractionService)
    (ocr_data : list value) (r : dict) :
  extract_fields self ocr_data = Ok r ->
  Forall (fun p => lookup p (VDict r) = lookup p (VDict skeleton)) untouched_paths.
Proof.
  intros H. apply extract_fields_inv in H. destruct H as [c [t [_ ->]]].
  apply (run_groups_inv kept).
  - intros g v ef ef' _ Hk Hr Hw. eapply write_kept; eauto.
  - unfold kept, untouched_paths. repeat constructor.
Qed.

Lemma extract_fields_shaped (self : FIRExtractionService) ocr_data r :
  extract_fields self ocr_data = Ok r -> shape_of (VDict r) = shape_of (VDict skeleton).
Proof.
  intros H. apply extract_fields_inv in H. destruct H as [c [t [_ ->]]].
  rewrite !shape_of_dict. f_equal.
  apply (run_groups_inv shaped).
  - intros g v ef ef' _ Hk Hr Hw. eapply write_shaped; eauto.
  - reflexivity.
Qed.

(** C8.  For every list of well-formed OCR fragments (a record with a
    string text, a numeric confidence and a bbox each), [extract_fields]
    returns, and what it returns is a FIR Record: it has the keys of
    the skeleton at every nesting level.  Nothing is raised past its
    boundary. *)
Theorem extract_fields_never_raises (self : FIRExtractionService) (ocr_data : list value) :
  forallb well_formed ocr_data = true ->
  exists r,
    extract_fields self ocr_data = Ok r
    /\ shape_of (VDict r) = shape_of (VDict skeleton).
Proof.
  intros H. destruct (extract_fields_with_returns methods _ H) as [r Hr].
  exists r. split; [exact Hr|]. exact (@extract_fields_shaped self ocr_data r Hr).
Qed.

Lemma extract_fields_empty (self : FIRExtractionService) :
  extract_fields self [] = Ok skeleton.
Proof. vm_compute. reflexivity. Qed.

(** C4, as amended.  [extract_fields] on the empty list returns the
    skeleton; every value of the skeleton is an empty string, an empty
    list or zero, except ComplainantInformant.Nationality; and the
    record returned by any call has the keys of the skeleton at every
    nesting level. *)
Theorem skeleton_invariant (self : FIRExtractionService) :
  extract_fields self [] = Ok skeleton
  /\ lookup ["ComplainantInformant"; "Nationality"] (VDict skeleton) = Some (vstr "भारत")
  /\ (exists ef, setitem_in skeleton "ComplainantInformant" "Nationality" (vstr "") = Ok ef
                 /\ all_blank (VDict ef) = true)
  /\ (forall ocr_data r, extract_fields self ocr_data = Ok r ->
                         shape_of (VDict r) = shape_of (VDict skeleton)).
Proof.
  split; [apply extract_fields_empty|].
  split; [reflexivity|].
  split; [eexists; split; reflexivity|].
  intros ocr_data r. apply extract_fields_shaped.
Qed.

End Returns.

(* ================================================================== *)
(** ** Failure isolation *)

Section Isolation.
Context {U : PyUnicode}.
Variable self : Methods.
Variables (c : list value) (t : str).

Lemma write_updatable g v ef :
  updatable ef -> routine self c t g = Ok v ->
  exists ef', write g v ef = Ok ef' /\ updatable ef'.
Proof.
  intros [[i Hi] [j Hj]] Hr. unfold updatable.
  destruct g; simpl in Hr; unfold bind in Hr;
    match type of Hr with
    | match ?x with _ => _ end = _ => destruct x; [|discriminate]
    end;
    injection Hr as <-; simpl;
    unfold update_in, setitem_in, getitem, bind; rewrite ?Hi, ?Hj;
    eexists; (split; [reflexivity|]);
    rewrite !dict_get_set; cbn [String.eqb Ascii.eqb Bool.eqb]; eauto.
Qed.

Lemma run_groups_cut (before after : list field_group) g e ef :
  updatable ef ->
  Forall (fun h => exists v, routine self c t h = Ok v) before ->
  routine self c t g = Raise e ->
  run_groups self c t (before ++ g :: after) ef
  = fold_left (run_group self c t) before ef.
Proof.
  intros Hu Hb Hg. revert ef Hu.
  induction Hb as [|h before [v Hv] _ IH]; intros ef Hu; simpl.
  - now rewrite Hg.
  - unfold run_group at 2. simpl. rewrite Hv.
    destruct (@write_updatable h v ef Hu Hv) as [ef' [-> Hu']].
    now apply IH.
Qed.

End Isolation.

Lemma skeleton_updatable : updatable skeleton.
Proof. split; eexists; reflexivity. Qed.

(** C1, as amended.  When the routine of a group raises and those of
    the groups before it returned, [extract_fields] still returns; the
    record is the skeleton with the results of the groups before it
    stored, so that group and all the groups after it are left at their
    defaults. *)
Theorem failure_cuts_the_block {U : PyUnicode} (self : Methods)
    (ocr_data c : list value) (t : str) (before after : list field_group) (g : field_group) (e : exn) :
  prepare ocr_data = Ok (c, t) ->
  groups = before ++ g :: after ->
  Forall (fun h => exists v, routine self c t h = Ok v) before ->
  routine self c t g = Raise e ->
  extract_fields_with self ocr_data
  = Ok (fold_left (run_group self c t) before skeleton).
Proof.
  intros Hp Hg Hb Hr. rewrite extract_fields_prepare, Hp. cbn [bind fst snd].
  rewrite Hg. f_equal. eapply run_groups_cut; eauto using skeleton_updatable.
Qed.

Lemma failure_cuts_the_block_witness :
  exists c t,
    prepare (U := basic_latin) monday_fragments = Ok (c, t) /\
    extract_fields_with accused_raises monday_fragments
    = Ok (fold_left (run_group accused_raises c t) [GFir; GComplainant] skeleton).
Proof.
  eexists. eexists. split; [vm_compute; reflexivity|].
  apply (@failure_cuts_the_block basic_latin accused_raises monday_fragments _ _
           [GFir; GComplainant]
           [GOccurrence; GActs; GPlace; GAction; GContents] GAccused ValueError).
  - vm_compute. reflexivity.
  - reflexivity.
  - repeat constructor; eexists; vm_compute; reflexivity.
  - reflexivity.
Defined.

(** C1, as stated, fails: with the accused routine raising, the
    occurrence dates of the text are not in the record. *)
Lemma per_group_isolation_counterexample :
  ~ per_group_isolation (U := basic_latin) accused_raises monday_fragments.
Proof.
  intros H.
  assert (Hr : exists c t r v,
             prepare (U := basic_latin) monday_fragments = Ok (c, t)
             /\ extract_fields_with accused_raises monday_fragments = Ok r
             /\ lookup ["FIR"; "OccurrenceOfOffence"; "DateFrom"] (VDict r) = Some (vstr "")
             /\ routine accused_raises c t GAccused = Raise ValueError
             /\ routine accused_raises c t GOccurrence = Ok v
             /\ lookup ["DateFrom"] v = Some (vstr "12/03/2021")).
  { do 4 eexists. repeat split; vm_compute; reflexivity. }
  destruct Hr as [c [t [r [v [Hp [Hr [Hl [Ha [Ho Hv]]]]]]]]].
  specialize (H c t r GAccused ValueError Hp Hr Ha GOccurrence v
                ltac:(discriminate) Ho).
  simpl in H. apply setitem_in_inv in H. destruct H as [i [Hi Heq]].
  rewrite Heq in Hl at 1.
  rewrite lookup_dict_set in Hl. cbn [String.eqb Ascii.eqb Bool.eqb] in Hl.
  rewrite lookup_dict_set in Hl. cbn [String.eqb Ascii.eqb Bool.eqb] in Hl.
  rewrite Hv in Hl. vm_compute in Hl. discriminate Hl.
Qed.

(* ================================================================== *)
(** ** Refinement *)

Lemma collect_acc f group field samples acc :
  collect f group field samples acc
  = (l <- collect f group field samples [] ;; Ok (acc ++ l)).
Proof.
  revert acc. induction samples as [|s samples IH]; intros acc; simpl.
  - now rewrite app_nil_r.
  - unfold bind in *. destruct (ground_truth_field group field s) as [v|]; auto.
    destruct (truthy v); [|apply IH].
    destruct (f v) as [x|]; auto.
    rewrite (IH (acc ++ [x])), (IH [x]).
    destruct (collect f group field samples []); auto.
    simpl. now rewrite <- app_assoc.
Qed.

(** The loop over well-typed samples collects the escaped non-empty
    values, in order. *)
Lemma collect_escaped group field samples :
  Forall (fun s => text_field group field s <> None) samples ->
  collect re_escape group field samples []
  = Ok (map (fun s => VStr (escape_str s)) (seen group field samples)).
Proof.
  induction 1 as [|s samples Hs _ IH]; [reflexivity|].
  simpl. unfold seen. simpl. unfold text_field in *.
  destruct (ground_truth_field group field s) as [[| | | |x| |]|]; try congruence.
  simpl. destruct x as [|a x]; simpl; [exact IH|].
  rewrite collect_acc, IH. reflexivity.
Qed.

Lemma collect_fir_no samples :
  Forall (fun s => exists v, ground_truth_field "FIR" "FIRNo" s = Ok v) samples ->
  exists l, collect (fun v => Ok v) "FIR" "FIRNo" samples [] = Ok l
            /\ (has_fir_no samples = match l with [] => false | _ :: _ => true end).
Proof.
  induction 1 as [|s samples [v Hv] _ [l [IH Hl]]]; [exists []; auto|].
  simpl. rewrite Hv. simpl. destruct (truthy v); simpl.
  - rewrite collect_acc, IH. simpl. eauto.
  - rewrite IH. eauto.
Qed.

Lemma alternation_spec n values :
  alternation n (map (fun s => VStr (escape_str s)) values) = literal_alternation n values.
Proof.
  unfold alternation, literal_alternation.
  rewrite firstn_map, !map_map. reflexivity.
Qed.

Lemma well_typed_inv s :
  well_typed s = true ->
  (exists v, ground_truth_field "FIR" "FIRNo" s = Ok v)
  /\ text_field "FIR" "District" s <> None
  /\ text_field "FIR" "PoliceStation" s <> None
  /\ text_field "ComplainantInformant" "Name" s <> None.
Proof.
  unfold well_typed.
  destruct (ground_truth_field "FIR" "FIRNo" s); [|discriminate].
  destruct (text_field "FIR" "District" s); [|discriminate].
  destruct (text_field "FIR" "PoliceStation" s); [|discriminate].
  destruct (text_field "ComplainantInformant" "Name" s); [|discriminate].
  intros _. repeat split; eauto; discriminate.
Qed.

Lemma map_escaped_nil values :
  map (fun s => VStr (escape_str s)) values = [] -> values = [].
Proof. now destruct values. Qed.

(** What the analysis returns on well-typed samples. *)
Lemma analysis_rules (samples : list value) :
  forallb well_typed samples = true ->
  exists improved,
    _analyze_training_samples samples = Ok improved
    /\ dict_get improved "fir_no"
       = (if has_fir_no samples then Some (VStr improved_fir_no) else None)
    /\ dict_get improved "district"
       = synthesized "(?:District|जिला).*?:\s*(" ")" 5 (seen "FIR" "District" samples)
    /\ dict_get improved "police_station"
       = synthesized "(?:P\.S\.|Police Station|थाने).*?:\s*(" ")" 5
           (seen "FIR" "PoliceStation" samples)
    /\ dict_get improved "complainant_name"
       = synthesized "(?:Name|नाव).*?:\s*(" "|\w+(?:\s+\w+)*)" 3
           (seen "ComplainantInformant" "Name" samples).
Proof.
  intros H. rewrite forallb_forall in H.
  assert (Hall : Forall (fun s => well_typed s = true) samples)
    by (apply Forall_forall; auto).
  destruct (@collect_fir_no samples) as [l [Hl Hfir]].
  { eapply Forall_impl; [|exact Hall]. intros s Hs. now apply well_typed_inv in Hs. }
  unfold _analyze_training_samples. rewrite Hl. cbn [bind].
  rewrite !collect_escaped;
    try (eapply Forall_impl; [|exact Hall]; intros s Hs; apply well_typed_inv in Hs; tauto).
  cbn [bind]. rewrite Hfir. eexists. split; [reflexivity|].
  destruct l as [|x l];
    destruct (seen "FIR" "District" samples) as [|d ds] eqn:Ed;
    destruct (seen "FIR" "PoliceStation" samples) as [|p ps] eqn:Ep;
    destruct (seen "ComplainantInformant" "Name" samples) as [|n ns] eqn:En;
    cbn [map]; cbv zeta;
    repeat (rewrite dict_get_set; cbn [String.eqb Ascii.eqb Bool.eqb]);
    repeat split; try reflexivity;
    unfold synthesized;
    rewrite <- alternation_spec; reflexivity.
Qed.

(** C7, as amended.  On samples whose tracked fields are strings, the
    analysis keeps, for district, police station and complainant name,
    the non-empty ground-truth values in sample order with their
    repetitions, truncates them to the first 5, 5 and 3, escapes each
    and joins them with [|] inside a pattern anchored to the label (the
    name pattern ends with the generic word-sequence alternative); a
    field with no value gets no rule.  The FIR number rule is one fixed
    pattern, present when some sample carries a FIR number. *)
Theorem analysis_synthesizes_alternations (samples : list value) :
  forallb well_typed samples = true ->
  exists improved,
    _analyze_training_samples samples = Ok improved
    /\ dict_get improved "fir_no"
       = (if has_fir_no samples then Some (VStr improved_fir_no) else None)
    /\ dict_get improved "district"
       = synthesized "(?:District|जिला).*?:\s*(" ")" 5 (seen "FIR" "District" samples)
    /\ dict_get improved "police_station"
       = synthesized "(?:P\.S\.|Police Station|थाने).*?:\s*(" ")" 5
           (seen "FIR" "PoliceStation" samples)
    /\ dict_get improved "complainant_name"
       = synthesized "(?:Name|नाव).*?:\s*(" "|\w+(?:\s+\w+)*)" 3
           (seen "ComplainantInformant" "Name" samples).
Proof. apply analysis_rules. Qed.

Lemma analysis_witness_samples : forallb well_typed district_samples = true.
Proof. reflexivity. Qed.

Lemma analysis_synthesizes_alternations_witness :
  exists improved,
    _analyze_training_samples district_samples = Ok improved
    /\ dict_get improved "fir_no"
       = (if has_fir_no district_samples then Some (VStr improved_fir_no) else None)
    /\ dict_get improved "district"
       = synthesized "(?:District|जिला).*?:\s*(" ")" 5 (seen "FIR" "District" district_samples)
    /\ dict_get improved "police_station"
       = synthesized "(?:P\.S\.|Police Station|थाने).*?:\s*(" ")" 5
           (seen "FIR" "PoliceStation" district_samples)
    /\ dict_get improved "complainant_name"
       = synthesized "(?:Name|नाव).*?:\s*(" "|\w+(?:\s+\w+)*)" 3
           (seen "ComplainantInformant" "Name" district_samples).
Proof.
  apply (analysis_synthesizes_alternations district_samples). reflexivity.
Defined.

(** C7, as stated, fails: a district seen three times is listed three
    times in the pattern, where the distinct values would list it once. *)
Lemma distinct_values_counterexample :
  exists improved,
    _analyze_training_samples district_samples = Ok improved
    /\ dict_get improved "district"
       = Some (vstr "(?:District|जिला).*?:\s*(Pune|Pune|Nashik|Pune|Thane)")
    /\ synthesized_distinct "(?:District|जिला).*?:\s*(" ")" 5
         (seen "FIR" "District" district_samples)
       = Some (vstr "(?:District|जिला).*?:\s*(Pune|Nashik|Thane)")
    /\ dict_get improved "district"
       <> synthesized_distinct "(?:District|जिला).*?:\s*(" ")" 5
            (seen "FIR" "District" district_samples).
Proof.
  eexists. split; [vm_compute; reflexivity|].
  split; [vm_compute; reflexivity|].
  split; [vm_compute; reflexivity|].
  vm_compute. discriminate.
Qed.

(** *** retrain_model *)

Lemma keys_dict_set_new (d : dict) k v :
  ~ In k (keys d) -> keys (dict_set d k v) = keys d ++ [k].
Proof.
  induction d as [|[k0 v0] d IH]; simpl; intros Hn; [reflexivity|].
  destruct (String.eqb k k0) eqn:E.
  - apply String.eqb_eq in E. subst. tauto.
  - simpl. f_equal. apply IH. tauto.
Qed.

Lemma NoDup_dict_set (d : dict) k v :
  NoDup (keys d) -> NoDup (keys (dict_set d k v)).
Proof.
  intros Hd. destruct (in_dec string_dec k (keys d)) as [Hin|Hn].
  - now rewrite keys_dict_set.
  - rewrite keys_dict_set_new by assumption.
    apply NoDup_app; auto.
    + repeat constructor. simpl. tauto.
    + intros x Hx [<-|[]]. tauto.
Qed.

Lemma dict_get_in_keys (d : dict) k v : dict_get d k = Some v -> In k (keys d).
Proof.
  induction d as [|[k0 v0] d IH]; simpl; [discriminate|].
  destruct (String.eqb k k0) eqn:E; auto.
  apply String.eqb_eq in E. auto.
Qed.

Lemma dict_get_not_in_keys (d : dict) k : dict_get d k = None -> ~ In k (keys d).
Proof.
  induction d as [|[k0 v0] d IH]; simpl; [tauto|].
  destruct (String.eqb k k0) eqn:E; [discriminate|].
  apply String.eqb_neq in E. intros H [Heq|Hin]; [congruence|]. now apply IH.
Qed.

Lemma dict_get_update_in (o d : dict) k v :
  NoDup (keys o) -> dict_get o k = Some v -> dict_get (dict_update d o) k = Some v.
Proof.
  unfold dict_update. revert d.
  induction o as [|[k0 v0] o IH]; intros d Hn Hg; simpl in *; [discriminate|].
  inversion Hn as [|? ? Hnotin Hn']; subst.
  destruct (String.eqb k k0) eqn:E.
  - apply String.eqb_eq in E. subst k0. injection Hg as ->.
    change (dict_get (dict_update (dict_set d k v) o) k = Some v).
    rewrite dict_get_update_notin by assumption. apply dict_get_set_same.
  - now apply IH.
Qed.

Lemma analysis_keys_nodup samples improved :
  _analyze_training_samples samples = Ok improved -> NoDup (keys improved).
Proof.
  unfold _analyze_training_samples, bind.
  destruct (collect _ "FIR" "FIRNo" samples []) as [l1|]; [|discriminate].
  destruct (collect _ "FIR" "District" samples []) as [l2|]; [|discriminate].
  destruct (collect _ "FIR" "PoliceStation" samples []) as [l3|]; [|discriminate].
  destruct (collect _ "ComplainantInformant" "Name" samples []) as [l4|]; [|discriminate].
  intros [= <-].
  destruct l1, l2, l3, l4; cbv zeta; repeat apply NoDup_dict_set;
    unfold keys; simpl; repeat constructor; simpl; intuition discriminate.
Qed.


Lemma length_ge_5 {A : Type} (l : list A) :
  (5 <= length l)%nat -> (length l <? 5)%nat = false.
Proof. intros H. now apply Nat.ltb_ge. Qed.

(** What [_save_improved_patterns] leaves of the pattern file. *)
Lemma save_goes_through (improved : dict) (w : World) :
  write_goes_through improved w = true ->
  pattern_file (_save_improved_patterns improved w) = Some (VDict improved).
Proof.
  unfold write_goes_through, _save_improved_patterns. cbn [pattern_file].
  destruct (pattern_io w); try discriminate. now intros ->.
Qed.




(** A rule that cannot be encoded: the refinement answers "success" and
    leaves no pattern file that can be read. *)
Example unencodable_rule_is_not_persisted :
  forallb well_typed surrogate_samples = true
  /\ status (retrain_model (world_of surrogate_samples)) = Some (vstr "success")
  /\ pattern_file (world (retrain_model (world_of surrogate_samples))) = None.
Proof. repeat split. Qed.


(** A sample whose FIR group is not a dictionary makes the analysis
    raise. *)
Example malformed_sample_gives_error :
  status (retrain_model (world_of (repeat (sample "a" [("FIR", vstr "x")]) 5)))
  = Some (vstr "error").
Proof. reflexivity. Qed.

(* ================================================================== *)
(** ** Two examples of the specification, on the code *)

(** [extract_fields] does not read [self.patterns]. *)
Lemma extract_fields_ignores_patterns {U : PyUnicode} (s1 s2 : FIRExtractionService)
    (ocr_data : list value) :
  extract_fields s1 ocr_data = extract_fields s2 ocr_data.
Proof. reflexivity. Qed.

(** C2: the code at the failing input.  Refinement on five samples of
    district "Station Road" succeeds and persists a district rule that
    lists the value; a page that reads "District : Station Road" still
    gives an empty FIR.District, whatever service extracts it (the one
    of the upload route, the one the refinement built, one built anew
    from the persisted patterns). *)
Theorem refined_district_pattern_not_used :
  let out := retrain_model (world_of station_road_samples) in
  status out = Some (vstr "success")
  /\ (exists p, pattern_file (world out) = Some (VDict p)
                /\ dict_get p "district"
                   = Some (vstr "(?:District|जिला).*?:\s*(Station\ Road|Station\ Road|Station\ Road|Station\ Road|Station\ Road)"))
  /\ (exists s, local_service out = Some s
                /\ dict_get (patterns s) "district"
                   = Some (vstr "(?:District|जिला).*?:\s*(Station\ Road|Station\ Road|Station\ Road|Station\ Road|Station\ Road)"))
  /\ forall service : FIRExtractionService,
       exists r, extract_fields (U := basic_latin) service station_road_page = Ok r
                 /\ lookup ["FIR"; "District"] (VDict r) = Some (vstr "").
Proof.
  cbv zeta. split; [reflexivity|].
  split; [eexists; split; vm_compute; reflexivity|].
  split; [eexists; split; vm_compute; reflexivity|].
  intros service. eexists. split; vm_compute; reflexivity.
Qed.

(** C3: the code at the failing input.  On the fragments "Accused",
    "Name", "Ramesh Kumar" the correction table first rewrites "Accused"
    to "AccusNo"; the accused routine in force, the label-anchored
    pattern, finds no colon and returns no entry.  The block scan of the
    first definition of [_extract_accused] would return the entry on the
    fragments as they are, and nothing on the cleaned ones. *)
Theorem accused_block_example_not_extracted (self : FIRExtractionService) :
  exists c r,
    prepare (U := basic_latin) ramesh_fragments = Ok (c, py "AccusNo Name Ramesh Kumar")
    /\ extract_fields self ramesh_fragments = Ok r
    /\ lookup ["AccusedDetails"] (VDict r) = Some (VList [])
    /\ _extract_accused_shadowed ramesh_fragments = Ok [accused_entry (py "Ramesh Kumar")]
    /\ _extract_accused_shadowed c = Ok [].
Proof.
  do 2 eexists. repeat split; vm_compute; reflexivity.
Qed.

(* ================================================================== *)
(** ** The year *)

Section Year.
Context {U : PyUnicode}.

(** A repetition of exactly [n] digits takes the [n] digits at the head
    of the text or fails. *)
Lemma match_rep_exact (A : Type) (n : nat) (k : option char -> str -> option A) :
  (forall p q s, k p s = k q s) ->
  forall prev s,
    match_rep (CItem IDigit) true n (Some n) prev s k
    = match digits_at n s with
      | Some _ => k None (skipn n s)
      | None => None
      end.
Proof.
  intros Hk. induction n as [|n IH]; intros prev s.
  - destruct s; simpl; apply Hk.
  - destruct s as [|c s]; [reflexivity|].
    cbn [match_rep digits_at hi_allows hi_pred Nat.pred andb class_match item_match skipn].
    destruct (is_digit c); [|reflexivity].
    rewrite IH. destruct (digits_at n s); [destruct (k None (skipn n s))|]; reflexivity.
Qed.

Lemma digits_at_firstn n s r : digits_at n s = Some r -> firstn n s = r /\ length r = n.
Proof.
  revert s r. induction n as [|n IH]; intros s r; simpl.
  - now intros [= <-].
  - destruct s as [|c s]; [discriminate|].
    destruct (is_digit c); [|discriminate].
    destruct (digits_at n s) as [r'|] eqn:E; [|discriminate].
    intros [= <-]. destruct (IH _ _ E) as [-> Hl]. simpl. auto.
Qed.

Lemma digits_at_length n s r : digits_at n s = Some r -> (n <= length s)%nat.
Proof.
  revert s r. induction n as [|n IH]; intros s r; simpl; [lia|].
  destruct s as [|c s]; [discriminate|].
  destruct (is_digit c); [|discriminate].
  destruct (digits_at n s) as [r'|] eqn:E; [|discriminate].
  intros _. apply IH in E. simpl. lia.
Qed.

Lemma consumed_skipn n (s : str) : (n <= length s)%nat -> consumed s (skipn n s) = firstn n s.
Proof.
  intros H. unfold consumed. rewrite length_skipn. f_equal. lia.
Qed.

Lemma match_here_year prev s pos :
  option_map (fun m => grp m 1) (match_here false re_year prev s pos) = digits_at 4 s.
Proof.
  unfold match_here, re_year, times. cbn [rx st_prev st_rest st_caps].
  rewrite match_rep_exact by reflexivity.
  destruct (digits_at 4 s) as [r|] eqn:E; [|reflexivity].
  cbn [option_map grp group m_caps assoc_nat Nat.eqb st_rest].
  rewrite consumed_skipn by (eapply digits_at_length; eauto).
  now destruct (@digits_at_firstn 4 s r E) as [-> _].
Qed.

Lemma search_from_year t prev pos :
  option_map (fun m => grp m 1) (search_from false re_year prev t pos) = first_run 4 t.
Proof.
  revert prev pos. induction t as [|c t IH]; intros prev pos.
  - cbn [search_from first_run]. rewrite <- (match_here_year prev [] pos).
    destruct (match_here false re_year prev [] pos); reflexivity.
  - cbn [search_from first_run]. rewrite <- (match_here_year prev (c :: t) pos).
    destruct (match_here false re_year prev (c :: t) pos); cbn [option_map].
    + reflexivity.
    + apply IH.
Qed.

Lemma search_year t :
  option_map (fun m => grp m 1) (re_search false re_year t) = first_run 4 t.
Proof. apply search_from_year. Qed.

(** [int] does not raise on a run of digits. *)
Lemma int_digits_some n s r acc :
  digits_at n s = Some r -> exists y, int_digits acc r = Some y.
Proof.
  revert s r acc. induction n as [|n IH]; intros s r acc; simpl.
  - intros [= <-]. simpl. eauto.
  - destruct s as [|c s]; [discriminate|].
    unfold is_digit. destruct (decimal c) as [d|] eqn:Ed; [|discriminate].
    destruct (digits_at n s) as [r'|] eqn:E; [|discriminate].
    intros [= <-]. simpl. rewrite Ed. eauto.
Qed.

Lemma first_run_digits n s r : first_run n s = Some r -> exists s', digits_at n s' = Some r.
Proof.
  induction s as [|c s IH]; simpl.
  - destruct (digits_at n []) eqn:E; [|discriminate]. intros [= <-]. eauto.
  - destruct (digits_at n (c :: s)) eqn:E.
    + intros [= <-]. eauto.
    + auto.
Qed.

Lemma int_first_run t r :
  first_run 4 t = Some r -> exists y, int r = Ok y /\ int_of_str r = Some y.
Proof.
  intros H. apply first_run_digits in H. destruct H as [s' H].
  destruct (@digits_at_firstn 4 s' r H) as [_ Hl].
  destruct (@int_digits_some 4 s' r 0%N H) as [y Hy].
  exists y. unfold int, int_of_str.
  destruct r; [discriminate|]. now rewrite Hy.
Qed.

(** The "Year" entry of what [_extract_fir_info] returns. *)
Lemma fir_info_year c t :
  exists fi,
    _extract_fir_info c t = Ok fi
    /\ NoDup (keys fi)
    /\ dict_get fi "Year"
       = match first_run 4 t with
         | Some r => match year_value r with
                     | Some y => Some (VInt (Z.of_N y))
                     | None => None
                     end
         | None => None
         end.
Proof.
  unfold _extract_fir_info. cbv zeta.
  match goal with
  | |- context [bind (match re_search false re_year t with
                      | Some _ => _
                      | None => Ok ?d
                      end) _] =>
      assert (Hd : NoDup (keys d) /\ dict_get d "Year" = None)
  end.
  { split.
    - repeat first [ apply NoDup_dict_set
                   | exact (NoDup_nil _)
                   | match goal with
                     | |- NoDup (keys (match ?x with _ => _ end)) => destruct x
                     end ].
    - repeat first [ reflexivity
                   | rewrite dict_get_set; cbn [String.eqb Ascii.eqb Bool.eqb]
                   | match goal with
                     | |- dict_get (match ?x with _ => _ end) _ = _ => destruct x
                     end ]. }
  match goal with
  | |- context [bind (match re_search false re_year t with
                      | Some _ => _
                      | None => Ok ?d
                      end) _] => generalize dependent d
  end.
  intros d [Hn Hy].
  assert (Hwalk : forall d' : dict,
             NoDup (keys d') ->
             let fi := if contains (py "लिखित") t || contains (py "Written") t
                       then dict_set d' "TypeOfInformation" (vstr "लिखित")
                       else if contains (py "मौखिक") t || contains (py "Oral") t
                            then dict_set d' "TypeOfInformation" (vstr "मौखिक")
                            else d' in
             NoDup (keys fi) /\ dict_get fi "Year" = dict_get d' "Year").
  { intros d' Hd'. cbv zeta.
    destruct (contains (py "लिखित") t || contains (py "Written") t);
      [|destruct (contains (py "मौखिक") t || contains (py "Oral") t)];
      split; try apply NoDup_dict_set; auto;
      rewrite dict_get_set; reflexivity. }
  generalize (search_year t).
  destruct (re_search false re_year t) as [m|]; cbn [option_map]; intros Hs;
    symmetry in Hs; rewrite Hs.
  - destruct (int_first_run t Hs) as [y [Hi Hs2]]. rewrite Hi. cbn [bind].
    unfold year_value. rewrite Hs2.
    eexists. split; [reflexivity|].
    destruct ((2000 <=? y)%N && (y <=? 2030)%N).
    + destruct (Hwalk (dict_set d "Year" (VInt (Z.of_N y)))) as [H1 H2];
        [now apply NoDup_dict_set|].
      split; [exact H1|]. rewrite H2. apply dict_get_set_same.
    + destruct (Hwalk d Hn) as [H1 H2]. split; [exact H1|]. now rewrite H2.
  - cbn [bind]. eexists. split; [reflexivity|].
    destruct (Hwalk d Hn) as [H1 H2]. split; [exact H1|]. now rewrite H2.
Qed.

Lemma write_keeps_year g v ef ef' :
  g <> GFir -> write g v ef = Ok ef' ->
  lookup ["FIR"; "Year"] (VDict ef') = lookup ["FIR"; "Year"] (VDict ef).
Proof.
  intros Hg Hw. destruct g; try congruence; simpl in Hw;
    try (destruct v; try discriminate; apply update_in_inv in Hw; destruct Hw as [i [Hi ->]]);
    try (injection Hw as <-);
    try (apply setitem_in_inv in Hw; destruct Hw as [i [Hi ->]]);
    rewrite lookup_dict_set; cbn [String.eqb Ascii.eqb Bool.eqb]; try reflexivity;
    cbn [lookup]; rewrite Hi, dict_get_set_other; auto; discriminate.
Qed.

Lemma year_of_first_run_range t :
  (year_of_first_run t = 0 \/ 2000 <= year_of_first_run t <= 2030)%Z.
Proof.
  unfold year_of_first_run, year_value.
  destruct (first_run 4 t) as [r|]; [|now left].
  destruct (int_of_str r) as [y|]; [|now left].
  destruct ((2000 <=? y)%N && (y <=? 2030)%N) eqn:E; [|now left].
  apply andb_prop in E. destruct E as [E1 E2].
  apply N.leb_le in E1, E2. right. lia.
Qed.

Lemma run_groups_cons (self : Methods) c t g rest ef :
  run_groups self c t (g :: rest) ef
  = match routine self c t g with
    | Raise _ => ef
    | Ok v =>
        match write g v ef with
        | Raise _ => ef
        | Ok ef' => run_groups self c t rest ef'
        end
    end.
Proof. reflexivity. Qed.

(** C5, as amended.  For every input on which [extract_fields] returns,
    FIR.Year is the value of the first 4-digit run of the full text when
    that value lies within [2000, 2030], and 0 otherwise (no run, or a
    first run out of range, even when a later run is in range); so a run
    such as 1850 or 2045 never populates it. *)
Theorem year_is_checked_first_run (self : FIRExtractionService)
    (ocr_data : list value) (r : dict) :
  extract_fields self ocr_data = Ok r ->
  exists c t,
    prepare ocr_data = Ok (c, t)
    /\ lookup ["FIR"; "Year"] (VDict r) = Some (VInt (year_of_first_run t))
    /\ (year_of_first_run t = 0 \/ 2000 <= year_of_first_run t <= 2030)%Z.
Proof.
  intros H. apply extract_fields_inv in H. destruct H as [c [t [Hp ->]]].
  exists c, t. split; [exact Hp|]. split; [|apply year_of_first_run_range].
  unfold groups. rewrite run_groups_cons. unfold routine at 1.
  cbn [methods extract_fir_info].
  destruct (fir_info_year c t) as [fi [Hfi [Hn Hy]]]. rewrite Hfi. cbn [bind].
  replace (write GFir (VDict fi) skeleton)
    with (Ok (dict_set skeleton "FIR" (VDict (dict_update fir_default fi))))
    by reflexivity.
  apply (run_groups_inv
           (fun ef => lookup ["FIR"; "Year"] (VDict ef)
                      = Some (VInt (year_of_first_run t)))).
  - intros g v ef ef' Hin Hk _ Hw. rewrite <- Hk.
    apply (@write_keeps_year g v ef ef'); auto.
    intros ->. simpl in Hin. intuition discriminate.
  - rewrite lookup_dict_set. cbn [String.eqb Ascii.eqb Bool.eqb lookup].
    unfold year_of_first_run.
    destruct (first_run 4 t) as [run|].
    + destruct (year_value run) as [y|].
      * now rewrite (@dict_get_update_in fi fir_default "Year" _ Hn Hy).
      * rewrite dict_get_update_notin by now apply dict_get_not_in_keys.
        reflexivity.
    + rewrite dict_get_update_notin by now apply dict_get_not_in_keys.
      reflexivity.
Qed.

End Year.

Lemma year_is_checked_first_run_witness :
  exists c t,
    prepare (U := basic_latin) two_runs = Ok (c, t)
    /\ lookup ["FIR"; "Year"] (VDict two_runs_record)
       = Some (VInt (year_of_first_run t))
    /\ (year_of_first_run t = 0 \/ 2000 <= year_of_first_run t <= 2030)%Z.
Proof.
  apply (@year_is_checked_first_run basic_latin (new_service None) two_runs two_runs_record).
  vm_compute. reflexivity.
Defined.

(** C5, as stated, fails: on the text "1850 2021" the year stays 0,
    though 2021 is the first 4-digit run within the range. *)
Lemma year_is_first_in_range_counterexample :
  ~ year_is_first_in_range (U := basic_latin) two_runs.
Proof.
  intros H.
  assert (Hr : exists c t r,
             prepare (U := basic_latin) two_runs = Ok (c, t)
             /\ extract_fields (new_service None) two_runs = Ok r
             /\ lookup ["FIR"; "Year"] (VDict r) = Some (VInt 0)
             /\ first_run_in_range t = 2021%Z).
  { do 3 eexists. repeat split; vm_compute; reflexivity. }
  destruct Hr as [c [t [r [Hp [Hr [Hl Hf]]]]]].
  specialize (H (new_service None) c t r Hp Hr).
  rewrite Hl, Hf in H. discriminate H.
Qed.


(* ================================================================== *)
(** ** Normalization *)

Section Normalization.
Context {U : PyUnicode}.

(** *** strip *)

Lemma lstrip_idem s : lstrip (lstrip s) = lstrip s.
Proof.
  induction s as [|c s IH]; simpl; [reflexivity|].
  destruct (is_space c) eqn:E; [exact IH|]. simpl. now rewrite E.
Qed.

Lemma rstrip_idem s : rstrip (rstrip s) = rstrip s.
Proof.
  induction s as [|c s IH]; simpl; [reflexivity|].
  destruct (rstrip s) as [|x r] eqn:E.
  - destruct (is_space c) eqn:Ec; simpl; [reflexivity|now rewrite Ec].
  - change (rstrip (c :: x :: r)) with
      (match rstrip (x :: r) with [] => if is_space c then [] else [c] | r' => c :: r' end).
    now rewrite IH.
Qed.

Lemma lstrip_rstrip s : lstrip (rstrip s) = rstrip (lstrip s).
Proof.
  induction s as [|c s IH]; [reflexivity|].
  cbn [lstrip rstrip]. destruct (is_space c) eqn:Ec.
  - rewrite <- IH. destruct (rstrip s) as [|x r]; [reflexivity|].
    cbn [lstrip]. now rewrite Ec.
  - cbn [rstrip]. destruct (rstrip s) as [|x r]; cbn [lstrip]; now rewrite Ec.
Qed.

Lemma strip_idem s : strip (strip s) = strip s.
Proof.
  unfold strip. rewrite lstrip_rstrip, lstrip_idem, rstrip_idem. reflexivity.
Qed.

(** *** A property of every character *)

Lemma Forall_lstrip (P : char -> Prop) s : Forall P s -> Forall P (lstrip s).
Proof.
  induction 1 as [|c s Hc Hs IH]; simpl; [constructor|].
  destruct (is_space c); auto.
Qed.

Lemma Forall_rstrip (P : char -> Prop) s : Forall P s -> Forall P (rstrip s).
Proof.
  induction 1 as [|c s Hc Hs IH]; simpl; [constructor|].
  destruct (rstrip s); [destruct (is_space c)|]; auto.
Qed.

Lemma Forall_strip (P : char -> Prop) s : Forall P s -> Forall P (strip s).
Proof. intros H. now apply Forall_rstrip, Forall_lstrip. Qed.

Lemma Forall_replace_from (P : char -> Prop) old new n s :
  Forall P new -> Forall P s -> Forall P (replace_from old new n s).
Proof.
  intros Hn Hs. revert n. induction Hs as [|c s Hc Hs IH]; intros n; simpl; [constructor|].
  destruct n; [|apply IH].
  match goal with |- Forall P (if ?b then _ else _) => destruct b end.
  - apply Forall_app. auto.
  - constructor; auto.
Qed.

Lemma Forall_replace (P : char -> Prop) old new s :
  old <> [] -> Forall P new -> Forall P s -> Forall P (replace old new s).
Proof.
  intros Ho Hn Hs. destruct old; [congruence|]. now apply Forall_replace_from.
Qed.

(** *** replace *)

Lemma replace_absent old new s : contains old s = false -> replace old new s = s.
Proof.
  destruct old as [|a old]; [destruct s; discriminate|].
  unfold replace. induction s as [|c s IH]; [reflexivity|].
  intros H. cbn [contains] in H. apply orb_false_iff in H. destruct H as [H1 H2].
  cbn [replace_from]. rewrite H1. f_equal. auto.
Qed.

(** *** re.sub with one character class *)

Lemma consumed_one (c : char) s : consumed (c :: s) s = [c].
Proof.
  unfold consumed. replace (length (c :: s) - length s)%nat with 1%nat; [reflexivity|].
  cbn [length]. lia.
Qed.

Lemma sub_class k s prev :
  sub_from (RCls k) [] 0 prev s = filter (fun c => negb (class_match k c)) s.
Proof.
  revert prev. induction s as [|c s IH]; intros prev; [reflexivity|].
  cbn [sub_from filter]. unfold match_here. cbn [rx st_rest st_prev st_caps].
  destruct (class_match k c); cbn [negb].
  - cbn [m_text]. rewrite consumed_one. cbn [length app]. apply IH.
  - f_equal. apply IH.
Qed.

Lemma re_sub_noise s : re_sub noise [] s = filter allowed s.
Proof. unfold re_sub, noise. apply sub_class. Qed.

Lemma filter_all (f : char -> bool) s :
  Forall (fun c => f c = true) s -> filter f s = s.
Proof.
  induction 1 as [|c s Hc _ IH]; simpl; [reflexivity|]. now rewrite Hc, IH.
Qed.

Lemma Forall_filter_true (f : char -> bool) s :
  Forall (fun c => f c = true) (filter f s).
Proof.
  induction s as [|c s IH]; simpl; [constructor|].
  destruct (f c) eqn:E; auto.
Qed.

(** *** The corrections *)

Lemma correction_char_allowed c : correction_char c = true -> allowed c = true.
Proof.
  unfold correction_char, allowed. cbn [class_match xorb existsb item_match].
  change (ch ".") with 46%N. change (ch "/") with 47%N.
  intros H. destruct (ascii_alnum c) eqn:Ea.
  { unfold is_word. now rewrite (ascii_is_alnum _ Ea). }
  cbn [orb] in H. repeat (apply orb_prop in H; destruct H as [H|H]).
  - apply N.eqb_eq in H. subst. rewrite space_is_space.
    repeat (progress (cbn [orb negb]; rewrite ?orb_true_r)). reflexivity.
  - apply N.eqb_eq in H. subst. rewrite N.eqb_refl.
    repeat (progress (cbn [orb negb]; rewrite ?orb_true_r)). reflexivity.
  - apply N.eqb_eq in H. subst. rewrite N.eqb_refl.
    repeat (progress (cbn [orb negb]; rewrite ?orb_true_r)). reflexivity.
Qed.

Lemma corrections_checked :
  forallb (fun kv => nonempty (fst kv) && forallb correction_char (snd kv)) corrections = true.
Proof. vm_compute. reflexivity. Qed.

Lemma fold_corrections_allowed (l : list (str * str)) t :
  forallb (fun kv => nonempty (fst kv) && forallb correction_char (snd kv)) l = true ->
  Forall (fun c => allowed c = true) t ->
  Forall (fun c => allowed c = true) (fold_left (fun t kv => replace (fst kv) (snd kv) t) l t).
Proof.
  revert t. induction l as [|[k v] l IH]; intros t Hl Ht; simpl; [exact Ht|].
  simpl in Hl. apply andb_prop in Hl. destruct Hl as [Hkv Hl].
  apply andb_prop in Hkv. destruct Hkv as [Hk Hv].
  apply IH; [exact Hl|]. apply Forall_replace; auto.
  - destruct k; [discriminate|congruence].
  - rewrite forallb_forall in Hv. apply Forall_forall.
    intros c Hc. now apply correction_char_allowed, Hv.
Qed.

Lemma fold_corrections_absent (l : list (str * str)) t :
  forallb (fun kv => negb (contains (fst kv) t)) l = true ->
  fold_left (fun t kv => replace (fst kv) (snd kv) t) l t = t.
Proof.
  induction l as [|[k v] l IH]; simpl; [reflexivity|].
  intros H. apply andb_prop in H. destruct H as [Hk Hl].
  apply negb_true_iff in Hk. rewrite replace_absent by exact Hk. auto.
Qed.

(** *** Whitespace collapse *)

Lemma spaces_le s : (spaces s <= length s)%nat.
Proof.
  induction s as [|c s IH]; simpl; [lia|]. destruct (is_space c); lia.
Qed.

(** A greedy repetition of whitespace takes the whole run. *)
Lemma match_rep_spaces (A : Type) (f : str -> A) lo prev s :
  match_rep (CItem ISpace) true lo None prev s (fun _ rest => Some (f rest))
  = if (lo <=? spaces s)%nat then Some (f (skipn (spaces s) s)) else None.
Proof.
  revert lo prev. induction s as [|c s IH]; intros lo prev.
  - destruct lo; reflexivity.
  - cbn [match_rep spaces hi_allows hi_pred andb class_match item_match].
    destruct (is_space c).
    + rewrite IH. cbn [skipn].
      destruct lo as [|lo]; cbn [Nat.pred Nat.leb].
      * reflexivity.
      * destruct (lo <=? spaces s)%nat; reflexivity.
    + destruct lo; reflexivity.
Qed.

Lemma match_here_spaces prev s :
  match_here false (plus space) prev s 0
  = if (1 <=? spaces s)%nat
    then Some (RMatch 0 (firstn (spaces s) s) [] (skipn (spaces s) s))
    else None.
Proof.
  unfold match_here, plus, space. cbn [rx st_prev st_rest st_caps].
  rewrite (match_rep_spaces
             (fun rest => RMatch 0 (consumed s rest) [] rest)).
  destruct (1 <=? spaces s)%nat; [|reflexivity].
  now rewrite consumed_skipn by apply spaces_le.
Qed.

Lemma sub_spaces s :
  forall prev,
    sub_from (plus space) [32%N] (spaces s) prev s = collapse true s
    /\ sub_from (plus space) [32%N] 0 prev s = collapse false s.
Proof.
  induction s as [|c s IH]; intros prev; [split; reflexivity|].
  assert (H0 : sub_from (plus space) [32%N] 0 prev (c :: s) = collapse false (c :: s)).
  { cbn [sub_from]. rewrite match_here_spaces. cbn [spaces collapse].
    destruct (is_space c) eqn:Ec.
    - cbn [Nat.leb m_text]. rewrite length_firstn.
      rewrite Nat.min_l by (cbn [length]; pose proof (spaces_le s); lia).
      cbn [app]. f_equal. apply IH.
    - cbn [Nat.leb]. f_equal. apply IH. }
  split; [|exact H0].
  cbn [spaces]. destruct (is_space c) eqn:Ec.
  - cbn [sub_from collapse]. rewrite Ec. apply IH.
  - rewrite H0. cbn [collapse]. now rewrite Ec.
Qed.

Lemma re_sub_spaces s : re_sub (plus space) (py " ") s = collapse false s.
Proof. unfold re_sub. change (py " ") with [32%N]. apply sub_spaces. Qed.

Lemma single_spaced_weaken b s : single_spaced b s -> single_spaced false s.
Proof.
  destruct s as [|c s]; simpl; [auto|]. destruct (is_space c); [|auto]. tauto.
Qed.

Lemma collapse_single_spaced b s : single_spaced b (collapse b s).
Proof.
  revert b. induction s as [|c s IH]; intros b; simpl; [exact I|].
  destruct (is_space c) eqn:Ec.
  - destruct b; [apply IH|]. simpl. rewrite space_is_space. auto.
  - simpl. rewrite Ec. apply IH.
Qed.

Lemma collapse_fixed b s : single_spaced b s -> collapse b s = s.
Proof.
  revert b. induction s as [|c s IH]; intros b; simpl; [reflexivity|].
  destruct (is_space c).
  - intros [-> [-> H]]. f_equal. now apply IH.
  - intros H. f_equal. now apply IH.
Qed.

Lemma single_spaced_lstrip b s : single_spaced b s -> single_spaced false (lstrip s).
Proof.
  revert b. induction s as [|c s IH]; intros b; simpl; [auto|].
  destruct (is_space c) eqn:Ec.
  - intros [_ [_ H]]. eapply IH; eauto.
  - intros H. simpl. now rewrite Ec.
Qed.

Lemma single_spaced_rstrip b s : single_spaced b s -> single_spaced b (rstrip s).
Proof.
  revert b. induction s as [|c s IH]; intros b; [auto|].
  cbn [single_spaced rstrip]. destruct (is_space c) eqn:Ec.
  - intros [-> [-> H]]. apply IH in H.
    destruct (rstrip s) as [|x r]; [exact I|].
    cbn [single_spaced]. rewrite Ec. auto.
  - intros H. apply IH in H.
    destruct (rstrip s) as [|x r]; cbn [single_spaced]; rewrite Ec; auto.
Qed.

Lemma single_spaced_strip b s : single_spaced b s -> single_spaced false (strip s).
Proof.
  intros H. unfold strip. now apply single_spaced_rstrip, single_spaced_lstrip with b.
Qed.

Lemma Forall_collapse (P : char -> Prop) b s :
  P 32%N -> Forall P s -> Forall P (collapse b s).
Proof.
  intros H32 Hs. revert b. induction Hs as [|c s Hc _ IH]; intros b; simpl; [constructor|].
  destruct (is_space c); [destruct b|]; auto.
Qed.

Lemma allowed_space : allowed 32%N = true.
Proof. apply correction_char_allowed. reflexivity. Qed.

(** The text of a cleaned fragment: stripped, its whitespace single
    spaces, every character one the noise pattern keeps. *)
Lemma clean_text_normal raw t :
  clean_text raw = Some t ->
  strip t = t /\ single_spaced false t /\ Forall (fun c => allowed c = true) t.
Proof.
  unfold clean_text. cbv zeta.
  destruct (length (strip raw) <? 2)%nat; [discriminate|].
  rewrite re_sub_noise, re_sub_spaces.
  set (x := apply_corrections (filter allowed (strip raw))).
  destruct (strip (collapse false x)) as [|a r] eqn:E; [discriminate|].
  intros [= <-]. rewrite <- E. split; [apply strip_idem|]. split.
  - eapply single_spaced_strip, collapse_single_spaced.
  - apply Forall_strip, Forall_collapse; [apply allowed_space|].
    apply fold_corrections_allowed; [apply corrections_checked|].
    apply Forall_filter_true.
Qed.

Lemma clean_text_stable raw t :
  clean_text raw = Some t ->
  (2 <= length t)%nat ->
  no_correction_key t = true ->
  clean_text t = Some t.
Proof.
  intros Hc Hl Hk. destruct (@clean_text_normal raw t Hc) as [Hs [Hn Ha]].
  unfold clean_text. cbv zeta. rewrite Hs.
  replace (length t <? 2)%nat with false by (symmetry; apply Nat.ltb_ge; exact Hl).
  rewrite re_sub_noise, filter_all by exact Ha.
  unfold apply_corrections. rewrite fold_corrections_absent by exact Hk.
  rewrite re_sub_spaces, (@collapse_fixed false t Hn), Hs.
  destruct t; [simpl in Hl; lia|reflexivity].
Qed.

End Normalization.

(** C9, as amended.  Cleaning the text of a cleaned fragment again gives
    the same text when it has at least two characters and contains no
    key of the correction table. *)
Theorem normalization_stable {U : PyUnicode} (raw t : str) :
  clean_text raw = Some t ->
  (2 <= length t)%nat ->
  no_correction_key t = true ->
  clean_text t = Some t.
Proof. apply clean_text_stable. Qed.

Lemma normalization_stable_witness :
  clean_text (U := basic_latin) (py "Ramesh  Kumar ") = Some (py "Ramesh Kumar")
  /\ clean_text (U := basic_latin) (py "Ramesh Kumar") = Some (py "Ramesh Kumar").
Proof.
  split; [vm_compute; reflexivity|].
  apply (@normalization_stable basic_latin (py "Ramesh  Kumar ") (py "Ramesh Kumar")).
  - vm_compute. reflexivity.
  - vm_compute. lia.
  - vm_compute. reflexivity.
Defined.

(** C9, as stated, fails: "WEAT" is cleaned to "WENo" (AT becomes No),
    and "WENo" to "Addresso" (WEN becomes Address). *)
Lemma cleaning_idempotent_counterexample :
  ~ cleaning_idempotent_on (U := basic_latin) (py "WEAT").
Proof.
  intros H. specialize (H (py "WENo") ltac:(vm_compute; reflexivity)).
  vm_compute in H. discriminate H.
Qed.


(* ================================================================== *)
(** ** Instances *)

Lemma extract_fields_never_raises_witness :
  exists r,
    extract_fields (U := basic_latin) (new_service None) ramesh_fragments = Ok r
    /\ shape_of (VDict r) = shape_of (VDict skeleton).
Proof.
  apply (@extract_fields_never_raises basic_latin (new_service None) ramesh_fragments).
  reflexivity.
Defined.

(** A fragment whose text is not a string makes the call raise: the
    cleaning pass runs before the try block. *)
Example malformed_fragment_raises :
  extract_fields (U := basic_latin) (new_service None)
    [VDict [("bbox", VList []); ("text", VInt 7); ("confidence", VFloat (Finite (9 # 10)))]]
  = Raise AttributeError.
Proof. reflexivity. Qed.

Lemma untouched_fields_keep_defaults_witness :
  Forall (fun p => lookup p (VDict two_runs_record) = lookup p (VDict skeleton))
         untouched_paths.
Proof.
  apply (@untouched_fields_keep_defaults basic_latin (new_service None) two_runs
           two_runs_record).
  vm_compute. reflexivity.
Defined.

Lemma skeleton_invariant_witness :
  shape_of (VDict two_runs_record) = shape_of (VDict skeleton).
Proof.
  apply (proj2 (proj2 (proj2 (@skeleton_invariant basic_latin (new_service None))))
           two_runs two_runs_record).
  vm_compute. reflexivity.
Defined.

(** C4, as stated, fails: the record returned for the empty list holds
    the nationality default, which is not blank. *)
Lemma empty_input_all_blank_counterexample :
  ~ empty_input_all_blank (U := basic_latin) (new_service None).
Proof.
  intros H. specialize (H skeleton ltac:(vm_compute; reflexivity)).
  vm_compute in H. discriminate H.
Qed.

(* ================================================================== *)
(** ** The matcher: where a match comes from *)

Section MatcherFacts.
Context {U : PyUnicode}.

Lemma match_here_final ic r prev s pos :
  match_here ic r prev s pos = rx ic r (MState prev s []) (final pos s).
Proof. reflexivity. Qed.

(** A repetition that succeeds took some [n] characters of the class,
    within its bounds, and went on from there. *)
Lemma match_rep_inv (A : Type) c g lo hi prev s (k : option char -> str -> option A) res :
  match_rep c g lo hi prev s k = Some res ->
  exists n prev',
    k prev' (skipn n s) = Some res
    /\ (lo <= n <= length s)%nat /\ within hi n
    /\ Forall (fun x => class_match c x = true) (firstn n s).
Proof.
  revert lo hi prev. induction s as [|x s IH]; intros lo hi prev.
  - assert (Hend : k prev [] = Some res ->
                    exists n prev',
                      k prev' (skipn n []) = Some res
                      /\ (0 <= n <= length (@nil char))%nat /\ within hi n
                      /\ Forall (fun x => class_match c x = true) (firstn n [])).
    { intros H. exists 0%nat, prev. split; [exact H|]. split; [simpl; lia|].
      split; [destruct hi; simpl; lia|constructor]. }
    cbn [match_rep]. destruct g, lo; try discriminate; auto.
    destruct (k prev []); [|discriminate]. intros [= <-]. auto.
  - assert (Hmore :
      (if hi_allows hi && class_match c x
       then match_rep c g (Nat.pred lo) (hi_pred hi) (Some x) s k else None) = Some res ->
      exists n prev',
        k prev' (skipn n (x :: s)) = Some res
        /\ (lo <= n <= length (x :: s))%nat /\ within hi n
        /\ Forall (fun x => class_match c x = true) (firstn n (x :: s))).
    { destruct (hi_allows hi) eqn:Eh; [|discriminate].
      destruct (class_match c x) eqn:Ec; [|discriminate]. cbn [andb].
      intros H. apply IH in H. destruct H as [n [p [Hk [Hn [Hw Hf]]]]].
      exists (S n), p. cbn [skipn firstn length].
      split; [exact Hk|]. split; [lia|]. split; [|constructor; auto].
      destruct hi as [[|h]|]; simpl in *; try discriminate; auto. lia. }
    assert (Hstop :
      match lo with O => k prev (x :: s) | S _ => None end = Some res ->
      exists n prev',
        k prev' (skipn n (x :: s)) = Some res
        /\ (lo <= n <= length (x :: s))%nat /\ within hi n
        /\ Forall (fun x => class_match c x = true) (firstn n (x :: s))).
    { destruct lo; [|discriminate]. intros H. exists 0%nat, prev.
      split; [exact H|]. split; [simpl; lia|].
      split; [destruct hi; simpl; lia|constructor]. }
    cbn [match_rep]. destruct g.
    + destruct (if hi_allows hi && class_match c x then _ else None) eqn:E.
      * intros [= <-]. auto.
      * auto.
    + destruct (match lo with O => _ | S _ => None end) eqn:E.
      * intros [= <-]. auto.
      * auto.
Qed.

Lemma match_lit_inv (A : Type) ic p prev s (k : option char -> str -> option A) res :
  match_lit ic p prev s k = Some res ->
  exists prev', k prev' (skipn (length p) s) = Some res /\ (length p <= length s)%nat.
Proof.
  revert prev s. induction p as [|x p IH]; intros prev s; cbn [match_lit].
  - intros H. exists prev. simpl. split; [exact H|lia].
  - destruct s as [|c s]; [discriminate|].
    destruct (lit_eq ic x c); [|discriminate].
    intros H. apply IH in H. destruct H as [p' [Hk Hl]].
    exists p'. cbn [length skipn]. split; [exact Hk|lia].
Qed.

Lemma advances_refl st : advances st st.
Proof. exists 0%nat. split; [lia|reflexivity]. Qed.

Lemma advances_trans a b c : advances a b -> advances b c -> advances a c.
Proof.
  intros [n [Hn Hb]] [m [Hm Hc]]. exists (n + m)%nat.
  rewrite Hb in Hm, Hc. rewrite length_skipn in Hm.
  split; [lia|]. rewrite Hc, skipn_skipn. f_equal. lia.
Qed.

(** Every success of a pattern goes through its continuation. *)
Lemma rx_inv (A : Type) ic r :
  forall st (k : mstate -> option A) res,
    rx ic r st k = Some res ->
    exists st', k st' = Some res /\ advances st st'.
Proof.
  induction r as [p|c|c lo hi g|a IHa b IHb|a IHa b IHb|i r IH| |];
    intros st k res; cbn [rx].
  - intros H. apply match_lit_inv in H. destruct H as [p' [Hk Hl]].
    eexists. split; [exact Hk|]. exists (length p). auto.
  - destruct (st_rest st) as [|x s] eqn:E; [discriminate|].
    destruct (class_match c x); [|discriminate].
    intros H. eexists. split; [exact H|]. exists 1%nat. rewrite E. simpl. split; [lia|auto].
  - intros H. apply match_rep_inv in H. destruct H as [n [p' [Hk [Hn _]]]].
    eexists. split; [exact Hk|]. exists n. split; [lia|reflexivity].
  - intros H. apply IHa in H. destruct H as [st1 [H H1]].
    apply IHb in H. destruct H as [st2 [H H2]].
    exists st2. split; [exact H|]. eapply advances_trans; eauto.
  - destruct (rx ic a st k) eqn:E.
    + intros [= <-]. now apply IHa.
    + apply IHb.
  - intros H. apply IH in H. destruct H as [st1 [H H1]].
    eexists. split; [exact H|]. exact H1.
  - destruct (at_end (st_rest st)); [|discriminate].
    intros H. exists st. split; [exact H|apply advances_refl].
  - destruct (xorb _ _); [|discriminate].
    intros H. exists st. split; [exact H|apply advances_refl].
Qed.

(** A search or a findall only reports matches of [match_here]. *)
Lemma search_from_inv ic r prev s pos m :
  search_from ic r prev s pos = Some m ->
  exists prev' s' pos', match_here ic r prev' s' pos' = Some m.
Proof.
  revert prev pos. induction s as [|c s IH]; intros prev pos; cbn [search_from].
  - destruct (match_here ic r prev [] pos) eqn:E; [|discriminate].
    intros [= <-]. eauto.
  - destruct (match_here ic r prev (c :: s) pos) eqn:E.
    + intros [= <-]. eauto.
    + apply IH.
Qed.

Lemma re_search_inv ic r t m :
  re_search ic r t = Some m ->
  exists prev' s' pos', match_here ic r prev' s' pos' = Some m.
Proof. apply search_from_inv. Qed.

Lemma findall_from_Forall (P : str -> Prop) ic r :
  (forall prev s pos m, match_here ic r prev s pos = Some m -> P (grp m 1)) ->
  forall s skip prev, Forall P (findall_from ic r skip prev s).
Proof.
  intros H. induction s as [|c s IH]; intros skip prev; cbn [findall_from].
  - destruct skip; [|constructor].
    destruct (match_here ic r prev [] 0) eqn:E; [|constructor].
    constructor; [|constructor]. eapply H. exact E.
  - destruct skip; [|apply IH].
    destruct (match_here ic r prev (c :: s) 0) eqn:E; [|apply IH].
    constructor; [|apply IH]. eapply H. exact E.
Qed.

Lemma re_findall_Forall (P : str -> Prop) ic r t :
  (forall prev s pos m, match_here ic r prev s pos = Some m -> P (grp m 1)) ->
  Forall P (re_findall ic r t).
Proof. intros H. now apply findall_from_Forall. Qed.

Lemma rx_group_rep ic c lo hi g st (k : mstate -> option rmatch) m :
  (forall st' m', k st' = Some m' -> m_caps m' = st_caps st') ->
  rx ic (RGrp 1 (RRep c lo hi g)) st k = Some m ->
  run_of c lo hi (grp m 1).
Proof.
  intros Hk. cbn [rx]. intros H. apply match_rep_inv in H.
  destruct H as [n [p [H [Hn [Hw Hf]]]]].
  apply Hk in H. cbn [st_caps st_rest] in H.
  unfold grp, group. rewrite H. cbn [assoc_nat Nat.eqb].
  rewrite consumed_skipn by lia.
  unfold run_of. rewrite length_firstn, Nat.min_l by lia.
  split; [lia|]. split; [exact Hw|exact Hf].
Qed.

Lemma final_caps pos s st m : final pos s st = Some m -> m_caps m = st_caps st.
Proof. unfold final. now intros [= <-]. Qed.

End MatcherFacts.

(* ================================================================== *)
(** ** The routines return *)

Section RoutinesReturn.
Context {U : PyUnicode}.

Lemma rx_seq (A : Type) ic a b st (k : mstate -> option A) :
  rx ic (RSeq a b) st k = rx ic a st (fun st' => rx ic b st' k).
Proof. reflexivity. Qed.

Lemma int_digits_ok g : digits g -> forall acc, exists y, int_digits acc g = Some y.
Proof.
  induction 1 as [|x g Hx _ IH]; intros acc; simpl; [eauto|].
  unfold is_digit in Hx. destruct (decimal x); [apply IH|discriminate].
Qed.

Lemma int_ok g : digits g -> g <> [] -> exists y, int g = Ok y.
Proof.
  intros Hd Hn. unfold int, int_of_str. destruct g as [|x g]; [congruence|].
  destruct (int_digits_ok Hd 0%N) as [y ->]. eauto.
Qed.

Lemma run_of_digits lo hi g : run_of digit lo hi g -> digits g.
Proof. intros [_ [_ H]]. exact H. Qed.

Lemma run_of_int lo hi g : run_of digit (S lo) hi g -> exists y, int g = Ok y.
Proof.
  intros H. apply int_ok; [eapply run_of_digits; eauto|].
  destruct H as [Hl _]. destruct g; simpl in Hl; [lia|discriminate].
Qed.

(** The group of the patterns that end with a run of digits. *)
Lemma fir_no_group prev s pos m :
  match_here true re_fir_no prev s pos = Some m -> run_of digit 4%nat (Some 4%nat) (grp m 1).
Proof.
  rewrite match_here_final. unfold re_fir_no, times. rewrite rx_seq. intros H.
  apply rx_inv in H. destruct H as [st1 [H _]]. rewrite rx_seq in H.
  apply rx_inv in H. destruct H as [st2 [H _]].
  eapply rx_group_rep; [|exact H]. apply final_caps.
Qed.

Lemma dob_group prev s pos m :
  match_here true re_dob prev s pos = Some m -> run_of digit 4%nat (Some 4%nat) (grp m 1).
Proof.
  rewrite match_here_final. unfold re_dob, times. rewrite rx_seq. intros H.
  apply rx_inv in H. destruct H as [st1 [H _]]. rewrite rx_seq in H.
  apply rx_inv in H. destruct H as [st2 [H _]].
  eapply rx_group_rep; [|exact H]. apply final_caps.
Qed.

Lemma sections_group prev s pos m :
  match_here true re_sections prev s pos = Some m -> run_of digit 1%nat None (grp m 1).
Proof.
  rewrite match_here_final. unfold re_sections, plus. rewrite rx_seq. intros H.
  apply rx_inv in H. destruct H as [st1 [H _]]. rewrite rx_seq in H.
  apply rx_inv in H. destruct H as [st2 [H _]].
  eapply rx_group_rep; [|exact H]. apply final_caps.
Qed.

Lemma numbers_group prev s pos m :
  match_here false re_numbers prev s pos = Some m -> run_of digit 2%nat (Some 3%nat) (grp m 1).
Proof.
  rewrite match_here_final. unfold re_numbers, between. rewrite rx_seq. intros H.
  apply rx_inv in H. destruct H as [st1 [H _]]. rewrite rx_seq in H.
  eapply rx_group_rep; [|exact H].
  intros st' m'. cbn [rx]. destruct (xorb _ _); [apply final_caps|discriminate].
Qed.

(** *** Each routine returns *)

Lemma fir_info_returns c t : exists fi, _extract_fir_info c t = Ok fi.
Proof. destruct (fir_info_year c t) as [fi [H _]]. eauto. Qed.

Lemma complainant_returns c t : exists co, _extract_complainant c t = Ok co.
Proof.
  unfold _extract_complainant. cbv zeta.
  destruct (re_search true re_dob t) as [m|] eqn:E.
  - apply re_search_inv in E. destruct E as [p [s [pos E]]].
    apply dob_group in E. destruct (run_of_int E) as [y ->].
    cbn [bind]. eauto.
  - cbn [bind]. eauto.
Qed.

Lemma first_plausible_returns l :
  Forall (fun s => exists y, int s = Ok y) l -> exists r, first_plausible l = Ok r.
Proof.
  induction 1 as [|s l [y Hy] _ IH]; simpl; [eauto|].
  rewrite Hy. cbn [bind]. destruct (_ && _); eauto.
Qed.

Lemma acts_sections_returns c t : exists l, _extract_acts_sections c t = Ok l.
Proof.
  unfold _extract_acts_sections. cbv zeta.
  destruct (map _ (re_findall true re_sections t)); [|eauto].
  apply first_plausible_returns. apply re_findall_Forall.
  intros p s pos m H. apply numbers_group in H. eapply run_of_int; eauto.
Qed.

Lemma set_span_in_returns m lo hi k1 k2 (d i : dict) :
  dict_get d k1 = Some (VDict i) ->
  exists d' i', set_span_in m lo hi k1 k2 d = Ok d' /\ dict_get d' k1 = Some (VDict i').
Proof.
  intros H. unfold set_span_in. destruct m as [m|]; [|eauto].
  destruct (len_within lo hi _); [|eauto].
  unfold setitem_in, getitem, bind. rewrite H.
  do 2 eexists. split; [reflexivity|]. apply dict_get_set_same.
Qed.

Lemma place_returns c t : exists pl, _extract_place c t = Ok pl.
Proof.
  unfold _extract_place. cbv zeta.
  destruct (@set_span_in_returns (re_search true re_direction t) 2%nat 100%nat
              "DirectionDistanceFromPS" "Direction" place_default _ eq_refl)
    as [d1 [i1 [-> H1]]]. cbn [bind].
  destruct (@set_span_in_returns (re_search true re_distance t) 1%nat 50%nat
              "DirectionDistanceFromPS" "Distance" d1 _ H1)
    as [d2 [i2 [-> H2]]]. cbn [bind]. eauto.
Qed.

Lemma action_taken_returns c t : exists a, _extract_action_taken c t = Ok a.
Proof.
  unfold _extract_action_taken. cbv zeta.
  destruct (@set_span_in_returns (re_search true re_officer t) 2%nat 100%nat
              "RegisteredCaseInvestigation" "OfficerName" action_taken_default _ eq_refl)
    as [d1 [i1 [-> H1]]]. cbn [bind].
  destruct (@set_span_in_returns (re_search true re_rank t) 2%nat 50%nat
              "RegisteredCaseInvestigation" "Rank" d1 _ H1)
    as [d2 [i2 [-> H2]]]. cbn [bind].
  destruct (@set_span_in_returns (re_search true re_no t) 0%nat 20%nat
              "RegisteredCaseInvestigation" "No" d2 _ H2)
    as [d3 [i3 [-> H3]]]. cbn [bind]. eauto.
Qed.

Lemma routines_return c t t' :
  join_texts c = Ok t' ->
  Forall (fun g => exists v, routine methods c t g = Ok v) groups.
Proof.
  intros Hj. unfold groups, routine.
  cbn [methods extract_fir_info extract_complainant extract_accused extract_occurrence
       extract_acts_sections extract_place extract_action_taken
       extract_first_information].
  repeat apply Forall_cons; try apply Forall_nil.
  - destruct (fir_info_returns c t) as [x ->]. cbn [bind]. eauto.
  - destruct (complainant_returns c t) as [x ->]. cbn [bind]. eauto.
  - unfold _extract_accused. rewrite Hj. cbn [bind]. eauto.
  - unfold _extract_occurrence. cbn [bind]. eauto.
  - destruct (acts_sections_returns c t) as [x ->]. cbn [bind]. eauto.
  - destruct (place_returns c t) as [x ->]. cbn [bind]. eauto.
  - destruct (action_taken_returns c t) as [x ->]. cbn [bind]. eauto.
  - unfold _extract_first_information.
    destruct (re_search true re_contents t); cbn [bind]; eauto.
Qed.

Lemma prepare_join ocr_data c t : prepare ocr_data = Ok (c, t) -> join_texts c = Ok t.
Proof.
  unfold prepare, bind.
  destruct (keep_confident ocr_data) as [f|]; [|discriminate].
  destruct (_clean_ocr_text f) as [c'|]; [|discriminate].
  destruct (join_texts c') as [t'|] eqn:E; [|discriminate].
  now intros [= <- <-].
Qed.

(** With every routine returning, the block runs to its end. *)
Lemma run_groups_all (self : Methods) c t gs ef :
  updatable ef ->
  Forall (fun g => exists v, routine self c t g = Ok v) gs ->
  run_groups self c t gs ef = fold_left (run_group self c t) gs ef.
Proof.
  intros Hu Hg. revert ef Hu.
  induction Hg as [|g gs [v Hv] _ IH]; intros ef Hu; [reflexivity|].
  cbn [run_groups fold_left]. unfold run_group at 2. cbn [run_groups]. rewrite Hv.
  destruct (@write_updatable self c t g v ef Hu Hv) as [ef' [-> Hu']].
  now apply IH.
Qed.

Lemma extract_fields_complete (self : FIRExtractionService) ocr_data r :
  extract_fields self ocr_data = Ok r ->
  exists c t,
    prepare ocr_data = Ok (c, t)
    /\ Forall (fun g => exists v, routine methods c t g = Ok v) groups
    /\ r = fold_left (run_group methods c t) groups skeleton.
Proof.
  intros H. apply extract_fields_inv in H. destruct H as [c [t [Hp ->]]].
  exists c, t. split; [exact Hp|].
  pose proof (@routines_return c t t (@prepare_join ocr_data c t Hp)) as Hr.
  split; [exact Hr|]. apply run_groups_all; [apply skeleton_updatable|exact Hr].
Qed.

End RoutinesReturn.

(** X1.  Whenever [extract_fields] returns, each of the eight routines
    returned: none raises on the cleaned fragments and their text, the
    handler of the try block is never entered, and the record is the
    skeleton with the eight results stored. *)
Theorem try_block_runs_to_its_end {U : PyUnicode} (self : FIRExtractionService)
    (ocr_data : list value) (r : dict) :
  extract_fields self ocr_data = Ok r ->
  exists c t,
    prepare ocr_data = Ok (c, t)
    /\ Forall (fun g => exists v, routine methods c t g = Ok v) groups
    /\ r = fold_left (run_group methods c t) groups skeleton.
Proof. apply extract_fields_complete. Qed.

Lemma try_block_runs_to_its_end_witness :
  exists c t,
    prepare (U := basic_latin) two_runs = Ok (c, t)
    /\ Forall (fun g => exists v, routine methods c t g = Ok v) groups
    /\ two_runs_record = fold_left (run_group methods c t) groups skeleton.
Proof.
  apply (@try_block_runs_to_its_end basic_latin (new_service None) two_runs two_runs_record).
  vm_compute. reflexivity.
Defined.

(* ================================================================== *)
(** ** The record is assembled from the results of the routines *)

Section Assembly.
Context {U : PyUnicode}.

Lemma dict_ext (a b : dict) :
  keys a = keys b -> NoDup (keys a) ->
  (forall k, In k (keys a) -> dict_get a k = dict_get b k) -> a = b.
Proof.
  revert b. induction a as [|[k v] a IH]; intros [|[k' v'] b] Hk Hn Hg;
    simpl in *; try discriminate; auto.
  injection Hk as -> Hk. inversion Hn; subst.
  pose proof (Hg k' (or_introl eq_refl)) as H0.
  rewrite String.eqb_refl in H0. injection H0 as ->.
  f_equal. apply IH; auto. intros k Hin. specialize (Hg k (or_intror Hin)).
  destruct (String.eqb k k') eqn:E; [|exact Hg].
  apply String.eqb_eq in E. subst. contradiction.
Qed.

Lemma keys_fields (d d' : dict) : fields d = fields d' -> keys d = keys d'.
Proof.
  intros H. unfold keys. apply (f_equal (map fst)) in H. unfold fields in H.
  rewrite !map_map in H. exact H.
Qed.

Lemma keys_dict_update (o d : dict) :
  (forall k, In k (keys o) -> In k (keys d)) -> keys (dict_update d o) = keys d.
Proof.
  unfold dict_update. revert d. induction o as [|[k v] o IH]; intros d H; [reflexivity|].
  cbn [fold_left fst snd]. rewrite IH.
  - apply keys_dict_set. apply H. now left.
  - intros k' Hk'. rewrite keys_dict_set by (apply H; now left). apply H. now right.
Qed.

Lemma in_keys_get (d : dict) k : In k (keys d) -> exists v, dict_get d k = Some v.
Proof.
  induction d as [|[k' v'] d IH]; simpl; [contradiction|].
  intros [<-|H]; [rewrite String.eqb_refl; eauto|].
  destruct (String.eqb k k'); eauto.
Qed.

Lemma dict_get_update (o d : dict) k :
  NoDup (keys o) ->
  dict_get (dict_update d o) k
  = match dict_get o k with Some v => Some v | None => dict_get d k end.
Proof.
  intros Hn. destruct (dict_get o k) as [v|] eqn:E.
  - now apply dict_get_update_in.
  - apply dict_get_update_notin. now apply dict_get_not_in_keys.
Qed.

Lemma dict_update_same (d o : dict) :
  keys o = keys d -> NoDup (keys d) -> dict_update d o = o.
Proof.
  intros Hk Hn.
  assert (Hku : keys (dict_update d o) = keys d).
  { apply keys_dict_update. intros k. now rewrite Hk. }
  apply dict_ext.
  - congruence.
  - now rewrite Hku.
  - intros k Hin. rewrite Hku, <- Hk in Hin. destruct (in_keys_get _ _ Hin) as [v Hv].
    rewrite dict_get_update by (now rewrite Hk). now rewrite Hv.
Qed.

Lemma update_in_ok (ef i o : dict) k :
  dict_get ef k = Some (VDict i) ->
  update_in ef k o = Ok (dict_set ef k (VDict (dict_update i o))).
Proof. intros H. unfold update_in, getitem, bind. now rewrite H. Qed.

Lemma setitem_in_ok (ef i : dict) k1 k2 v :
  dict_get ef k1 = Some (VDict i) ->
  setitem_in ef k1 k2 v = Ok (dict_set ef k1 (VDict (dict_set i k2 v))).
Proof. intros H. unfold setitem_in, getitem, bind. now rewrite H. Qed.

Lemma results_exist c t t' :
  join_texts c = Ok t' ->
  exists fi co ac oc acts pl act fc, routine_results c t fi co ac oc acts pl act fc.
Proof.
  intros Hj.
  destruct (fir_info_returns c t) as [fi Hfi].
  destruct (complainant_returns c t) as [co Hco].
  destruct (acts_sections_returns c t) as [acts Hacts].
  destruct (place_returns c t) as [pl Hpl].
  destruct (action_taken_returns c t) as [act Hact].
  exists fi, co. eexists. eexists. exists acts, pl, act.
  exists (match re_search true re_contents t with
          | Some content_match => strip (grp content_match 1)
          | None => []
          end).
  unfold routine_results. repeat split; try eassumption.
  - unfold _extract_accused. rewrite Hj. reflexivity.
  - unfold _extract_first_information.
    destruct (re_search true re_contents t); reflexivity.
Qed.

Ltac strings := cbn [String.eqb Ascii.eqb Bool.eqb].

Ltac stage H :=
  rewrite run_groups_cons; unfold routine at 1;
  cbn [methods extract_fir_info extract_complainant extract_accused extract_occurrence
       extract_acts_sections extract_place extract_action_taken
       extract_first_information];
  rewrite H; cbn [bind write].

Lemma run_groups_filled c t fi co ac oc acts pl act fc :
  routine_results c t fi co ac oc acts pl act fc ->
  filled_with (run_groups methods c t groups skeleton) fi co ac oc acts pl act fc.
Proof.
  intros (Hfi & Hco & Hac & Hoc & Hacts & Hpl & Hact & Hfc).
  assert (Hnd : NoDup (keys fi)).
  { destruct (fir_info_year c t) as [fi' [H1 [H2 _]]]. congruence. }
  assert (Hsame : dict_update complainant_default co = co).
  { apply dict_update_same.
    - apply keys_fields. eapply complainant_fields; eauto.
    - repeat constructor; simpl; intuition discriminate. }
  unfold groups.
  stage Hfi. rewrite (@update_in_ok skeleton fir_default fi "FIR" eq_refl).
  stage Hco.
  rewrite (@update_in_ok _ complainant_default co "ComplainantInformant")
    by (rewrite dict_get_set; reflexivity).
  rewrite Hsame.
  stage Hac. stage Hoc.
  rewrite (@setitem_in_ok _ (dict_update fir_default fi) "FIR" "OccurrenceOfOffence")
    by (rewrite !dict_get_set; strings; reflexivity).
  stage Hacts.
  rewrite (@setitem_in_ok _ (dict_set (dict_update fir_default fi)
                               "OccurrenceOfOffence" (VDict oc)) "FIR" "ActsSections")
    by apply dict_get_set_same.
  stage Hpl.
  rewrite (@setitem_in_ok _ (dict_set (dict_set (dict_update fir_default fi)
                               "OccurrenceOfOffence" (VDict oc))
                               "ActsSections" (VList acts)) "FIR" "PlaceOfOccurrence")
    by apply dict_get_set_same.
  stage Hact. stage Hfc. cbn [run_groups].
  unfold filled_with. rewrite !lookup_dict_set. strings. cbn [lookup].
  rewrite !dict_get_set. strings.
  repeat split; try reflexivity.
  intros k Hk. rewrite !dict_get_set.
  rewrite (@dict_get_update fi fir_default k Hnd).
  unfold fir_core_keys in Hk. cbn [In] in Hk.
  repeat (destruct Hk as [<-|Hk];
          [strings; destruct (dict_get fi _); reflexivity|]).
  contradiction.
Qed.

Lemma extract_fields_filled (self : FIRExtractionService) ocr_data r :
  extract_fields self ocr_data = Ok r ->
  exists c t fi co ac oc acts pl act fc,
    prepare ocr_data = Ok (c, t)
    /\ routine_results c t fi co ac oc acts pl act fc
    /\ filled_with r fi co ac oc acts pl act fc.
Proof.
  intros H. apply extract_fields_inv in H. destruct H as [c [t [Hp ->]]].
  destruct (@results_exist c t t (@prepare_join _ ocr_data c t Hp))
    as (fi & co & ac & oc & acts & pl & act & fc & Hr).
  exists c, t, fi, co, ac, oc, acts, pl, act, fc.
  split; [exact Hp|]. split; [exact Hr|]. now apply run_groups_filled.
Qed.

End Assembly.

(** X2.  The record [extract_fields] returns holds what the eight
    routines returned on the cleaned fragments and their text: the keys
    [_extract_fir_info] set over the defaults of the FIR group, and each
    other result under its key; no later store overwrites an earlier
    one. *)
Theorem record_holds_the_routine_results {U : PyUnicode} (self : FIRExtractionService)
    (ocr_data : list value) (r : dict) :
  extract_fields self ocr_data = Ok r ->
  exists c t fi co ac oc acts pl act fc,
    prepare ocr_data = Ok (c, t)
    /\ routine_results c t fi co ac oc acts pl act fc
    /\ filled_with r fi co ac oc acts pl act fc.
Proof. apply extract_fields_filled. Qed.

Lemma record_holds_the_routine_results_witness :
  exists c t fi co ac oc acts pl act fc,
    prepare (U := basic_latin) two_runs = Ok (c, t)
    /\ routine_results c t fi co ac oc acts pl act fc
    /\ filled_with two_runs_record fi co ac oc acts pl act fc.
Proof.
  apply (@record_holds_the_routine_results basic_latin (new_service None)
           two_runs two_runs_record).
  vm_compute. reflexivity.
Defined.

(* ================================================================== *)
(** ** The fields of the complainant *)

(** Membership in a list of keys. *)
Ltac in_keys := cbv [keys map fst]; repeat first [left; reflexivity | right].

Section Fields.
Context {U : PyUnicode}.

Lemma dict_get_In (d : dict) k v : dict_get d k = Some v -> In (k, v) d.
Proof.
  induction d as [|[k' v'] d IH]; simpl; [discriminate|].
  destruct (String.eqb k k') eqn:E.
  - apply String.eqb_eq in E. subst. intros [= ->]. now left.
  - intros H. right. now apply IH.
Qed.

Lemma meets_get spec (d : dict) k v : meets spec d -> dict_get d k = Some v -> spec k v.
Proof.
  intros Hm Hg. apply dict_get_In in Hg. unfold meets in Hm.
  rewrite Forall_forall in Hm. exact (Hm _ Hg).
Qed.

Lemma meets_set spec (d : dict) k v : meets spec d -> spec k v -> meets spec (dict_set d k v).
Proof. intros Hm Hs. apply Forall_dict_set; assumption. Qed.

Lemma span_default lo hi : span lo hi (vstr "").
Proof. exists []. repeat split. now left. Qed.

Lemma span_strip lo hi s : len_within lo hi (strip s) = true -> span lo hi (VStr (strip s)).
Proof.
  intros H. exists (strip s). split; [reflexivity|]. split; [apply strip_idem|].
  right. unfold len_within in H. apply andb_true_iff in H. destruct H as [H1 H2].
  apply Nat.ltb_lt in H1, H2. lia.
Qed.

Lemma meets_set_span spec (d : dict) m lo hi k :
  meets spec d -> (forall v, span lo hi v -> spec k v) -> meets spec (set_span m lo hi k d).
Proof.
  intros Hm Hs. unfold set_span. destruct m as [m|]; [|exact Hm].
  destruct (len_within lo hi (strip (grp m 1))) eqn:E; [|exact Hm].
  apply meets_set; [exact Hm|]. apply Hs. now apply span_strip.
Qed.

Lemma complainant_default_meets : meets complainant_entry complainant_default.
Proof.
  unfold meets, complainant_default.
  repeat apply Forall_cons; try apply Forall_nil; cbn [fst snd];
    unfold complainant_entry; repeat split; intros H;
    try discriminate H; try reflexivity;
    try apply span_default; try (left; reflexivity).
Qed.

Lemma complainant_meets c t co :
  _extract_complainant c t = Ok co -> meets complainant_entry co.
Proof.
  unfold _extract_complainant. cbv zeta.
  set (d2 := set_span _ 2 100 "FatherOrHusbandName" _).
  assert (H2 : meets complainant_entry d2).
  { unfold d2. apply meets_set_span; [apply meets_set_span|].
    - apply complainant_default_meets.
    - intros v Hv. unfold complainant_entry.
      repeat split; intros H; try discriminate H; exact Hv.
    - intros v Hv. unfold complainant_entry.
      repeat split; intros H; try discriminate H; exact Hv. }
  clearbody d2.
  assert (H3 : forall d3,
             match re_search true re_dob t with
             | Some dob_match =>
                 year <- int (grp dob_match 1) ;;
                 Ok (if (1900 <=? year)%N && (year <=? 2010)%N
                     then dict_set d2 "DOB_YearOfBirth" (VStr (str_of_N year))
                     else d2)
             | None => Ok d2
             end = Ok d3 -> meets complainant_entry d3).
  { intros d3. destruct (re_search true re_dob t) as [m|]; [|now intros [= <-]].
    destruct (int (grp m 1)) as [y|]; cbn [bind]; [|discriminate].
    destruct ((1900 <=? y)%N && (y <=? 2010)%N) eqn:E; intros [= <-]; [|exact H2].
    apply meets_set; [exact H2|].
    unfold complainant_entry. repeat split; intros H; try discriminate H.
    right. exists y. split; [reflexivity|].
    apply andb_true_iff in E. destruct E as [E1 E2].
    apply N.leb_le in E1, E2. lia. }
  destruct (match re_search true re_dob t with Some _ => _ | None => _ end) as [d3|];
    cbn [bind]; [|discriminate].
  specialize (H3 d3 eq_refl). clear H2. intros [= <-].
  assert (Hfree : forall k v, k = "PhoneNumber" \/ k = "UIDNo" -> complainant_entry k v).
  { intros k v [-> | ->]; unfold complainant_entry; repeat split; intros H; discriminate H. }
  destruct (re_search true re_address t) as [a|].
  - destruct (len_within 5 200 (strip (grp a 1))) eqn:E.
    + apply meets_set.
      * destruct (re_search false re_uid t); destruct (re_search false re_mobile t);
          repeat apply meets_set; auto.
      * unfold complainant_entry. repeat split; intros H; try discriminate H.
        right. exists (strip (grp a 1)). split; [reflexivity|].
        split; [apply strip_idem|].
        unfold len_within in E. apply andb_true_iff in E. destruct E as [E1 E2].
        apply Nat.ltb_lt in E1, E2. lia.
    + destruct (re_search false re_uid t); destruct (re_search false re_mobile t);
        repeat apply meets_set; auto.
  - destruct (re_search false re_uid t); destruct (re_search false re_mobile t);
      repeat apply meets_set; auto.
Qed.

Lemma complainant_entries c t co k :
  _extract_complainant c t = Ok co -> In k (keys complainant_default) ->
  exists v, dict_get co k = Some v /\ complainant_entry k v.
Proof.
  intros H Hk. pose proof (complainant_meets _ _ H) as Hm.
  apply complainant_fields in H. apply keys_fields in H. rewrite <- H in Hk.
  destruct (in_keys_get _ _ Hk) as [v Hv]. exists v. split; [exact Hv|].
  eapply meets_get; eauto.
Qed.

Lemma extract_fields_complainant (self : FIRExtractionService) ocr_data r :
  extract_fields self ocr_data = Ok r ->
  exists name father dob addresses,
    lookup ["ComplainantInformant"; "Name"] (VDict r) = Some name
    /\ span 2 100 name
    /\ lookup ["ComplainantInformant"; "FatherOrHusbandName"] (VDict r) = Some father
    /\ span 2 100 father
    /\ lookup ["ComplainantInformant"; "DOB_YearOfBirth"] (VDict r) = Some dob
    /\ birth_year dob
    /\ lookup ["ComplainantInformant"; "Addresses"] (VDict r) = Some addresses
    /\ present_address addresses
    /\ lookup ["ComplainantInformant"; "Nationality"] (VDict r) = Some (vstr "भारत")
    /\ lookup ["ComplainantInformant"; "PassportNo"] (VDict r) = Some (vstr "")
    /\ lookup ["ComplainantInformant"; "IDDetails"] (VDict r) = Some (VList [])
    /\ lookup ["ComplainantInformant"; "Occupation"] (VDict r) = Some (vstr "").
Proof.
  intros H. apply extract_fields_filled in H.
  destruct H as (c & t & fi & co & ac & oc & acts & pl & act & fc & _ & Hr & Hf).
  destruct Hr as (_ & Hco & _). destruct Hf as (_ & Hl & _).
  assert (Hk : forall k, In k (keys complainant_default) ->
                 exists v, lookup ["ComplainantInformant"; k] (VDict r) = Some v
                           /\ complainant_entry k v).
  { intros k Hk. destruct (@complainant_entries c t co k Hco Hk) as [v [Hv Hs]].
    exists v. split; [|exact Hs].
    cbn [lookup] in Hl |- *. destruct (dict_get r "ComplainantInformant"); [|discriminate Hl].
    injection Hl as ->. now rewrite Hv. }
  destruct (Hk "Name") as [name [H1 S1]]; [in_keys|].
  destruct (Hk "FatherOrHusbandName") as [father [H2 S2]]; [in_keys|].
  destruct (Hk "DOB_YearOfBirth") as [dob [H3 S3]]; [in_keys|].
  destruct (Hk "Addresses") as [addresses [H4 S4]]; [in_keys|].
  destruct (Hk "Nationality") as [v5 [H5 S5]]; [in_keys|].
  destruct (Hk "PassportNo") as [v6 [H6 S6]]; [in_keys|].
  destruct (Hk "IDDetails") as [v7 [H7 S7]]; [in_keys|].
  destruct (Hk "Occupation") as [v8 [H8 S8]]; [in_keys|].
  destruct S1 as (S1 & _). destruct S2 as (_ & S2 & _). destruct S3 as (_ & _ & S3 & _).
  destruct S4 as (_ & _ & _ & S4 & _). destruct S5 as (_ & _ & _ & _ & S5 & _).
  destruct S6 as (_ & _ & _ & _ & _ & S6 & _).
  destruct S7 as (_ & _ & _ & _ & _ & _ & S7 & _).
  destruct S8 as (_ & _ & _ & _ & _ & _ & _ & S8).
  rewrite (S5 eq_refl) in H5. rewrite (S6 eq_refl) in H6.
  rewrite (S7 eq_refl) in H7. rewrite (S8 eq_refl) in H8.
  exists name, father, dob, addresses.
  split; [exact H1|]. split; [exact (S1 eq_refl)|].
  split; [exact H2|]. split; [exact (S2 eq_refl)|].
  split; [exact H3|]. split; [exact (S3 eq_refl)|].
  split; [exact H4|]. split; [exact (S4 eq_refl)|].
  split; [exact H5|]. split; [exact H6|]. split; [exact H7|exact H8].
Qed.

End Fields.

(** X3.  In every record [extract_fields] returns, the name of the
    complainant and that of the father or husband are the default or a
    stripped text of more than 2 and fewer than 100 characters, the year
    of birth is the default or a year from 1900 to 2010, the addresses
    are none or one present address of more than 5 and fewer than 200
    characters, and the nationality, the passport number, the identity
    details and the occupation are their defaults: no routine sets
    them. *)
Theorem complainant_fields_are_checked {U : PyUnicode} (self : FIRExtractionService)
    (ocr_data : list value) (r : dict) :
  extract_fields self ocr_data = Ok r ->
  exists name father dob addresses,
    lookup ["ComplainantInformant"; "Name"] (VDict r) = Some name
    /\ span 2 100 name
    /\ lookup ["ComplainantInformant"; "FatherOrHusbandName"] (VDict r) = Some father
    /\ span 2 100 father
    /\ lookup ["ComplainantInformant"; "DOB_YearOfBirth"] (VDict r) = Some dob
    /\ birth_year dob
    /\ lookup ["ComplainantInformant"; "Addresses"] (VDict r) = Some addresses
    /\ present_address addresses
    /\ lookup ["ComplainantInformant"; "Nationality"] (VDict r) = Some (vstr "भारत")
    /\ lookup ["ComplainantInformant"; "PassportNo"] (VDict r) = Some (vstr "")
    /\ lookup ["ComplainantInformant"; "IDDetails"] (VDict r) = Some (VList [])
    /\ lookup ["ComplainantInformant"; "Occupation"] (VDict r) = Some (vstr "").
Proof. apply extract_fields_complainant. Qed.

Lemma complainant_fields_are_checked_witness :
  exists name father dob addresses,
    lookup ["ComplainantInformant"; "Name"] (VDict complaint_record) = Some name
    /\ span (U := basic_latin) 2 100 name
    /\ lookup ["ComplainantInformant"; "FatherOrHusbandName"] (VDict complaint_record)
       = Some father
    /\ span 2 100 father
    /\ lookup ["ComplainantInformant"; "DOB_YearOfBirth"] (VDict complaint_record) = Some dob
    /\ birth_year dob
    /\ lookup ["ComplainantInformant"; "Addresses"] (VDict complaint_record) = Some addresses
    /\ present_address addresses
    /\ lookup ["ComplainantInformant"; "Nationality"] (VDict complaint_record)
       = Some (vstr "भारत")
    /\ lookup ["ComplainantInformant"; "PassportNo"] (VDict complaint_record) = Some (vstr "")
    /\ lookup ["ComplainantInformant"; "IDDetails"] (VDict complaint_record) = Some (VList [])
    /\ lookup ["ComplainantInformant"; "Occupation"] (VDict complaint_record)
       = Some (vstr "").
Proof.
  apply (@complainant_fields_are_checked basic_latin (new_service None) complaint_page).
  vm_compute. reflexivity.
Defined.

(* ================================================================== *)
(** ** The phone number and the identity number *)

Section DigitRuns.
Context {U : PyUnicode}.

Lemma match_here_run n prev s pos :
  option_map (fun m => grp m 1) (match_here false (RGrp 1 (times n digit)) prev s pos)
  = digits_at n s.
Proof.
  unfold match_here, times. cbn [rx st_prev st_rest st_caps].
  rewrite match_rep_exact by reflexivity.
  destruct (digits_at n s) as [r|] eqn:E; [|reflexivity].
  cbn [option_map grp group m_caps assoc_nat Nat.eqb st_rest].
  rewrite consumed_skipn by (eapply digits_at_length; eauto).
  now destruct (@digits_at_firstn _ n s r E) as [-> _].
Qed.

Lemma search_from_run n t prev pos :
  option_map (fun m => grp m 1) (search_from false (RGrp 1 (times n digit)) prev t pos)
  = first_run n t.
Proof.
  revert prev pos. induction t as [|c t IH]; intros prev pos.
  - cbn [search_from first_run]. rewrite <- (match_here_run n prev [] pos).
    destruct (match_here false _ prev [] pos); reflexivity.
  - cbn [search_from first_run]. rewrite <- (match_here_run n prev (c :: t) pos).
    destruct (match_here false _ prev (c :: t) pos); cbn [option_map].
    + reflexivity.
    + apply IH.
Qed.

Lemma search_run n t :
  option_map (fun m => grp m 1) (re_search false (RGrp 1 (times n digit)) t)
  = first_run n t.
Proof. apply search_from_run. Qed.

Lemma digits_at_digits n s r : digits_at n s = Some r -> digits r.
Proof.
  revert s r. induction n as [|n IH]; intros s r; simpl.
  - intros [= <-]. constructor.
  - destruct s as [|c s]; [discriminate|].
    destruct (is_digit c) eqn:Ec; [|discriminate].
    destruct (digits_at n s) as [r'|] eqn:E; [|discriminate].
    intros [= <-]. constructor; [exact Ec|]. eapply IH; eauto.
Qed.

Lemma digits_at_shorter m n s r :
  (m <= n)%nat -> digits_at n s = Some r -> exists r', digits_at m s = Some r'.
Proof.
  revert n s r. induction m as [|m IH]; intros n s r Hle; simpl; [eauto|].
  destruct n as [|n]; [lia|]. simpl.
  destruct s as [|c s]; [discriminate|].
  destruct (is_digit c); [|discriminate].
  destruct (digits_at n s) as [r'|] eqn:E; [|discriminate].
  intros _. destruct (IH n s r' ltac:(lia) E) as [r'' ->]. eauto.
Qed.

Lemma first_run_shorter m n s r :
  (m <= n)%nat -> first_run n s = Some r -> exists r', first_run m s = Some r'.
Proof.
  intros Hle. induction s as [|c s IH]; simpl.
  - destruct (digits_at n []) eqn:E; [|discriminate]. intros _.
    destruct (@digits_at_shorter m n _ _ Hle E) as [r' ->]. eauto.
  - destruct (digits_at n (c :: s)) eqn:E.
    + intros _. destruct (@digits_at_shorter m n _ _ Hle E) as [r' ->]. eauto.
    + intros H. destruct (digits_at m (c :: s)); eauto.
Qed.

Lemma first_run_run n s r : first_run n s = Some r -> length r = n /\ digits r.
Proof.
  intros H. apply first_run_digits in H. destruct H as [s' H]. split.
  - now destruct (@digits_at_firstn _ n s' r H).
  - eapply digits_at_digits; eauto.
Qed.

(** The two statements of [_extract_complainant] that store a run. *)
Lemma set_run_get (d : dict) k n t :
  dict_get d k = Some (vstr "") ->
  dict_get match re_search false (RGrp 1 (times n digit)) t with
           | Some m => dict_set d k (VStr (grp m 1))
           | None => d
           end k
  = Some (VStr (or_empty (first_run n t))).
Proof.
  intros Hd. rewrite <- search_run.
  destruct (re_search false _ t); cbn [option_map or_empty].
  - apply dict_get_set_same.
  - exact Hd.
Qed.

Lemma set_run_other (d : dict) k k' n t :
  k <> k' ->
  dict_get match re_search false (RGrp 1 (times n digit)) t with
           | Some m => dict_set d k (VStr (grp m 1))
           | None => d
           end k'
  = dict_get d k'.
Proof.
  intros Hk. destruct (re_search false _ t); [|reflexivity].
  now apply dict_get_set_other.
Qed.

Lemma dict_get_set_span_other (d : dict) m lo hi k k' :
  k <> k' -> dict_get (set_span m lo hi k d) k' = dict_get d k'.
Proof.
  intros Hk. unfold set_span. destruct m as [m|]; [|reflexivity].
  destruct (len_within lo hi _); [|reflexivity]. now apply dict_get_set_other.
Qed.

Lemma complainant_runs c t co :
  _extract_complainant c t = Ok co ->
  dict_get co "PhoneNumber" = Some (VStr (or_empty (first_run 10 t)))
  /\ dict_get co "UIDNo" = Some (VStr (or_empty (first_run 12 t))).
Proof.
  unfold _extract_complainant. cbv zeta.
  set (d2 := set_span _ 2 100 "FatherOrHusbandName" _).
  assert (H2 : dict_get d2 "PhoneNumber" = Some (vstr "")
               /\ dict_get d2 "UIDNo" = Some (vstr "")).
  { unfold d2. rewrite !dict_get_set_span_other by discriminate. split; reflexivity. }
  clearbody d2.
  destruct (re_search true re_dob t) as [m|].
  2: { cbn [bind]. intros [= <-]. destruct H2 as [Hp Hu]. unfold re_mobile, re_uid. split.
       - destruct (re_search true re_address t) as [a|];
           [destruct (len_within 5 200 _)|];
           rewrite ?dict_get_set_other by discriminate;
           rewrite set_run_other by discriminate; now apply set_run_get.
       - destruct (re_search true re_address t) as [a|];
           [destruct (len_within 5 200 _)|];
           rewrite ?dict_get_set_other by discriminate;
           apply set_run_get; rewrite set_run_other by discriminate; exact Hu. }
  destruct (int (grp m 1)) as [y|]; cbn [bind]; [|discriminate].
  set (d3 := if (1900 <=? y)%N && (y <=? 2010)%N then _ else _).
  assert (H3 : dict_get d3 "PhoneNumber" = Some (vstr "")
               /\ dict_get d3 "UIDNo" = Some (vstr "")).
  { unfold d3. destruct (_ && _); [|exact H2].
    rewrite !dict_get_set_other by discriminate. exact H2. }
  clearbody d3. clear H2.
  intros [= <-]. destruct H3 as [Hp Hu]. unfold re_mobile, re_uid. split.
  - destruct (re_search true re_address t) as [a|];
      [destruct (len_within 5 200 _)|];
      rewrite ?dict_get_set_other by discriminate;
      rewrite set_run_other by discriminate; now apply set_run_get.
  - destruct (re_search true re_address t) as [a|];
      [destruct (len_within 5 200 _)|];
      rewrite ?dict_get_set_other by discriminate;
      apply set_run_get; rewrite set_run_other by discriminate; exact Hu.
Qed.

Lemma or_empty_run n t :
  or_empty (first_run n t) = []
  \/ (length (or_empty (first_run n t)) = n /\ digits (or_empty (first_run n t))).
Proof.
  destruct (first_run n t) as [r|] eqn:E; [|now left].
  right. cbn [or_empty]. eapply first_run_run; eauto.
Qed.

Lemma extract_fields_runs (self : FIRExtractionService) ocr_data r :
  extract_fields self ocr_data = Ok r ->
  exists c t phone uid,
    prepare ocr_data = Ok (c, t)
    /\ phone = or_empty (first_run 10 t)
    /\ uid = or_empty (first_run 12 t)
    /\ lookup ["ComplainantInformant"; "PhoneNumber"] (VDict r) = Some (VStr phone)
    /\ lookup ["ComplainantInformant"; "UIDNo"] (VDict r) = Some (VStr uid)
    /\ (phone = [] \/ (length phone = 10%nat /\ digits phone))
    /\ (uid = [] \/ (length uid = 12%nat /\ digits uid))
    /\ (uid <> [] -> phone <> []).
Proof.
  intros H. apply extract_fields_filled in H.
  destruct H as (c & t & fi & co & ac & oc & acts & pl & act & fc & Hp & Hr & Hf).
  destruct Hr as (_ & Hco & _). destruct Hf as (_ & Hl & _).
  destruct (complainant_runs _ _ Hco) as [H1 H2].
  exists c, t, (or_empty (first_run 10 t)), (or_empty (first_run 12 t)).
  split; [exact Hp|]. split; [reflexivity|]. split; [reflexivity|].
  cbn [lookup] in Hl |- *. destruct (dict_get r "ComplainantInformant"); [|discriminate Hl].
  injection Hl as ->. rewrite H1, H2.
  split; [reflexivity|]. split; [reflexivity|].
  split; [apply or_empty_run|]. split; [apply or_empty_run|].
  destruct (first_run 12 t) as [u|] eqn:E; cbn [or_empty]; [|congruence].
  intros _. destruct (@first_run_shorter 10 12 t u ltac:(lia) E) as [p Hp'].
  rewrite Hp'. cbn [or_empty]. apply first_run_run in Hp'. destruct Hp' as [Hlen _].
  destruct p; [discriminate Hlen|discriminate].
Qed.

End DigitRuns.

(** X4.  In every record [extract_fields] returns, the phone number of
    the complainant is the first run of 10 digits of the full text and
    the identity number the first run of 12 digits, wherever they stand
    and whatever precedes them; each is its default when the text has no
    such run.  A text that yields an identity number therefore yields a
    phone number too. *)
Theorem phone_and_uid_are_first_digit_runs {U : PyUnicode} (self : FIRExtractionService)
    (ocr_data : list value) (r : dict) :
  extract_fields self ocr_data = Ok r ->
  exists c t phone uid,
    prepare ocr_data = Ok (c, t)
    /\ phone = or_empty (first_run 10 t)
    /\ uid = or_empty (first_run 12 t)
    /\ lookup ["ComplainantInformant"; "PhoneNumber"] (VDict r) = Some (VStr phone)
    /\ lookup ["ComplainantInformant"; "UIDNo"] (VDict r) = Some (VStr uid)
    /\ (phone = [] \/ (length phone = 10%nat /\ digits phone))
    /\ (uid = [] \/ (length uid = 12%nat /\ digits uid))
    /\ (uid <> [] -> phone <> []).
Proof. apply extract_fields_runs. Qed.

Lemma phone_and_uid_are_first_digit_runs_witness :
  exists c t phone uid,
    prepare (U := basic_latin) uid_page = Ok (c, t)
    /\ phone = or_empty (first_run 10 t)
    /\ uid = or_empty (first_run 12 t)
    /\ lookup ["ComplainantInformant"; "PhoneNumber"] (VDict uid_record) = Some (VStr phone)
    /\ lookup ["ComplainantInformant"; "UIDNo"] (VDict uid_record) = Some (VStr uid)
    /\ (phone = [] \/ (length phone = 10%nat /\ digits phone))
    /\ (uid = [] \/ (length uid = 12%nat /\ digits uid))
    /\ (uid <> [] -> phone <> []).
Proof.
  apply (@phone_and_uid_are_first_digit_runs basic_latin (new_service None) uid_page).
  vm_compute. reflexivity.
Defined.

(* ================================================================== *)
(** ** The place of occurrence, the action taken and the contents *)

Section Spans.
Context {U : PyUnicode}.

(** A labelled span is stored checked, or not at all. *)
Lemma set_span_cases m lo hi k (d : dict) :
  set_span m lo hi k d = d
  \/ exists v, span lo hi v /\ set_span m lo hi k d = dict_set d k v.
Proof.
  unfold set_span. destruct m as [m|]; [|now left].
  destruct (len_within lo hi (strip (grp m 1))) eqn:E; [|now left].
  right. eexists. split; [|reflexivity]. now apply span_strip.
Qed.

Lemma set_span_in_cases m lo hi k1 k2 (d : dict) :
  set_span_in m lo hi k1 k2 d = Ok d
  \/ exists v, span lo hi v /\ set_span_in m lo hi k1 k2 d = setitem_in d k1 k2 v.
Proof.
  unfold set_span_in. destruct m as [m|]; [|now left].
  destruct (len_within lo hi (strip (grp m 1))) eqn:E; [|now left].
  right. eexists. split; [|reflexivity]. now apply span_strip.
Qed.

Lemma place_spans c t pl :
  _extract_place c t = Ok pl ->
  exists direction distance beat address,
    pl = place_of direction distance beat address
    /\ span 2 100 direction /\ span 1 50 distance
    /\ span 0 20 beat /\ span 5 200 address.
Proof.
  unfold _extract_place. cbv zeta.
  destruct (set_span_in_cases (re_search true re_direction t) 2 100
              "DirectionDistanceFromPS" "Direction" place_default)
    as [-> | (v1 & S1 & ->)];
    cbn [setitem_in place_default getitem dict_get dict_set String.eqb Ascii.eqb
         Bool.eqb bind];
    (match goal with
     | |- context [set_span_in ?m 1 50 ?k1 ?k2 ?d] =>
         destruct (set_span_in_cases m 1 50 k1 k2 d) as [-> | (v2 & S2 & ->)]
     end);
    cbn [setitem_in place_default getitem dict_get dict_set String.eqb Ascii.eqb
         Bool.eqb bind];
    (match goal with
     | |- context [set_span ?m 0 20 ?k ?d] =>
         destruct (set_span_cases m 0 20 k d) as [-> | (v3 & S3 & ->)]
     end);
    cbn [dict_set String.eqb Ascii.eqb Bool.eqb];
    (match goal with
     | |- context [set_span ?m 5 200 ?k ?d] =>
         destruct (set_span_cases m 5 200 k d) as [-> | (v4 & S4 & ->)]
     end);
    cbn [dict_set String.eqb Ascii.eqb Bool.eqb];
    intros [= <-]; do 4 eexists;
    (split; [unfold place_of; reflexivity|]);
    repeat split; first [assumption | apply span_default].
Qed.

Lemma action_taken_spans c t act :
  _extract_action_taken c t = Ok act ->
  exists officer rank no,
    act = action_of officer rank no
    /\ span 2 100 officer /\ span 2 50 rank /\ span 0 20 no.
Proof.
  unfold _extract_action_taken. cbv zeta.
  destruct (set_span_in_cases (re_search true re_officer t) 2 100
              "RegisteredCaseInvestigation" "OfficerName" action_taken_default)
    as [-> | (v1 & S1 & ->)];
    cbn [setitem_in action_taken_default getitem dict_get dict_set String.eqb Ascii.eqb
         Bool.eqb bind];
    (match goal with
     | |- context [set_span_in ?m 2 50 ?k1 ?k2 ?d] =>
         destruct (set_span_in_cases m 2 50 k1 k2 d) as [-> | (v2 & S2 & ->)]
     end);
    cbn [setitem_in action_taken_default getitem dict_get dict_set String.eqb Ascii.eqb
         Bool.eqb bind];
    (match goal with
     | |- context [set_span_in ?m 0 20 ?k1 ?k2 ?d] =>
         destruct (set_span_in_cases m 0 20 k1 k2 d) as [-> | (v3 & S3 & ->)]
     end);
    cbn [setitem_in action_taken_default getitem dict_get dict_set String.eqb Ascii.eqb
         Bool.eqb bind];
    intros [= <-]; do 3 eexists;
    (split; [unfold action_of; reflexivity|]);
    repeat split; first [assumption | apply span_default].
Qed.

Lemma extract_fields_spans (self : FIRExtractionService) ocr_data r :
  extract_fields self ocr_data = Ok r ->
  exists direction distance beat address officer rank no contents,
    lookup ["FIR"; "PlaceOfOccurrence"] (VDict r)
    = Some (VDict (place_of direction distance beat address))
    /\ span 2 100 direction /\ span 1 50 distance
    /\ span 0 20 beat /\ span 5 200 address
    /\ lookup ["ActionTaken"] (VDict r) = Some (VDict (action_of officer rank no))
    /\ span 2 100 officer /\ span 2 50 rank /\ span 0 20 no
    /\ lookup ["FirstInformationContents"] (VDict r) = Some (VStr contents)
    /\ strip contents = contents.
Proof.
  intros H. apply extract_fields_filled in H.
  destruct H as (c & t & fi & co & ac & oc & acts & pl & act & fc & _ & Hr & Hf).
  destruct Hr as (_ & _ & _ & _ & _ & Hpl & Hact & Hfc).
  destruct Hf as (_ & _ & _ & _ & _ & Lpl & Lact & Lfc).
  apply place_spans in Hpl. destruct Hpl as (direction & distance & beat & address & -> & Sp).
  apply action_taken_spans in Hact. destruct Hact as (officer & rank & no & -> & Sa).
  exists direction, distance, beat, address, officer, rank, no, fc.
  split; [exact Lpl|]. destruct Sp as (S1 & S2 & S3 & S4).
  do 4 (split; [assumption|]).
  split; [exact Lact|]. destruct Sa as (S5 & S6 & S7).
  do 3 (split; [assumption|]).
  split; [exact Lfc|].
  unfold _extract_first_information in Hfc.
  destruct (re_search true re_contents t); injection Hfc as <-;
    [apply strip_idem|reflexivity].
Qed.

End Spans.

(** X5.  In every record [extract_fields] returns, the place of
    occurrence and the action taken are their skeletons with at most the
    direction, the distance, the beat number and the address, and the
    name, the rank and the number of the registering officer set, each
    to a stripped text whose length is strictly within the bounds of its
    field; the district and state of the place and the seven other
    fields of the action taken are never set.  The first information
    contents are a stripped text. *)
Theorem place_and_action_fields_are_checked {U : PyUnicode} (self : FIRExtractionService)
    (ocr_data : list value) (r : dict) :
  extract_fields self ocr_data = Ok r ->
  exists direction distance beat address officer rank no contents,
    lookup ["FIR"; "PlaceOfOccurrence"] (VDict r)
    = Some (VDict (place_of direction distance beat address))
    /\ span 2 100 direction /\ span 1 50 distance
    /\ span 0 20 beat /\ span 5 200 address
    /\ lookup ["ActionTaken"] (VDict r) = Some (VDict (action_of officer rank no))
    /\ span 2 100 officer /\ span 2 50 rank /\ span 0 20 no
    /\ lookup ["FirstInformationContents"] (VDict r) = Some (VStr contents)
    /\ strip contents = contents.
Proof. apply extract_fields_spans. Qed.

Lemma place_and_action_fields_are_checked_witness :
  exists direction distance beat address officer rank no contents,
    lookup ["FIR"; "PlaceOfOccurrence"] (VDict complaint_record)
    = Some (VDict (place_of direction distance beat address))
    /\ span (U := basic_latin) 2 100 direction /\ span 1 50 distance
    /\ span 0 20 beat /\ span 5 200 address
    /\ lookup ["ActionTaken"] (VDict complaint_record)
       = Some (VDict (action_of officer rank no))
    /\ span 2 100 officer /\ span 2 50 rank /\ span 0 20 no
    /\ lookup ["FirstInformationContents"] (VDict complaint_record) = Some (VStr contents)
    /\ strip contents = contents.
Proof.
  apply (@place_and_action_fields_are_checked basic_latin (new_service None) complaint_page).
  vm_compute. reflexivity.
Defined.

(* ================================================================== *)
(** ** The core of the FIR group *)

Section Core.
Context {U : PyUnicode}.

Lemma fir_no_run prev s pos m :
  match_here true re_fir_no prev s pos = Some m ->
  length (grp m 1) = 4%nat /\ digits (grp m 1).
Proof.
  intros H. apply fir_no_group in H. destruct H as (Hlo & Hhi & Hd).
  cbn [within] in Hhi. split; [lia|exact Hd].
Qed.

Lemma punctuation_removed s :
  Forall (fun c => is_word c || is_space c = true) (re_sub punctuation [] s).
Proof.
  unfold re_sub, punctuation. rewrite sub_class.
  eapply Forall_impl; [|apply Forall_filter_true].
  intros c Hc. cbn [class_match existsb item_match] in Hc.
  destruct (is_word c); [reflexivity|]. destruct (is_space c); [reflexivity|discriminate Hc].
Qed.

Lemma place_name_checked s :
  len_within 2 50 (strip (re_sub punctuation [] s)) = true ->
  place_name (strip (re_sub punctuation [] s)).
Proof.
  intros H. right. split; [apply strip_idem|]. split.
  - unfold len_within in H. apply andb_true_iff in H. destruct H as [H1 H2].
    apply Nat.ltb_lt in H1, H2. lia.
  - apply Forall_strip. apply punctuation_removed.
Qed.

Lemma fir_info_meets c t fi :
  _extract_fir_info c t = Ok fi ->
  (forall k v, dict_get fi k = Some v -> k <> "TypeOfInformation" -> fir_entry k v)
  /\ match dict_get fi "TypeOfInformation" with
     | Some v => v
     | None => vstr ""
     end = type_of_information t.
Proof.
  unfold _extract_fir_info. cbv zeta.
  set (d4 := match re_search true re_police_station t with Some _ => _ | None => _ end).
  assert (H4 : meets fir_entry d4).
  { unfold d4.
    assert (H1 : meets fir_entry
                   match re_search true re_fir_no t with
                   | Some fir_match => dict_set [] "FIRNo" (VStr (grp fir_match 1))
                   | None => []
                   end).
    { destruct (re_search true re_fir_no t) as [m|] eqn:E; [|constructor].
      apply re_search_inv in E. destruct E as (p & s & pos & E).
      apply fir_no_run in E. apply meets_set; [constructor|].
      unfold fir_entry. repeat split; try (intros H; discriminate H).
      intros _. exists (grp m 1). split; [reflexivity|exact E]. }
    revert H1. generalize (match re_search true re_fir_no t with
                           | Some fir_match => dict_set [] "FIRNo" (VStr (grp fir_match 1))
                           | None => []
                           end).
    intros d1 H1.
    assert (H2 : meets fir_entry
                   match re_search false re_date_time t with
                   | Some date_match =>
                       dict_set d1 "DateTimeOfFIR"
                         (VStr (grp date_match 1 ++ py " " ++ grp date_match 2))
                   | None => d1
                   end).
    { destruct (re_search false re_date_time t); [|exact H1].
      apply meets_set; [exact H1|].
      unfold fir_entry. repeat split; intros H; discriminate H. }
    revert H2. generalize (match re_search false re_date_time t with
                           | Some date_match =>
                               dict_set d1 "DateTimeOfFIR"
                                 (VStr (grp date_match 1 ++ py " " ++ grp date_match 2))
                           | None => d1
                           end).
    clear d1 H1. intros d2 H2.
    assert (H3 : meets fir_entry
                   match re_search true re_district t with
                   | Some district_match =>
                       if len_within 2 50
                            (strip (re_sub punctuation [] (strip (grp district_match 1))))
                       then dict_set d2 "District"
                              (VStr (strip (re_sub punctuation []
                                              (strip (grp district_match 1)))))
                       else d2
                   | None => d2
                   end).
    { destruct (re_search true re_district t) as [m|]; [|exact H2].
      destruct (len_within 2 50 _) eqn:E; [|exact H2].
      apply meets_set; [exact H2|].
      unfold fir_entry. repeat split; try (intros H; discriminate H).
      intros _. eexists. split; [reflexivity|]. now apply place_name_checked. }
    revert H3. generalize (match re_search true re_district t with
                           | Some district_match =>
                               if len_within 2 50
                                    (strip (re_sub punctuation []
                                              (strip (grp district_match 1))))
                               then dict_set d2 "District"
                                      (VStr (strip (re_sub punctuation []
                                                      (strip (grp district_match 1)))))
                               else d2
                           | None => d2
                           end).
    clear d2 H2. intros d3 H3.
    destruct (re_search true re_police_station t) as [m|]; [|exact H3].
    destruct (len_within 2 50 _) eqn:E; [|exact H3].
    apply meets_set; [exact H3|].
    unfold fir_entry. repeat split; try (intros H; discriminate H).
    intros _. eexists. split; [reflexivity|]. now apply place_name_checked. }
  clearbody d4.
  assert (H5 : forall d5,
             match re_search false re_year t with
             | Some year_match =>
                 year <- int (grp year_match 1) ;;
                 Ok (if (2000 <=? year)%N && (year <=? 2030)%N
                     then dict_set d4 "Year" (VInt (Z.of_N year)) else d4)
             | None => Ok d4
             end = Ok d5 -> meets fir_entry d5).
  { intros d5. destruct (re_search false re_year t) as [m|]; [|now intros [= <-]].
    destruct (int (grp m 1)) as [y|]; cbn [bind]; [|discriminate].
    destruct (_ && _); intros [= <-]; [|exact H4].
    apply meets_set; [exact H4|].
    unfold fir_entry. repeat split; intros H; discriminate H. }
  destruct (match re_search false re_year t with Some _ => _ | None => _ end) as [d5|];
    cbn [bind]; [|discriminate].
  specialize (H5 d5 eq_refl). clear H4 d4.
  assert (Hnone : dict_get d5 "TypeOfInformation" = None).
  { destruct (dict_get d5 "TypeOfInformation") as [v|] eqn:E; [|reflexivity].
    destruct (@meets_get _ _ _ _ H5 E) as (_ & _ & _ & Hne). now contradiction Hne. }
  assert (Hkeep : forall v k x,
             dict_get (dict_set d5 "TypeOfInformation" v) k = Some x ->
             k <> "TypeOfInformation" -> fir_entry k x).
  { intros v k x Hg Hne. rewrite dict_get_set_other in Hg by congruence.
    eapply meets_get; eauto. }
  unfold type_of_information.
  destruct (contains (py "लिखित") t || contains (py "Written") t).
  - intros [= <-]. split; [apply Hkeep|]. now rewrite dict_get_set_same.
  - destruct (contains (py "मौखिक") t || contains (py "Oral") t).
    + intros [= <-]. split; [apply Hkeep|]. now rewrite dict_get_set_same.
    + intros [= <-]. split; [|now rewrite Hnone].
      intros k v Hg _. eapply meets_get; eauto.
Qed.

Lemma extract_fields_core (self : FIRExtractionService) ocr_data r :
  extract_fields self ocr_data = Ok r ->
  exists c t fir_no district police_station,
    prepare ocr_data = Ok (c, t)
    /\ lookup ["FIR"; "FIRNo"] (VDict r) = Some (VStr fir_no)
    /\ (fir_no = [] \/ (length fir_no = 4%nat /\ digits fir_no))
    /\ lookup ["FIR"; "District"] (VDict r) = Some (VStr district)
    /\ place_name district
    /\ lookup ["FIR"; "PoliceStation"] (VDict r) = Some (VStr police_station)
    /\ place_name police_station
    /\ lookup ["FIR"; "TypeOfInformation"] (VDict r) = Some (type_of_information t).
Proof.
  intros H. apply extract_fields_filled in H.
  destruct H as (c & t & fi & co & ac & oc & acts & pl & act & fc & Hp & Hr & Hf).
  destruct Hr as (Hfi & _). destruct Hf as (Hl & _).
  destruct (fir_info_meets _ _ Hfi) as [He Ht].
  assert (L1 := Hl "FIRNo" ltac:(in_keys)).
  assert (L2 := Hl "District" ltac:(in_keys)).
  assert (L3 := Hl "PoliceStation" ltac:(in_keys)).
  assert (L4 := Hl "TypeOfInformation" ltac:(in_keys)).
  assert (E1 : exists s, match dict_get fi "FIRNo" with
                         | Some v => Some v
                         | None => dict_get fir_default "FIRNo"
                         end = Some (VStr s)
                         /\ (s = [] \/ (length s = 4%nat /\ digits s))).
  { destruct (dict_get fi "FIRNo") as [v|] eqn:E.
    - destruct (He _ _ E ltac:(discriminate)) as (H1 & _).
      destruct (H1 eq_refl) as (s & -> & Hs). exists s. split; [reflexivity|now right].
    - exists []. split; [reflexivity|now left]. }
  assert (E2 : exists s, match dict_get fi "District" with
                         | Some v => Some v
                         | None => dict_get fir_default "District"
                         end = Some (VStr s) /\ place_name s).
  { destruct (dict_get fi "District") as [v|] eqn:E.
    - destruct (He _ _ E ltac:(discriminate)) as (_ & H1 & _).
      destruct (H1 eq_refl) as (s & -> & Hs). exists s. split; [reflexivity|exact Hs].
    - exists []. split; [reflexivity|now left]. }
  assert (E3 : exists s, match dict_get fi "PoliceStation" with
                         | Some v => Some v
                         | None => dict_get fir_default "PoliceStation"
                         end = Some (VStr s) /\ place_name s).
  { destruct (dict_get fi "PoliceStation") as [v|] eqn:E.
    - destruct (He _ _ E ltac:(discriminate)) as (_ & _ & H1 & _).
      destruct (H1 eq_refl) as (s & -> & Hs). exists s. split; [reflexivity|exact Hs].
    - exists []. split; [reflexivity|now left]. }
  destruct E1 as (s1 & E1 & P1). destruct E2 as (s2 & E2 & P2).
  destruct E3 as (s3 & E3 & P3).
  exists c, t, s1, s2, s3.
  split; [exact Hp|]. split; [congruence|]. split; [exact P1|].
  split; [congruence|]. split; [exact P2|].
  split; [congruence|]. split; [exact P3|].
  rewrite L4, <- Ht. destruct (dict_get fi "TypeOfInformation"); reflexivity.
Qed.

End Core.

(** X6.  In every record [extract_fields] returns, the FIR number is the
    default or exactly four decimal digits; the district and the police
    station are the default or a stripped text of letters, digits,
    underscores and whitespace with more than 2 and fewer than 50
    characters; and the type of information is the written one when the
    full text has a keyword of a written complaint, else the oral one
    when it has a keyword of an oral complaint, else the default. *)
Theorem fir_core_fields_are_checked {U : PyUnicode} (self : FIRExtractionService)
    (ocr_data : list value) (r : dict) :
  extract_fields self ocr_data = Ok r ->
  exists c t fir_no district police_station,
    prepare ocr_data = Ok (c, t)
    /\ lookup ["FIR"; "FIRNo"] (VDict r) = Some (VStr fir_no)
    /\ (fir_no = [] \/ (length fir_no = 4%nat /\ digits fir_no))
    /\ lookup ["FIR"; "District"] (VDict r) = Some (VStr district)
    /\ place_name district
    /\ lookup ["FIR"; "PoliceStation"] (VDict r) = Some (VStr police_station)
    /\ place_name police_station
    /\ lookup ["FIR"; "TypeOfInformation"] (VDict r) = Some (type_of_information t).
Proof. apply extract_fields_core. Qed.

Lemma fir_core_fields_are_checked_witness :
  exists c t fir_no district police_station,
    prepare (U := basic_latin) station_page = Ok (c, t)
    /\ lookup ["FIR"; "FIRNo"] (VDict station_record) = Some (VStr fir_no)
    /\ (fir_no = [] \/ (length fir_no = 4%nat /\ digits fir_no))
    /\ lookup ["FIR"; "District"] (VDict station_record) = Some (VStr district)
    /\ place_name district
    /\ lookup ["FIR"; "PoliceStation"] (VDict station_record) = Some (VStr police_station)
    /\ place_name police_station
    /\ lookup ["FIR"; "TypeOfInformation"] (VDict station_record)
       = Some (type_of_information t).
Proof.
  apply (@fir_core_fields_are_checked basic_latin (new_service None) station_page).
  vm_compute. reflexivity.
Defined.

(* ================================================================== *)
(** ** Acts and sections *)

Section Sections.
Context {U : PyUnicode}.

Lemma first_plausible_find l :
  Forall (fun s => exists y, int s = Ok y) l ->
  first_plausible l
  = Ok (map section_entry match find plausible l with Some s => [s] | None => [] end).
Proof.
  induction 1 as [|s l [y Hy] _ IH]; [reflexivity|].
  cbn [first_plausible find]. rewrite Hy. cbn [bind].
  unfold plausible. unfold int in Hy.
  destruct (int_of_str s) as [n|]; [|discriminate Hy]. injection Hy as ->.
  destruct (_ && _); [reflexivity|exact IH].
Qed.

Lemma numbers_digits t : Forall digits (re_findall false re_numbers t).
Proof.
  apply re_findall_Forall. intros p s pos m H.
  apply numbers_group in H. eapply run_of_digits; eauto.
Qed.

Lemma numbers_int t :
  Forall (fun s => exists y, int s = Ok y) (re_findall false re_numbers t).
Proof.
  apply re_findall_Forall. intros p s pos m H.
  apply numbers_group in H. eapply run_of_int; eauto.
Qed.

Lemma sections_digits t : Forall digits (map strip (re_findall true re_sections t)).
Proof.
  apply Forall_map. apply re_findall_Forall. intros p s pos m H.
  apply sections_group in H. apply Forall_strip. eapply run_of_digits; eauto.
Qed.

Lemma acts_sections_entries c t acts :
  _extract_acts_sections c t = Ok acts ->
  exists sections,
    acts = map section_entry sections
    /\ Forall digits sections
    /\ sections
       = match re_findall true re_sections t with
         | [] => match find plausible (re_findall false re_numbers t) with
                 | Some s => [s]
                 | None => []
                 end
         | found => map strip found
         end.
Proof.
  unfold _extract_acts_sections. cbv zeta.
  pose proof (sections_digits t) as Hd.
  destruct (re_findall true re_sections t) as [|x found].
  - cbn [map]. rewrite first_plausible_find by apply numbers_int.
    intros [= <-]. eexists. split; [reflexivity|]. split; [|reflexivity].
    destruct (find plausible _) as [s|] eqn:E; [|constructor].
    apply find_some in E. destruct E as [E _].
    pose proof (numbers_digits t) as Hn. rewrite Forall_forall in Hn.
    constructor; [now apply Hn|constructor].
  - cbn [map]. intros [= <-]. exists (map strip (x :: found)).
    split; [|split; [exact Hd|reflexivity]].
    cbn [map]. f_equal. now rewrite map_map.
Qed.

Lemma extract_fields_sections (self : FIRExtractionService) ocr_data r :
  extract_fields self ocr_data = Ok r ->
  exists c t sections,
    prepare ocr_data = Ok (c, t)
    /\ lookup ["FIR"; "ActsSections"] (VDict r) = Some (VList (map section_entry sections))
    /\ Forall digits sections
    /\ sections
       = match re_findall true re_sections t with
         | [] => match find plausible (re_findall false re_numbers t) with
                 | Some s => [s]
                 | None => []
                 end
         | found => map strip found
         end.
Proof.
  intros H. apply extract_fields_filled in H.
  destruct H as (c & t & fi & co & ac & oc & acts & pl & act & fc & Hp & Hr & Hf).
  destruct Hr as (_ & _ & _ & _ & Hacts & _).
  destruct Hf as (_ & _ & _ & _ & Lacts & _).
  apply acts_sections_entries in Hacts. destruct Hacts as (sections & -> & Hd & Hs).
  exists c, t, sections. auto.
Qed.

End Sections.

(** X7.  In every record [extract_fields] returns, each entry of the
    acts and sections names the same Act, the one of 2023, and its
    section is a string of decimal digits.  The sections are those that
    follow the label "Section" or "BNS" in the full text; when there is
    none, the fallback gives at most one entry: the first number of two
    or three digits that stands as a word of its own and whose value is
    from 100 to 511.  Reading such a number never raises. *)
Theorem sections_name_one_act {U : PyUnicode} (self : FIRExtractionService)
    (ocr_data : list value) (r : dict) :
  extract_fields self ocr_data = Ok r ->
  exists c t sections,
    prepare ocr_data = Ok (c, t)
    /\ lookup ["FIR"; "ActsSections"] (VDict r) = Some (VList (map section_entry sections))
    /\ Forall digits sections
    /\ sections
       = match re_findall true re_sections t with
         | [] => match find plausible (re_findall false re_numbers t) with
                 | Some s => [s]
                 | None => []
                 end
         | found => map strip found
         end.
Proof. apply extract_fields_sections. Qed.

Lemma sections_name_one_act_witness :
  exists c t sections,
    prepare (U := basic_latin) fallback_page = Ok (c, t)
    /\ lookup ["FIR"; "ActsSections"] (VDict fallback_record)
       = Some (VList (map section_entry sections))
    /\ Forall digits sections
    /\ sections
       = match re_findall true re_sections t with
         | [] => match find plausible (re_findall false re_numbers t) with
                 | Some s => [s]
                 | None => []
                 end
         | found => map strip found
         end.
Proof.
  apply (@sections_name_one_act basic_latin (new_service None) fallback_page).
  vm_compute. reflexivity.
Defined.

(* ================================================================== *)
(** ** The dates and the times of the occurrence *)

Section Dates.
Context {U : PyUnicode}.

Lemma digits_at_split n s r : digits_at n s = Some r -> s = r ++ skipn n s.
Proof.
  intros H. destruct (@digits_at_firstn _ n s r H) as [<- _].
  symmetry. apply firstn_skipn.
Qed.

Lemma consumed_app (x y : str) : consumed (x ++ y) y = x.
Proof.
  unfold consumed. rewrite length_app.
  replace (length x + length y - length y)%nat with (length x + 0)%nat by lia.
  rewrite firstn_app_2. simpl. apply app_nil_r.
Qed.

Lemma date_at_split s d rest : date_at s = Some (d, rest) -> s = d ++ rest /\ is_date d.
Proof.
  unfold date_at.
  destruct (digits_at 2 s) as [a|] eqn:Ea; [|discriminate].
  destruct (skipn 2 s) as [|x s1] eqn:E1; [discriminate|].
  destruct (47 =? x)%N eqn:Ex; [|discriminate]. apply N.eqb_eq in Ex. subst x.
  destruct (digits_at 2 s1) as [b|] eqn:Eb; [|discriminate].
  destruct (skipn 2 s1) as [|y s2] eqn:E2; [discriminate|].
  destruct (47 =? y)%N eqn:Ey; [|discriminate]. apply N.eqb_eq in Ey. subst y.
  destruct (digits_at 4 s2) as [c|] eqn:Ec; [|discriminate].
  intros [= <- <-]. split.
  - pose proof (@digits_at_split 2 s a Ea) as Ha. rewrite E1 in Ha.
    pose proof (@digits_at_split 2 s1 b Eb) as Hb. rewrite E2 in Hb.
    pose proof (@digits_at_split 4 s2 c Ec) as Hc.
    rewrite Ha, Hb. rewrite Hc at 1.
    change (py "/") with [47%N].
    repeat (progress (cbn [app]; rewrite <- ?app_assoc)). reflexivity.
  - exists a, b, c. split; [reflexivity|].
    destruct (@digits_at_firstn _ 2 s a Ea) as [_ La].
    destruct (@digits_at_firstn _ 2 s1 b Eb) as [_ Lb].
    destruct (@digits_at_firstn _ 4 s2 c Ec) as [_ Lc].
    repeat split; try assumption; eapply digits_at_digits; eauto.
Qed.

Lemma time_at_split s tm rest : time_at s = Some (tm, rest) -> s = tm ++ rest /\ is_time tm.
Proof.
  unfold time_at.
  destruct (digits_at 2 s) as [a|] eqn:Ea; [|discriminate].
  destruct (skipn 2 s) as [|x s1] eqn:E1; [discriminate|].
  destruct (58 =? x)%N eqn:Ex; [|discriminate]. apply N.eqb_eq in Ex. subst x.
  destruct (digits_at 2 s1) as [b|] eqn:Eb; [|discriminate].
  intros [= <- <-]. split.
  - pose proof (@digits_at_split 2 s a Ea) as Ha. rewrite E1 in Ha.
    pose proof (@digits_at_split 2 s1 b Eb) as Hb.
    rewrite Ha. rewrite Hb at 1.
    change (py ":") with [58%N].
    repeat (progress (cbn [app]; rewrite <- ?app_assoc)). reflexivity.
  - exists a, b. split; [reflexivity|].
    destruct (@digits_at_firstn _ 2 s a Ea) as [_ La].
    destruct (@digits_at_firstn _ 2 s1 b Eb) as [_ Lb].
    repeat split; try assumption; eapply digits_at_digits; eauto.
Qed.

(** The two patterns take the date, or the time, at the head of the
    text, whatever precedes it. *)
Lemma rx_date (A : Type) st (k : mstate -> option A) :
  (forall p q s caps, k (MState p s caps) = k (MState q s caps)) ->
  rx false date st k
  = match date_at (st_rest st) with
    | Some (d, rest) => k (MState None rest (st_caps st))
    | None => None
    end.
Proof.
  intros Hk. unfold date, date_at, times, L, digit. cbn [rx st_rest st_prev st_caps].
  rewrite match_rep_exact by (intros p q [|x s]; reflexivity).
  destruct (digits_at 2 (st_rest st)) as [a|]; [|reflexivity].
  destruct (skipn 2 (st_rest st)) as [|x s1]; [reflexivity|].
  change (py "/") with [47%N]. cbn [match_lit lit_eq st_rest st_prev st_caps].
  destruct (47 =? x)%N; [|reflexivity].
  rewrite match_rep_exact by (intros p q [|y s]; reflexivity).
  destruct (digits_at 2 s1) as [b|]; [|reflexivity].
  destruct (skipn 2 s1) as [|y s2]; [reflexivity|].
  cbn [match_lit lit_eq st_rest st_prev st_caps]. destruct (47 =? y)%N; [|reflexivity].
  rewrite match_rep_exact by (intros p q s; apply Hk).
  destruct (digits_at 4 s2) as [c|]; reflexivity.
Qed.

Lemma rx_time (A : Type) st (k : mstate -> option A) :
  (forall p q s caps, k (MState p s caps) = k (MState q s caps)) ->
  rx false time st k
  = match time_at (st_rest st) with
    | Some (tm, rest) => k (MState None rest (st_caps st))
    | None => None
    end.
Proof.
  intros Hk. unfold time, time_at, times, L, digit. cbn [rx st_rest st_prev st_caps].
  rewrite match_rep_exact by (intros p q [|x s]; reflexivity).
  destruct (digits_at 2 (st_rest st)) as [a|]; [|reflexivity].
  destruct (skipn 2 (st_rest st)) as [|x s1]; [reflexivity|].
  change (py ":") with [58%N]. cbn [match_lit lit_eq st_rest st_prev st_caps].
  destruct (58 =? x)%N; [|reflexivity].
  rewrite match_rep_exact by (intros p q s; apply Hk).
  destruct (digits_at 2 s1) as [b|]; reflexivity.
Qed.

Lemma match_here_dates prev s pos :
  match_here false re_dates prev s pos
  = match date_at s with
    | Some (d, rest) => Some (RMatch pos d [(1%nat, d)] rest)
    | None => None
    end.
Proof.
  unfold match_here, re_dates. cbn [rx]. rewrite rx_date by reflexivity.
  cbn [st_rest st_caps st_prev].
  destruct (date_at s) as [[d rest]|] eqn:E; [|reflexivity].
  apply date_at_split in E. destruct E as [-> _]. now rewrite consumed_app.
Qed.

Lemma match_here_times prev s pos :
  match_here false re_times prev s pos
  = match time_at s with
    | Some (tm, rest) => Some (RMatch pos tm [(1%nat, tm)] rest)
    | None => None
    end.
Proof.
  unfold match_here, re_times. cbn [rx]. rewrite rx_time by reflexivity.
  cbn [st_rest st_caps st_prev].
  destruct (time_at s) as [[tm rest]|] eqn:E; [|reflexivity].
  apply time_at_split in E. destruct E as [-> _]. now rewrite consumed_app.
Qed.

Lemma dates_are_dates t : Forall is_date (re_findall false re_dates t).
Proof.
  apply re_findall_Forall. intros p s pos m. rewrite match_here_dates.
  destruct (date_at s) as [[d rest]|] eqn:E; [|discriminate].
  intros [= <-]. apply date_at_split in E. apply E.
Qed.

Lemma times_are_times t : Forall is_time (re_findall false re_times t).
Proof.
  apply re_findall_Forall. intros p s pos m. rewrite match_here_times.
  destruct (time_at s) as [[tm rest]|] eqn:E; [|discriminate].
  intros [= <-]. apply time_at_split in E. apply E.
Qed.

Lemma occurrence_entries c t oc :
  _extract_occurrence c t = Ok oc ->
  exists day period,
    oc = occurrence_of day
           (VStr (nth 0 (re_findall false re_dates t) []))
           (VStr (nth 1 (re_findall false re_dates t) []))
           period
           (VStr (nth 0 (re_findall false re_times t) []))
           (VStr (nth 1 (re_findall false re_times t) []))
    /\ span 2 20 day /\ span 1 50 period.
Proof.
  unfold _extract_occurrence. cbv zeta.
  destruct (set_span_cases (re_search true re_day t) 2 20 "Day" occurrence_default)
    as [-> | (v1 & S1 & ->)];
    cbn [occurrence_default dict_set String.eqb Ascii.eqb Bool.eqb];
    destruct (re_findall false re_dates t) as [|d1 [|d2 dates]];
    cbn [set_first_two dict_set String.eqb Ascii.eqb Bool.eqb nth];
    (match goal with
     | |- context [set_span ?m 1 50 ?k ?d] =>
         destruct (set_span_cases m 1 50 k d) as [-> | (v2 & S2 & ->)]
     end);
    cbn [dict_set String.eqb Ascii.eqb Bool.eqb];
    destruct (re_findall false re_times t) as [|t1 [|t2 times]];
    cbn [set_first_two dict_set String.eqb Ascii.eqb Bool.eqb nth];
    intros [= <-]; do 2 eexists;
    (split; [unfold occurrence_of; reflexivity|]);
    split; first [assumption | apply span_default].
Qed.

Lemma extract_fields_occurrence (self : FIRExtractionService) ocr_data r :
  extract_fields self ocr_data = Ok r ->
  exists c t day period dates times,
    prepare ocr_data = Ok (c, t)
    /\ dates = re_findall false re_dates t
    /\ times = re_findall false re_times t
    /\ lookup ["FIR"; "OccurrenceOfOffence"] (VDict r)
       = Some (VDict (occurrence_of day (VStr (nth 0 dates [])) (VStr (nth 1 dates []))
                        period (VStr (nth 0 times [])) (VStr (nth 1 times []))))
    /\ span 2 20 day /\ span 1 50 period
    /\ Forall is_date dates /\ Forall is_time times.
Proof.
  intros H. apply extract_fields_filled in H.
  destruct H as (c & t & fi & co & ac & oc & acts & pl & act & fc & Hp & Hr & Hf).
  destruct Hr as (_ & _ & _ & Hoc & _).
  destruct Hf as (_ & _ & _ & Loc & _).
  apply occurrence_entries in Hoc. destruct Hoc as (day & period & -> & S1 & S2).
  exists c, t, day, period, (re_findall false re_dates t), (re_findall false re_times t).
  split; [exact Hp|]. split; [reflexivity|]. split; [reflexivity|].
  split; [exact Loc|]. split; [exact S1|]. split; [exact S2|].
  split; [apply dates_are_dates|apply times_are_times].
Qed.

End Dates.

(** X8.  In every record [extract_fields] returns, the dates of the
    occurrence are the first and the second date of the full text, in
    the order of the text and wherever they stand, and its times the
    first and the second time; a field is its default when the text has
    no such date or time, so the second is set only when the first is.
    What is stored is a date of two, two and four digits with slashes,
    or a time of two and two digits with a colon.  The day and the time
    period are the default or a stripped text within the bounds of
    their fields. *)
Theorem occurrence_takes_the_first_two_dates {U : PyUnicode} (self : FIRExtractionService)
    (ocr_data : list value) (r : dict) :
  extract_fields self ocr_data = Ok r ->
  exists c t day period dates times,
    prepare ocr_data = Ok (c, t)
    /\ dates = re_findall false re_dates t
    /\ times = re_findall false re_times t
    /\ lookup ["FIR"; "OccurrenceOfOffence"] (VDict r)
       = Some (VDict (occurrence_of day (VStr (nth 0 dates [])) (VStr (nth 1 dates []))
                        period (VStr (nth 0 times [])) (VStr (nth 1 times []))))
    /\ span 2 20 day /\ span 1 50 period
    /\ Forall is_date dates /\ Forall is_time times.
Proof. apply extract_fields_occurrence. Qed.

Lemma occurrence_takes_the_first_two_dates_witness :
  exists c t day period dates times,
    prepare (U := basic_latin) complaint_page = Ok (c, t)
    /\ dates = re_findall false re_dates t
    /\ times = re_findall false re_times t
    /\ lookup ["FIR"; "OccurrenceOfOffence"] (VDict complaint_record)
       = Some (VDict (occurrence_of day (VStr (nth 0 dates [])) (VStr (nth 1 dates []))
                        period (VStr (nth 0 times [])) (VStr (nth 1 times []))))
    /\ span 2 20 day /\ span 1 50 period
    /\ Forall is_date dates /\ Forall is_time times.
Proof.
  apply (@occurrence_takes_the_first_two_dates basic_latin (new_service None)
           complaint_page).
  vm_compute. reflexivity.
Defined.

(* ================================================================== *)
(** ** The date and time of the FIR *)

Section Stamp.
Context {U : PyUnicode}.

Lemma match_rep_prev (A : Type) c g (k : option char -> str -> option A) :
  (forall p q s, k p s = k q s) ->
  forall lo hi p q s, match_rep c g lo hi p s k = match_rep c g lo hi q s k.
Proof.
  intros Hk lo hi p q s. destruct s as [|x s]; cbn [match_rep]; now rewrite (Hk p q).
Qed.

Lemma search_from_suffix ic r prev s pos m :
  search_from ic r prev s pos = Some m ->
  exists pre suf prev' pos', s = pre ++ suf /\ match_here ic r prev' suf pos' = Some m.
Proof.
  revert prev pos. induction s as [|c s IH]; intros prev pos; cbn [search_from].
  - destruct (match_here ic r prev [] pos) eqn:E; [|discriminate].
    intros [= <-]. exists [], [], prev, pos. auto.
  - destruct (match_here ic r prev (c :: s) pos) eqn:E.
    + intros [= <-]. exists [], (c :: s), prev, pos. auto.
    + intros H. apply IH in H. destruct H as (pre & suf & p' & pos' & -> & H).
      exists (c :: pre), suf, p', pos'. auto.
Qed.

Lemma findall_hits ic r (hit : str -> Prop) :
  (forall p s pos, hit s -> match_here ic r p s pos <> None) ->
  forall pre suf prev, hit suf -> findall_from ic r 0 prev (pre ++ suf) <> [].
Proof.
  intros H. induction pre as [|c pre IH]; intros suf prev Hs.
  - cbn [app]. destruct suf as [|c suf]; cbn [findall_from].
    + destruct (match_here ic r prev [] 0) eqn:E; [discriminate|].
      exfalso. exact (H _ _ _ Hs E).
    + destruct (match_here ic r prev (c :: suf) 0) eqn:E; [discriminate|].
      exfalso. exact (H _ _ _ Hs E).
  - cbn [app findall_from].
    destruct (match_here ic r prev (c :: pre ++ suf) 0); [discriminate|].
    now apply IH.
Qed.

(** A match of the pattern of the date and time of the FIR: a date at
    the head of the text, whitespace, a time. *)
Lemma match_here_date_time prev s pos m :
  match_here false re_date_time prev s pos = Some m ->
  exists d rest n tm rest',
    date_at s = Some (d, rest)
    /\ time_at (skipn n rest) = Some (tm, rest')
    /\ grp m 1 = d /\ grp m 2 = tm.
Proof.
  unfold match_here, re_date_time, star, space. cbn [rx st_rest st_prev st_caps].
  rewrite rx_date.
  2: { intros p q s' caps. cbn [st_rest st_prev st_caps].
       apply match_rep_prev. intros p' q' s''. cbn [st_rest st_prev st_caps].
       rewrite !rx_time by reflexivity. reflexivity. }
  cbn [st_rest st_prev st_caps].
  destruct (date_at s) as [[d rest]|] eqn:Ed; [|discriminate].
  intros H. apply match_rep_inv in H. destruct H as (n & p' & H & _).
  cbn [st_rest st_prev st_caps] in H.
  rewrite rx_time in H by reflexivity. cbn [st_rest st_prev st_caps] in H.
  destruct (time_at (skipn n rest)) as [[tm rest']|] eqn:Et; [|discriminate H].
  injection H as <-. exists d, rest, n, tm, rest'.
  split; [reflexivity|]. split; [exact Et|].
  apply date_at_split in Ed. destruct Ed as [-> _].
  apply time_at_split in Et. destruct Et as [Et _].
  unfold grp, group. cbn [m_caps assoc_nat Nat.eqb].
  rewrite consumed_app, Et, consumed_app. split; reflexivity.
Qed.

(** The entry of the date and time in what [_extract_fir_info]
    returns. *)
Lemma fir_info_stamp c t fi :
  _extract_fir_info c t = Ok fi ->
  dict_get fi "DateTimeOfFIR"
  = match re_search false re_date_time t with
    | Some m => Some (VStr (grp m 1 ++ py " " ++ grp m 2))
    | None => None
    end.
Proof.
  unfold _extract_fir_info. cbv zeta.
  set (d1 := match re_search true re_fir_no t with Some _ => _ | None => _ end).
  assert (G1 : dict_get d1 "DateTimeOfFIR" = None).
  { unfold d1. destruct (re_search true re_fir_no t); reflexivity. }
  clearbody d1.
  set (stamp := match re_search false re_date_time t with
                | Some m => Some (VStr (grp m 1 ++ py " " ++ grp m 2))
                | None => None
                end).
  set (d2 := match re_search false re_date_time t with Some _ => _ | None => _ end).
  assert (G2 : dict_get d2 "DateTimeOfFIR" = stamp).
  { unfold d2, stamp. destruct (re_search false re_date_time t);
      [apply dict_get_set_same|exact G1]. }
  clearbody d2 stamp. clear d1 G1.
  set (d3 := match re_search true re_district t with Some _ => _ | None => _ end).
  assert (G3 : dict_get d3 "DateTimeOfFIR" = stamp).
  { unfold d3. destruct (re_search true re_district t); [|exact G2].
    destruct (len_within 2 50 _); [|exact G2].
    now rewrite dict_get_set_other by discriminate. }
  clearbody d3. clear d2 G2.
  set (d4 := match re_search true re_police_station t with Some _ => _ | None => _ end).
  assert (G4 : dict_get d4 "DateTimeOfFIR" = stamp).
  { unfold d4. destruct (re_search true re_police_station t); [|exact G3].
    destruct (len_within 2 50 _); [|exact G3].
    now rewrite dict_get_set_other by discriminate. }
  clearbody d4. clear d3 G3.
  assert (G5 : forall d5,
             match re_search false re_year t with
             | Some year_match =>
                 year <- int (grp year_match 1) ;;
                 Ok (if (2000 <=? year)%N && (year <=? 2030)%N
                     then dict_set d4 "Year" (VInt (Z.of_N year)) else d4)
             | None => Ok d4
             end = Ok d5 -> dict_get d5 "DateTimeOfFIR" = stamp).
  { intros d5. destruct (re_search false re_year t) as [m|]; [|now intros [= <-]].
    destruct (int (grp m 1)) as [y|]; cbn [bind]; [|discriminate].
    destruct (_ && _); intros [= <-]; [|exact G4].
    now rewrite dict_get_set_other by discriminate. }
  destruct (match re_search false re_year t with Some _ => _ | None => _ end) as [d5|];
    cbn [bind]; [|discriminate].
  specialize (G5 d5 eq_refl). clear G4 d4.
  destruct (_ || _).
  - intros [= <-]. now rewrite dict_get_set_other by discriminate.
  - destruct (_ || _); intros [= <-]; [|exact G5].
    now rewrite dict_get_set_other by discriminate.
Qed.

Lemma lookup_app p q v :
  lookup (p ++ q) v = match lookup p v with Some x => lookup q x | None => None end.
Proof.
  revert v. induction p as [|k p IH]; intros v; cbn [app lookup]; [reflexivity|].
  destruct v as [|b|z|f|s|l|d]; try reflexivity.
  destruct (dict_get d k); [apply IH|reflexivity].
Qed.

Lemma nth_first_Forall (P : str -> Prop) (l : list str) :
  l <> [] -> Forall P l -> P (nth 0 l []).
Proof. intros Hn Hl. destruct l; [congruence|]. now inversion Hl. Qed.

Lemma extract_fields_stamp (self : FIRExtractionService) ocr_data r :
  extract_fields self ocr_data = Ok r ->
  exists stamp,
    lookup ["FIR"; "DateTimeOfFIR"] (VDict r) = Some (VStr stamp)
    /\ (stamp = []
        \/ exists d tm, stamp = d ++ py " " ++ tm /\ is_date d /\ is_time tm)
    /\ (stamp <> [] ->
        exists date_from time_from,
          lookup ["FIR"; "OccurrenceOfOffence"; "DateFrom"] (VDict r)
          = Some (VStr date_from)
          /\ is_date date_from
          /\ lookup ["FIR"; "OccurrenceOfOffence"; "TimeFrom"] (VDict r)
             = Some (VStr time_from)
          /\ is_time time_from).
Proof.
  intros H. apply extract_fields_filled in H.
  destruct H as (c & t & fi & co & ac & oc & acts & pl & act & fc & Hp & Hr & Hf).
  destruct Hr as (Hfi & _ & _ & Hoc & _).
  destruct Hf as (Lfi & _ & _ & Loc & _).
  specialize (Lfi "DateTimeOfFIR" ltac:(in_keys)).
  rewrite (fir_info_stamp _ _ Hfi) in Lfi.
  apply occurrence_entries in Hoc. destruct Hoc as (day & period & -> & _).
  destruct (re_search false re_date_time t) as [m|] eqn:E.
  2: { exists []. split; [exact Lfi|]. split; [now left|congruence]. }
  apply search_from_suffix in E. destruct E as (pre & suf & p' & pos' & Ht & E).
  apply match_here_date_time in E.
  destruct E as (d & rest & n & tm & rest' & Ed & Et & G1 & G2).
  rewrite G1, G2 in Lfi.
  exists (d ++ py " " ++ tm). split; [exact Lfi|].
  pose proof Ed as Hd. apply date_at_split in Hd. destruct Hd as [Hsuf Hd].
  pose proof Et as Htm. apply time_at_split in Htm. destruct Htm as [_ Htm].
  split; [right; exists d, tm; auto|]. intros _.
  assert (Hdates : re_findall false re_dates t <> []).
  { rewrite Ht. unfold re_findall.
    apply findall_hits with (hit := fun s => date_at s <> None); [|congruence].
    intros p s pos Hs. rewrite match_here_dates.
    destruct (date_at s) as [[? ?]|]; congruence. }
  assert (Htimes : re_findall false re_times t <> []).
  { rewrite Ht, Hsuf, <- (firstn_skipn n rest), !app_assoc. unfold re_findall.
    apply findall_hits with (hit := fun s => time_at s <> None); [|congruence].
    intros p s pos Hs. rewrite match_here_times.
    destruct (time_at s) as [[? ?]|]; congruence. }
  exists (nth 0 (re_findall false re_dates t) []), (nth 0 (re_findall false re_times t) []).
  change ["FIR"; "OccurrenceOfOffence"; "DateFrom"]
    with (["FIR"; "OccurrenceOfOffence"] ++ ["DateFrom"]).
  change ["FIR"; "OccurrenceOfOffence"; "TimeFrom"]
    with (["FIR"; "OccurrenceOfOffence"] ++ ["TimeFrom"]).
  rewrite !lookup_app, Loc.
  split; [reflexivity|].
  split; [apply nth_first_Forall; [exact Hdates|apply dates_are_dates]|].
  split; [reflexivity|].
  apply nth_first_Forall; [exact Htimes|apply times_are_times].
Qed.

End Stamp.

(** X9.  In every record [extract_fields] returns, the date and time of
    the FIR are the default or a date, one space and a time.  The dates
    and times of the occurrence are looked for in the same text, so a
    record that has the date and time of the FIR has the first date and
    the first time of the occurrence set as well. *)
Theorem fir_date_implies_occurrence_date {U : PyUnicode} (self : FIRExtractionService)
    (ocr_data : list value) (r : dict) :
  extract_fields self ocr_data = Ok r ->
  exists stamp,
    lookup ["FIR"; "DateTimeOfFIR"] (VDict r) = Some (VStr stamp)
    /\ (stamp = []
        \/ exists d tm, stamp = d ++ py " " ++ tm /\ is_date d /\ is_time tm)
    /\ (stamp <> [] ->
        exists date_from time_from,
          lookup ["FIR"; "OccurrenceOfOffence"; "DateFrom"] (VDict r)
          = Some (VStr date_from)
          /\ is_date date_from
          /\ lookup ["FIR"; "OccurrenceOfOffence"; "TimeFrom"] (VDict r)
             = Some (VStr time_from)
          /\ is_time time_from).
Proof. apply extract_fields_stamp. Qed.

Lemma fir_date_implies_occurrence_date_witness :
  exists stamp,
    lookup ["FIR"; "DateTimeOfFIR"] (VDict complaint_record) = Some (VStr stamp)
    /\ (stamp = []
        \/ exists d tm,
             stamp = d ++ py " " ++ tm /\ is_date (U := basic_latin) d /\ is_time tm)
    /\ (stamp <> [] ->
        exists date_from time_from,
          lookup ["FIR"; "OccurrenceOfOffence"; "DateFrom"] (VDict complaint_record)
          = Some (VStr date_from)
          /\ is_date date_from
          /\ lookup ["FIR"; "OccurrenceOfOffence"; "TimeFrom"] (VDict complaint_record)
             = Some (VStr time_from)
          /\ is_time time_from).
Proof.
  apply (@fir_date_implies_occurrence_date basic_latin (new_service None) complaint_page).
  vm_compute. reflexivity.
Defined.

(* ================================================================== *)
(** ** The accused *)

Section Accused.
Context {U : PyUnicode}.

Lemma accused_entries c t ac :
  join_texts c = Ok t -> _extract_accused c = Ok ac ->
  exists names,
    ac = map accused_entry names
    /\ names = map strip (filter (fun name => nonempty (strip name))
                            (re_findall true re_accused t))
    /\ Forall (fun name => name <> [] /\ strip name = name) names.
Proof.
  intros Hj. unfold _extract_accused. rewrite Hj. cbn [bind]. intros [= <-].
  eexists. split; [|split; [reflexivity|]].
  - rewrite map_map. reflexivity.
  - apply Forall_map. rewrite Forall_forall. intros name Hin.
    apply filter_In in Hin. destruct Hin as [_ Hn]. split; [|apply strip_idem].
    destruct (strip name); [discriminate Hn|discriminate].
Qed.

Lemma extract_fields_accused (self : FIRExtractionService) ocr_data r :
  extract_fields self ocr_data = Ok r ->
  exists c t names,
    prepare ocr_data = Ok (c, t)
    /\ lookup ["AccusedDetails"] (VDict r) = Some (VList (map accused_entry names))
    /\ names = map strip (filter (fun name => nonempty (strip name))
                            (re_findall true re_accused t))
    /\ Forall (fun name => name <> [] /\ strip name = name) names.
Proof.
  intros H. apply extract_fields_filled in H.
  destruct H as (c & t & fi & co & ac & oc & acts & pl & act & fc & Hp & Hr & Hf).
  destruct Hr as (_ & _ & Hac & _). destruct Hf as (_ & _ & Lac & _).
  destruct (@accused_entries c t ac (@prepare_join _ ocr_data c t Hp) Hac)
    as (names & -> & Hn & Hf).
  exists c, t, names. auto.
Qed.

End Accused.

(** X10.  In every record [extract_fields] returns, the accused are
    the texts that follow the label of an accused and the label of a
    name in the full text, the same text the other routines search,
    each stripped, in the order of the text, those that are blank left
    out: every entry has a name that is not empty, and its alias, its
    relative's name and its address are always empty. *)
Theorem accused_entries_have_a_name {U : PyUnicode} (self : FIRExtractionService)
    (ocr_data : list value) (r : dict) :
  extract_fields self ocr_data = Ok r ->
  exists c t names,
    prepare ocr_data = Ok (c, t)
    /\ lookup ["AccusedDetails"] (VDict r) = Some (VList (map accused_entry names))
    /\ names = map strip (filter (fun name => nonempty (strip name))
                            (re_findall true re_accused t))
    /\ Forall (fun name => name <> [] /\ strip name = name) names.
Proof. apply extract_fields_accused. Qed.

Lemma accused_entries_have_a_name_witness :
  exists c t names,
    prepare (U := basic_latin) accused_page = Ok (c, t)
    /\ lookup ["AccusedDetails"] (VDict accused_record)
       = Some (VList (map accused_entry names))
    /\ names = map strip (filter (fun name => nonempty (strip name))
                            (re_findall true re_accused t))
    /\ Forall (fun name => name <> [] /\ strip name = name) names.
Proof.
  apply (@accused_entries_have_a_name basic_latin (new_service None) accused_page).
  vm_compute. reflexivity.
Defined.

(* ================================================================== *)
(** ** Fragments that do not count *)

Section Ignored.
Context {U : PyUnicode}.

Lemma filterM_app (A : Type) (p : A -> exc bool) (a b : list A) :
  filterM p (a ++ b) = (x <- filterM p a ;; y <- filterM p b ;; Ok (x ++ y)).
Proof.
  induction a as [|a0 a IH]; cbn [app filterM bind].
  - destruct (filterM p b); reflexivity.
  - destruct (p a0) as [keep|]; cbn [bind]; [|reflexivity].
    rewrite IH. destruct (filterM p a); cbn [bind]; [|reflexivity].
    destruct (filterM p b); cbn [bind]; [|reflexivity].
    destruct keep; reflexivity.
Qed.

Lemma clean_ocr_text_app (a b : list value) :
  _clean_ocr_text (a ++ b)
  = (x <- _clean_ocr_text a ;; y <- _clean_ocr_text b ;; Ok (x ++ y)).
Proof.
  induction a as [|item a IH]; cbn [app _clean_ocr_text bind].
  - destruct (_clean_ocr_text b); reflexivity.
  - destruct (getitem item "text") as [t|]; cbn [bind]; [|reflexivity].
    destruct (as_str AttributeError t) as [raw|]; cbn [bind]; [|reflexivity].
    destruct (clean_text raw) as [text|]; [|exact IH].
    destruct (get item "confidence" (VInt 0)); cbn [bind]; [|reflexivity].
    destruct (get item "bbox" (VList [])); cbn [bind]; [|reflexivity].
    rewrite IH. destruct (_clean_ocr_text a); cbn [bind]; [|reflexivity].
    destruct (_clean_ocr_text b); reflexivity.
Qed.

Lemma prepare_ignored before item after :
  ignored item -> prepare (before ++ item :: after) = prepare (before ++ after).
Proof.
  intros Hi. unfold prepare, keep_confident. rewrite !filterM_app.
  cbn [filterM].
  destruct Hi as [(cf & Hc & Hg) | (cf & raw & Hc & Hg & Ht & Hr)];
    rewrite Hc; cbn [bind]; rewrite Hg; cbn [bind].
  - destruct (filterM _ before); cbn [bind]; [|reflexivity].
    destruct (filterM _ after); reflexivity.
  - destruct (filterM _ before) as [fb|]; cbn [bind]; [|reflexivity].
    destruct (filterM _ after) as [fa|]; cbn [bind]; [|reflexivity].
    rewrite !clean_ocr_text_app. cbn [_clean_ocr_text].
    rewrite Ht. cbn [bind as_str]. rewrite Hr. reflexivity.
Qed.

Lemma extract_fields_ignored (self : FIRExtractionService) before item after :
  ignored item ->
  extract_fields self (before ++ item :: after) = extract_fields self (before ++ after).
Proof.
  intros Hi. unfold extract_fields. rewrite !extract_fields_prepare.
  now rewrite prepare_ignored.
Qed.

End Ignored.

(** X11.  A fragment whose confidence is not above 0.3, or whose text
    the cleaning pass drops, does not count: with it or without it,
    wherever it stands among the fragments, [extract_fields] returns the
    same record, or raises the same exception. *)
Theorem ignored_fragments_do_not_count {U : PyUnicode} (self : FIRExtractionService)
    (before after : list value) (item : value) :
  ignored item ->
  extract_fields self (before ++ item :: after) = extract_fields self (before ++ after).
Proof. apply extract_fields_ignored. Qed.

Lemma ignored_fragments_do_not_count_witness :
  ignored (U := basic_latin) (fragment "x" (9 # 10))
  /\ ignored (U := basic_latin) (fragment "UID 123456789012" (1 # 10))
  /\ extract_fields (U := basic_latin) (new_service None) complaint_page
     = extract_fields (new_service None)
         (firstn 4 complaint_page ++ [fragment "UID 123456789012" (1 # 10)]).
Proof.
  assert (H1 : ignored (U := basic_latin) (fragment "x" (9 # 10))).
  { right. exists (VFloat (Finite (9 # 10))), (py "x"). repeat split. }
  assert (H2 : ignored (U := basic_latin) (fragment "UID 123456789012" (1 # 10))).
  { left. exists (VFloat (Finite (1 # 10))). split; reflexivity. }
  split; [exact H1|]. split; [exact H2|].
  exact (@ignored_fragments_do_not_count basic_latin (new_service None)
           (firstn 4 complaint_page) [fragment "UID 123456789012" (1 # 10)]
           (fragment "x" (9 # 10)) H1).
Defined.

(* ================================================================== *)
(** ** The text the routines search *)

Section FullText.
Context {U : PyUnicode}.

Lemma lstrip_head s :
  lstrip s = [] \/ exists c s', lstrip s = c :: s' /\ is_space c = false.
Proof.
  induction s as [|c s IH]; cbn [lstrip]; [now left|].
  destruct (is_space c) eqn:E; [exact IH|]. right. eauto.
Qed.

Lemma rstrip_head c s : is_space c = false -> exists r, rstrip (c :: s) = c :: r.
Proof.
  intros Hc. cbn [rstrip]. destruct (rstrip s); [rewrite Hc|]; eauto.
Qed.

Lemma strip_head t :
  strip t = t -> t <> [] -> exists c t', t = c :: t' /\ is_space c = false.
Proof.
  intros Hs Hn. unfold strip in Hs.
  destruct (lstrip_head t) as [E | (c & s' & E & Hc)]; rewrite E in Hs.
  - cbn in Hs. congruence.
  - destruct (@rstrip_head c s' Hc) as [r Hr]. rewrite Hr in Hs. eauto.
Qed.

Lemma strip_rstrip t : strip t = t -> rstrip t = t.
Proof.
  intros H. rewrite <- H at 1. unfold strip. rewrite rstrip_idem. exact H.
Qed.

Lemma rstrip_app x y : y <> [] -> rstrip y = y -> rstrip (x ++ y) = x ++ y.
Proof.
  intros Hn Hy. induction x as [|c x IH]; cbn [app rstrip]; [exact Hy|].
  rewrite IH. destruct (x ++ y) eqn:E; [|reflexivity].
  apply app_eq_nil in E. destruct E as [_ E]. congruence.
Qed.

Lemma rstrip_cons_inv c x : x <> [] -> rstrip (c :: x) = c :: x -> rstrip x = x.
Proof.
  intros Hn. cbn [rstrip]. destruct (rstrip x) as [|c' r] eqn:E.
  - destruct (is_space c); intros H; [discriminate H|].
    injection H as H. congruence.
  - intros H. injection H as H. exact H.
Qed.

Lemma single_spaced_app x :
  forall b y,
    x <> [] -> rstrip x = x -> single_spaced b x -> single_spaced true y ->
    single_spaced b (x ++ 32%N :: y).
Proof.
  induction x as [|c x IH]; intros b y Hn Hr Hx Hy; [congruence|].
  destruct x as [|c' x].
  - cbn [rstrip] in Hr. cbn [app single_spaced].
    destruct (is_space c); [discriminate Hr|].
    rewrite space_is_space. auto.
  - assert (Hr' : rstrip (c' :: x) = c' :: x) by (eapply rstrip_cons_inv; eauto; discriminate).
    change ((c :: c' :: x) ++ 32%N :: y) with (c :: ((c' :: x) ++ 32%N :: y)).
    cbn [single_spaced] in Hx |- *.
    destruct (is_space c).
    + destruct Hx as (H1 & H2 & H3). repeat split; auto.
      apply IH; auto. discriminate.
    + apply IH; auto. discriminate.
Qed.

Lemma join_nonempty (sep q : str) rest : q <> [] -> join sep (q :: rest) <> [].
Proof.
  intros Hq. cbn [join]. destruct rest; [exact Hq|].
  intros H. apply app_eq_nil in H. destruct H as [H _]. congruence.
Qed.

Lemma join_normal texts :
  Forall normal texts ->
  strip (join (py " ") texts) = join (py " ") texts
  /\ single_spaced false (join (py " ") texts)
  /\ Forall (fun c => allowed c = true) (join (py " ") texts).
Proof.
  induction 1 as [|p texts (Hn & Hs & Hss & Ha) Hrest IH].
  - cbn [join]. repeat split; constructor.
  - destruct texts as [|q rest]; [cbn [join]; auto|].
    destruct IH as (IH1 & IH2 & IH3).
    assert (Hy : join (py " ") (q :: rest) <> []).
    { apply join_nonempty. inversion Hrest as [|? ? (Hq & _) _]. exact Hq. }
    change (join (py " ") (p :: q :: rest))
      with (p ++ 32%N :: join (py " ") (q :: rest)).
    set (y := join (py " ") (q :: rest)) in *.
    destruct (strip_head Hs Hn) as (c & p' & -> & Hc).
    destruct (strip_head IH1 Hy) as (d & y' & Ey & Hd).
    split; [|split].
    + unfold strip. cbn [app lstrip]. rewrite Hc.
      change (c :: p' ++ 32%N :: y) with ((c :: p') ++ [32%N] ++ y).
      apply rstrip_app.
      * discriminate.
      * apply rstrip_app; [exact Hy|now apply strip_rstrip].
    + apply single_spaced_app; auto.
      * now apply strip_rstrip.
      * rewrite Ey in IH2 |- *. cbn [single_spaced] in IH2 |- *.
        rewrite Hd in IH2 |- *. exact IH2.
    + apply Forall_app. split; [exact Ha|].
      constructor; [apply allowed_space|exact IH3].
Qed.

Lemma clean_text_nonempty raw t : clean_text raw = Some t -> t <> [].
Proof.
  unfold clean_text. destruct (_ <? _)%nat; [discriminate|].
  destruct (strip _); [discriminate|]. intros [= <-]. discriminate.
Qed.

Lemma keep_confident_kept ocr_data f :
  keep_confident ocr_data = Ok f ->
  Forall (fun item => exists cf, get item "confidence" (VInt 0) = Ok cf
                                 /\ gt_threshold cf = Ok true) f.
Proof.
  unfold keep_confident. revert f.
  induction ocr_data as [|item l IH]; intros f; cbn [filterM].
  - intros [= <-]. constructor.
  - destruct (get item "confidence" (VInt 0)) as [cf|] eqn:E; cbn [bind]; [|discriminate].
    destruct (gt_threshold cf) as [keep|] eqn:G; cbn [bind]; [|discriminate].
    destruct (filterM _ l) as [rest|]; cbn [bind]; [|discriminate].
    specialize (IH rest eq_refl).
    destruct keep; intros [= <-]; [|exact IH].
    constructor; [eauto|exact IH].
Qed.

Lemma clean_ocr_text_cleaned f c :
  Forall (fun item => exists cf, get item "confidence" (VInt 0) = Ok cf
                                 /\ gt_threshold cf = Ok true) f ->
  _clean_ocr_text f = Ok c ->
  exists texts, Forall2 cleaned_as c texts /\ Forall normal texts.
Proof.
  intros Hf. revert c. induction Hf as [|item f (cf & Hc & Hg) _ IH]; intros c;
    cbn [_clean_ocr_text].
  - intros [= <-]. exists []. split; constructor.
  - destruct (getitem item "text") as [t|]; cbn [bind]; [|discriminate].
    destruct (as_str AttributeError t) as [raw|]; cbn [bind]; [|discriminate].
    destruct (clean_text raw) as [text|] eqn:E; [|apply IH].
    rewrite Hc. cbn [bind].
    destruct (get item "bbox" (VList [])) as [bbox|]; cbn [bind]; [|discriminate].
    destruct (_clean_ocr_text f) as [c'|]; cbn [bind]; [|discriminate].
    destruct (IH c' eq_refl) as (texts & H2 & Hn).
    intros [= <-]. exists (text :: texts). split.
    + constructor; [|exact H2]. exists cf, bbox. auto.
    + constructor; [|exact Hn].
      destruct (clean_text_normal _ E) as (H1 & H3 & H4).
      split; [eapply clean_text_nonempty; eauto|]. auto.
Qed.

Lemma join_texts_cleaned c texts t :
  Forall2 cleaned_as c texts -> join_texts c = Ok t -> t = join (py " ") texts.
Proof.
  intros H2. unfold join_texts.
  assert (Hm : mapM (fun item => getitem item "text") c = Ok (map VStr texts)).
  { induction H2 as [|item text c texts (cf & bbox & -> & _) _ IH]; [reflexivity|].
    cbn [mapM getitem dict_get String.eqb Ascii.eqb Bool.eqb bind].
    rewrite IH. reflexivity. }
  rewrite Hm. cbn [bind].
  assert (Hs : mapM (as_str TypeError) (map VStr texts) = Ok texts).
  { clear. induction texts as [|x texts IH]; [reflexivity|].
    cbn [map mapM as_str bind]. rewrite IH. reflexivity. }
  rewrite Hs. cbn [bind]. now intros [= <-].
Qed.

Lemma prepare_normal ocr_data c t :
  prepare ocr_data = Ok (c, t) ->
  exists texts,
    Forall2 cleaned_as c texts
    /\ Forall normal texts
    /\ t = join (py " ") texts
    /\ strip t = t
    /\ single_spaced false t
    /\ Forall (fun x => allowed x = true) t.
Proof.
  intros Hp. pose proof (@prepare_join _ ocr_data c t Hp) as Hj. unfold prepare in Hp.
  destruct (keep_confident ocr_data) as [f|] eqn:Ef; cbn [bind] in Hp; [|discriminate Hp].
  destruct (_clean_ocr_text f) as [c'|] eqn:Ec; cbn [bind] in Hp; [|discriminate Hp].
  destruct (join_texts c') as [t'|]; cbn [bind] in Hp; [|discriminate Hp].
  injection Hp as -> ->.
  destruct (@clean_ocr_text_cleaned f c (@keep_confident_kept ocr_data f Ef) Ec)
    as (texts & H2 & Hn).
  exists texts. split; [exact H2|]. split; [exact Hn|].
  pose proof (@join_texts_cleaned c texts t H2 Hj) as ->.
  split; [reflexivity|]. now apply join_normal.
Qed.

End FullText.

(** X12.  What [extract_fields] hands to its routines is normalized:
    every cleaned fragment has the keys text, confidence and bbox, a
    confidence above the threshold and a text that is not empty,
    stripped, with single spaces for whitespace and only the characters
    the noise pattern keeps; the full text is these texts joined by one
    space, in the order of the fragments, so it too is stripped, has
    single spaces for whitespace (no tab, no newline) and only those
    characters. *)
Theorem routines_see_normalized_text {U : PyUnicode}
    (ocr_data c : list value) (t : str) :
  prepare ocr_data = Ok (c, t) ->
  exists texts,
    Forall2 cleaned_as c texts
    /\ Forall normal texts
    /\ t = join (py " ") texts
    /\ strip t = t
    /\ single_spaced false t
    /\ Forall (fun x => allowed x = true) t.
Proof. apply prepare_normal. Qed.

Lemma routines_see_normalized_text_witness :
  exists c t,
    prepare (U := basic_latin) station_page = Ok (c, t)
    /\ exists texts,
         Forall2 cleaned_as c texts
         /\ Forall normal texts
         /\ t = join (py " ") texts
         /\ strip t = t
         /\ single_spaced false t
         /\ Forall (fun x => allowed x = true) t.
Proof.
  eexists. eexists. split; [vm_compute; reflexivity|].
  apply (@routines_see_normalized_text basic_latin station_page).
  vm_compute. reflexivity.
Defined.

(* ================================================================== *)
(** ** Refinement, again *)



Lemma retrain_persists (w : World) (improved : dict) :
  (5 <= length (get_training_samples w))%nat ->
  _analyze_training_samples (get_training_samples w) = Ok improved ->
  status (retrain_model w) = Some (vstr "success")
  /\ (write_goes_through improved w = true ->
      pattern_file (world (retrain_model w)) = Some (VDict improved)
      /\ forall k,
           dict_get (patterns (new_service (pattern_file (world (retrain_model w))))) k
           = match dict_get improved k with
             | Some v => Some v
             | None => dict_get baseline_patterns k
             end)
  /\ (write_goes_through improved w = false -> pattern_io w <> OpenFails ->
      pattern_file (world (retrain_model w)) = None
      /\ patterns (new_service (pattern_file (world (retrain_model w))))
         = baseline_patterns)
  /\ (pattern_io w = OpenFails ->
      pattern_file (world (retrain_model w)) = pattern_file w)
  /\ (object_or_nothing (pattern_file w) ->
      exists s,
        local_service (retrain_model w) = Some s
        /\ forall k,
             dict_get (patterns s) k
             = match dict_get improved k with
               | Some v => Some v
               | None => dict_get (patterns (new_service (pattern_file w))) k
               end).
Proof.
  intros Hn Ha. pose proof (analysis_keys_nodup _ Ha) as Hnd.
  unfold retrain_model. rewrite (length_ge_5 _ Hn), Ha.
  cbn [world local_service response status].
  split; [reflexivity|]. split; [|split; [|split]].
  - intros Hw. rewrite (save_goes_through _ _ Hw). split; [reflexivity|].
    intros k. cbn [new_service _load_improved_patterns patterns].
    now apply dict_get_update.
  - intros Hw Ho. unfold write_goes_through in Hw.
    unfold _save_improved_patterns. cbn [pattern_file].
    destruct (pattern_io w); [rewrite Hw| congruence |]; split; reflexivity.
  - intros Ho. unfold _save_improved_patterns. cbn [pattern_file]. now rewrite Ho.
  - intros _. eexists. split; [reflexivity|]. intros k. cbn [patterns].
    now apply dict_get_update.
Qed.

(** X14.  After a refinement that succeeds, the pattern file holds the
    derived rules and nothing else, provided the write goes through: a
    service constructed later, which loads the file over the baseline,
    then holds each derived rule and the baseline rule where none was
    derived, so a rule of the earlier file that this run did not derive
    is lost to later services.  The answer is "success" also when the
    write fails: when a rule cannot be encoded, or the file system
    fails after the file is opened, the file can no longer be read and
    a later service holds the baseline only; when the file cannot be
    opened it is as it was.  The service the call built holds each
    derived rule and, where none was derived, what a service loaded
    from the earlier file held. *)
Theorem derived_rules_replace_the_pattern_file (w : World) (improved : dict) :
  (5 <= length (get_training_samples w))%nat ->
  _analyze_training_samples (get_training_samples w) = Ok improved ->
  status (retrain_model w) = Some (vstr "success")
  /\ (write_goes_through improved w = true ->
      pattern_file (world (retrain_model w)) = Some (VDict improved)
      /\ forall k,
           dict_get (patterns (new_service (pattern_file (world (retrain_model w))))) k
           = match dict_get improved k with
             | Some v => Some v
             | None => dict_get baseline_patterns k
             end)
  /\ (write_goes_through improved w = false -> pattern_io w <> OpenFails ->
      pattern_file (world (retrain_model w)) = None
      /\ patterns (new_service (pattern_file (world (retrain_model w))))
         = baseline_patterns)
  /\ (pattern_io w = OpenFails ->
      pattern_file (world (retrain_model w)) = pattern_file w)
  /\ (object_or_nothing (pattern_file w) ->
      exists s,
        local_service (retrain_model w) = Some s
        /\ forall k,
             dict_get (patterns s) k
             = match dict_get improved k with
               | Some v => Some v
               | None => dict_get (patterns (new_service (pattern_file w))) k
               end).
Proof. apply retrain_persists. Qed.

Lemma derived_rules_replace_the_pattern_file_witness :
  (exists improved,
     _analyze_training_samples (get_training_samples (world_of district_samples))
     = Ok improved
     /\ write_goes_through improved (world_of district_samples) = true
     /\ pattern_file (world (retrain_model (world_of district_samples)))
        = Some (VDict improved))
  /\ (exists improved,
        _analyze_training_samples (get_training_samples (world_of surrogate_samples))
        = Ok improved
        /\ write_goes_through improved (world_of surrogate_samples) = false
        /\ status (retrain_model (world_of surrogate_samples)) = Some (vstr "success")
        /\ pattern_file (world (retrain_model (world_of surrogate_samples))) = None).
Proof.
  split.
  - eexists. split; [vm_compute; reflexivity|]. split; [vm_compute; reflexivity|].
    refine (proj1 (proj1 (proj2 (@derived_rules_replace_the_pattern_file
                                   (world_of district_samples) _ _ _)) _)).
    + vm_compute. apply le_n.
    + vm_compute. reflexivity.
    + vm_compute. reflexivity.
  - eexists. split; [vm_compute; reflexivity|]. split; [vm_compute; reflexivity|].
    split.
    + refine (proj1 (@derived_rules_replace_the_pattern_file
                       (world_of surrogate_samples) _ _ _)).
      * vm_compute. apply le_n.
      * vm_compute. reflexivity.
    + refine (proj1 (proj1 (proj2 (proj2 (@derived_rules_replace_the_pattern_file
                                            (world_of surrogate_samples) _ _ _))) _ _)).
      * vm_compute. apply le_n.
      * vm_compute. reflexivity.
      * vm_compute. reflexivity.
      * discriminate.
Defined.

(* ================================================================== *)
(** ** When the analysis raises *)

Lemma collect_returns f group field samples :
  forall acc,
    (exists l, collect f group field samples acc = Ok l)
    <-> Forall (fun s => exists v, ground_truth_field group field s = Ok v
                                   /\ (truthy v = true -> exists x, f v = Ok x)) samples.
Proof.
  induction samples as [|s samples IH]; intros acc; cbn [collect].
  - split; [constructor|eauto].
  - destruct (ground_truth_field group field s) as [v|e] eqn:E; cbn [bind].
    + destruct (truthy v) eqn:T.
      * destruct (f v) as [x|e] eqn:F; cbn [bind].
        -- rewrite IH. split.
           ++ intros H. constructor; [|exact H]. exists v. split; [exact E|eauto].
           ++ intros H. now inversion H.
        -- split.
           ++ intros [l H]. discriminate H.
           ++ intros H. inversion H as [|? ? (v' & Hv & Hf) _]; subst.
              rewrite E in Hv. injection Hv as <-.
              destruct (Hf T) as [x Hx]. congruence.
      * rewrite IH. split.
        -- intros H. constructor; [|exact H]. exists v. split; [exact E|].
           intros H'. congruence.
        -- intros H. now inversion H.
    + split.
      * intros [l H]. discriminate H.
      * intros H. inversion H as [|? ? (v' & Hv & _) _]. congruence.
Qed.

Lemma collect_escape_returns group field samples :
  (exists l, collect re_escape group field samples [] = Ok l)
  <-> forallb (usable group field) samples = true.
Proof.
  rewrite collect_returns, forallb_forall, Forall_forall.
  split; intros H s Hs; specialize (H s Hs).
  - destruct H as (v & Hv & Hf). unfold usable. rewrite Hv.
    destruct (truthy v); [|reflexivity].
    destruct (Hf eq_refl) as [x Hx]. destruct v; try discriminate Hx. reflexivity.
  - unfold usable in H. destruct (ground_truth_field group field s) as [v|]; [|discriminate H].
    exists v. split; [reflexivity|]. intros T. rewrite T in H.
    destruct v; try discriminate H. cbn [re_escape]. eauto.
Qed.

Lemma collect_plain_returns group field samples :
  (exists l, collect (fun v => Ok v) group field samples [] = Ok l)
  <-> forallb (fun s => match ground_truth_field group field s with
                        | Ok _ => true
                        | Raise _ => false
                        end) samples = true.
Proof.
  rewrite collect_returns, forallb_forall, Forall_forall.
  split; intros H s Hs; specialize (H s Hs).
  - destruct H as (v & -> & _). reflexivity.
  - destruct (ground_truth_field group field s) as [v|]; [|discriminate H].
    exists v. split; [reflexivity|eauto].
Qed.

Lemma forallb_and (A : Type) (f g : A -> bool) l :
  forallb (fun x => f x && g x) l = forallb f l && forallb g l.
Proof.
  induction l as [|x l IH]; [reflexivity|]. cbn [forallb]. rewrite IH.
  destruct (f x), (g x), (forallb f l); reflexivity.
Qed.

Lemma analysis_returns samples :
  (exists improved, _analyze_training_samples samples = Ok improved)
  <-> forallb analysable samples = true.
Proof.
  unfold analysable. rewrite !forallb_and, !andb_true_iff.
  rewrite <- collect_plain_returns, <- !collect_escape_returns.
  unfold _analyze_training_samples. cbv zeta.
  destruct (collect (fun v => Ok v) "FIR" "FIRNo" samples []) as [l1|e1]; cbn [bind].
  2: { split; [intros [? H]; discriminate H|]. intros [[[[? H] _] _] _]. discriminate H. }
  destruct (collect re_escape "FIR" "District" samples []) as [l2|e2]; cbn [bind].
  2: { split; [intros [? H]; discriminate H|]. intros [[[_ [? H]] _] _]. discriminate H. }
  destruct (collect re_escape "FIR" "PoliceStation" samples []) as [l3|e3]; cbn [bind].
  2: { split; [intros [? H]; discriminate H|]. intros [[_ [? H]] _]. discriminate H. }
  destruct (collect re_escape "ComplainantInformant" "Name" samples []) as [l4|e4];
    cbn [bind].
  2: { split; [intros [? H]; discriminate H|]. intros [_ [? H]]. discriminate H. }
  split; eauto 10.
Qed.

Lemma retrain_status (w : World) :
  (5 <= length (get_training_samples w))%nat ->
  status (retrain_model w)
  = Some (vstr (if forallb analysable (get_training_samples w)
                then "success" else "error")).
Proof.
  intros Hn. unfold retrain_model. rewrite (length_ge_5 _ Hn).
  pose proof (analysis_returns (get_training_samples w)) as Ha.
  destruct (_analyze_training_samples (get_training_samples w)) as [improved|e].
  - destruct Ha as [Ha _]. rewrite Ha by eauto. reflexivity.
  - destruct (forallb analysable (get_training_samples w)); [|reflexivity].
    destruct Ha as [_ Ha]. destruct (Ha eq_refl) as [? H]. discriminate H.
Qed.

(** X15.  With five samples or more, [retrain_model] answers "success"
    exactly when every sample can be analysed, and "error" otherwise: a
    sample can be analysed when its ground truth and the groups FIR and
    ComplainantInformant in it, where present, are objects, and its
    district, police station and complainant name are each a string or a
    value the analysis skips (absent, empty, zero, null).  One sample
    with, say, a number for a district makes the refinement fail for
    all. *)
Theorem retrain_succeeds_exactly_on_analysable_samples (w : World) :
  (5 <= length (get_training_samples w))%nat ->
  status (retrain_model w)
  = Some (vstr (if forallb analysable (get_training_samples w)
                then "success" else "error")).
Proof. apply retrain_status. Qed.

Lemma retrain_succeeds_exactly_on_analysable_samples_witness :
  forallb analysable numeric_district_samples = false
  /\ status (retrain_model (world_of numeric_district_samples)) = Some (vstr "error").
Proof.
  split; [vm_compute; reflexivity|].
  rewrite (@retrain_succeeds_exactly_on_analysable_samples
             (world_of numeric_district_samples));
    [vm_compute; reflexivity|vm_compute; apply le_n].
Defined.
